(** * BRAINAPP: the SQLite <-> Supabase synchronisation service

    A shallow embedding of
      - lib/database.js      (initDatabase, getDb, withRetry),
      - lib/sync-service.js  (class SyncService),
      - repositories/projects.js and repositories/tasks.js
    and the properties of the synchronisation engine checked against it.

    Conventions of the embedding.
      - An async function is a state transformer over [World] that either
        returns a value or throws; effects of a call that throws are kept
        (SQLite statements are not run in a transaction).  Calls do not
        overlap: each runs to its end before the next one starts, and "a
        pass is in flight" is the state in which [syncInProgress] is set.
      - Everything outside the JavaScript process (the Supabase server, the
        device storage that SQLite opens, the clock) is a hidden state of
        an arbitrary type [Ext], driven by the functions of [Outside].
        The general theorems hold for every such behaviour; the runs on
        concrete inputs use the server of [double].
      - A Supabase call resolves to [{data, error}].  In the sync pass a
        rejected promise of the client and a reply with [error] set reach
        the same catch block, so both are [Failed]; the export is
        modelled for a client that resolves every call, as supabase-js
        does unless [throwOnError()] is asked for. *)

From Stdlib Require Import ZArith List String Bool Lia DecimalString Sorted.
Import ListNotations.
Open Scope string_scope.
Open Scope Z_scope.
Open Scope list_scope.

Set Implicit Arguments.

(* ===================================================================== *)
(** ** Values, rows and tables *)
(* ===================================================================== *)

(** A value bound to or read from a SQL statement, or a property of a JS
    record ([undefined] is bound as NULL). *)
Inductive Value : Type :=
  | VNull
  | VInt (z : Z)
  | VText (s : string).

(** A record as JavaScript sees it: an object, keys in column order. *)
Definition Row := list (string * Value).

(** [record[key]] *)
Fixpoint field (key : string) (r : Row) : Value :=
  match r with
  | [] => VNull
  | (k, v) :: r' => if String.eqb key k then v else field key r'
  end.

(** [Object.keys(record)] *)
Definition keys (r : Row) : list string := map fst r.

(** [delete record[key]] *)
Definition delete_key (key : string) (r : Row) : Row :=
  filter (fun kv => negb (String.eqb key (fst kv))) r.

(** [localColumns.includes(key)] *)
Definition includes (cols : list string) (key : string) : bool :=
  existsb (String.eqb key) cols.

(** The integer held by [record.id], when there is one. *)
Definition row_id (r : Row) : option Z :=
  match field "id" r with
  | VInt z => Some z
  | _ => None
  end.

(** SQL [=] between a stored value and a bound parameter: NULL equals
    nothing. *)
Definition sql_eq (a b : Value) : bool :=
  match a, b with
  | VInt x, VInt y => Z.eqb x y
  | VText x, VText y => String.eqb x y
  | _, _ => false
  end.

(** A business table: its rows in rowid order and the largest rowid ever
    handed out (sqlite_sequence, for AUTOINCREMENT). *)
Record Table : Type := mkTable {
  rows : list Row;
  seq : Z
}.

(** A column of the local schema and whether it is NOT NULL. *)
Definition Schema := list (string * bool).

(** The CREATE TABLE statements of [_initDatabase]. *)
Definition schema_of (tableName : string) : option Schema :=
  if String.eqb tableName "projects" then
    Some [("id", false); ("name", true)]
  else if String.eqb tableName "tasks" then
    Some [("id", false); ("project_id", true); ("title", true);
          ("description", false)]
  else if String.eqb tableName "tags" then
    Some [("id", false); ("name", true)]
  else if String.eqb tableName "task_tags" then
    Some [("task_id", true); ("tag_id", true)]
  else None.

Definition has_column (sch : Schema) (c : string) : bool :=
  existsb (fun cn => String.eqb c (fst cn)) sch.

(** [sync_status] only ever holds one of three literals. *)
Inductive SyncStatus : Type := pending | synced | error.

(** A row of [sync_metadata].  The position in the table's list stands
    for the AUTOINCREMENT [id].  [supabase_id] is a TEXT column that
    receives the integer primary keys of the remote tables: SQLite keeps
    such a key as its decimal text, a non-empty string, so the JavaScript
    test [if (change.supabase_id)] holds exactly when the column is not
    NULL.  The column is therefore an [option Z]. *)
Record MetaRow : Type := mkMeta {
  table_name : string;
  record_id : Z;
  sync_status : SyncStatus;
  supabase_id : option Z;
  last_modified : Z;
  created_at : Z;
  updated_at : Z
}.

(** A row of [sync_log]. *)
Record LogRow : Type := mkLog {
  sync_type : string;
  status : string;
  message : string;
  records_synced : nat;
  error_details : option string;
  started_at : Z;
  completed_at : Z
}.

(** The content of projects.db.  The four business tables are created by
    [_initDatabase] before anything else can run; the two sync tables are
    created in a try block of their own and may be missing ([None]). *)
Record DbFile : Type := mkDb {
  projects : Table;
  tasks : Table;
  tags : Table;
  task_tags : Table;
  sync_metadata : option (list MetaRow);
  sync_log : option (list LogRow)
}.

(** [error.message] of a thrown or returned error. *)
Definition Error := string.

(** What a Supabase call resolves to. *)
Inductive Reply (A : Type) : Type :=
  | Data (a : A)
  | Failed (e : Error).
Arguments Data {A} a.
Arguments Failed {A} e.

(** [SYNC_CONFIG.SYNC_STATUS] *)
Inductive Phase : Type := IDLE | SYNCING | SUCCESS | ERROR.

(** What [notifyListeners] hands to each listener. *)
Record Notification : Type := mkNote {
  note_status : Phase;
  note_message : string
}.

(** What [onProgress] receives from [exportAllDataToSupabase]. *)
Record Progress : Type := mkProgress {
  progress_table : string;
  progress_exported : nat;
  progress_total : nat;
  progress_errors : nat
}.

(* ===================================================================== *)
(** ** The world outside the process *)
(* ===================================================================== *)

(** The behaviour of everything the service talks to, over a hidden
    state [Ext].  The Supabase client, [isSupabaseConfigured] and
    [SYNC_CONFIG] come from lib/supabase.js. *)
Record Outside (Ext : Type) : Type := mkOutside {
  (** [isSupabaseConfigured()] *)
  isSupabaseConfigured : bool;
  (** [SYNC_CONFIG.BATCH_SIZE] *)
  BATCH_SIZE : nat;
  (** [supabase.from('projects').select('count').limit(1)] *)
  sb_ping : Ext -> Reply unit * Ext;
  (** [supabase.from(t).select('*')] *)
  sb_select : string -> Ext -> Reply (list Row) * Ext;
  (** [supabase.from(t).select('id').eq('id', v).single()], its [data] *)
  sb_find : string -> Value -> Ext -> option Row * Ext;
  (** [supabase.from(t).insert(r).select().single()] *)
  sb_insert : string -> Row -> Ext -> Reply Row * Ext;
  (** [supabase.from(t).update(r).eq('id', i).select().single()] *)
  sb_update : string -> Row -> Z -> Ext -> Reply Row * Ext;
  (** [supabase.from(t).delete().eq('id', i)] *)
  sb_delete : string -> Z -> Ext -> Reply unit * Ext;
  (** [supabase.from(t).delete().neq('id', 0)] *)
  sb_clear : string -> Ext -> Reply unit * Ext;
  (** [SQLite.openDatabaseAsync('projects.db')]: does it open? *)
  sqlite_open : Ext -> bool * Ext;
  (** what [SQLite.openDatabaseAsync] rejects with when it does not open *)
  sqlite_error : Ext -> Error;
  (** does a CREATE TABLE of a missing sync table go through? *)
  sqlite_create : string -> Ext -> bool * Ext;
  (** [CURRENT_TIMESTAMP], [Date.now()] *)
  now : Ext -> Z
}.

(* ===================================================================== *)
(** ** The state of the process *)
(* ===================================================================== *)

Record World (Ext : Type) : Type := mkWorld {
  (** database.js: is the module variable [db] set? *)
  db : bool;
  (** the database file *)
  file : DbFile;
  (** the SyncService singleton *)
  isOnline : bool;
  syncInProgress : bool;
  lastSyncTime : option Z;
  (** what the sync listeners have been told, oldest first *)
  heard : list Notification;
  (** what the [onProgress] callback has been told, oldest first *)
  reported : list Progress;
  (** the array [SYNC_CONFIG.TABLES], one object shared by every user *)
  TABLES : list string;
  (** the hidden state of the outside *)
  ext : Ext
}.

Arguments db {Ext} w.
Arguments file {Ext} w.
Arguments isOnline {Ext} w.
Arguments syncInProgress {Ext} w.
Arguments lastSyncTime {Ext} w.
Arguments heard {Ext} w.
Arguments reported {Ext} w.
Arguments TABLES {Ext} w.
Arguments ext {Ext} w.

Section Setters.
Context {Ext : Type}.
Implicit Type w : World Ext.

Definition set_db (b : bool) w : World Ext :=
  mkWorld b (file w) (isOnline w) (syncInProgress w) (lastSyncTime w)
          (heard w) (reported w) (TABLES w) (ext w).
Definition set_file (f : DbFile) w : World Ext :=
  mkWorld (db w) f (isOnline w) (syncInProgress w) (lastSyncTime w)
          (heard w) (reported w) (TABLES w) (ext w).
Definition set_isOnline (b : bool) w : World Ext :=
  mkWorld (db w) (file w) b (syncInProgress w) (lastSyncTime w)
          (heard w) (reported w) (TABLES w) (ext w).
Definition set_syncInProgress (b : bool) w : World Ext :=
  mkWorld (db w) (file w) (isOnline w) b (lastSyncTime w)
          (heard w) (reported w) (TABLES w) (ext w).
Definition set_lastSyncTime (t : option Z) w : World Ext :=
  mkWorld (db w) (file w) (isOnline w) (syncInProgress w) t
          (heard w) (reported w) (TABLES w) (ext w).
Definition set_heard (h : list Notification) w : World Ext :=
  mkWorld (db w) (file w) (isOnline w) (syncInProgress w) (lastSyncTime w)
          h (reported w) (TABLES w) (ext w).
Definition set_reported (p : list Progress) w : World Ext :=
  mkWorld (db w) (file w) (isOnline w) (syncInProgress w) (lastSyncTime w)
          (heard w) p (TABLES w) (ext w).
Definition set_TABLES (t : list string) w : World Ext :=
  mkWorld (db w) (file w) (isOnline w) (syncInProgress w) (lastSyncTime w)
          (heard w) (reported w) t (ext w).
Definition set_ext (e : Ext) w : World Ext :=
  mkWorld (db w) (file w) (isOnline w) (syncInProgress w) (lastSyncTime w)
          (heard w) (reported w) (TABLES w) e.
End Setters.

Definition set_projects (t : Table) (f : DbFile) : DbFile :=
  mkDb t (tasks f) (tags f) (task_tags f) (sync_metadata f) (sync_log f).
Definition set_tasks (t : Table) (f : DbFile) : DbFile :=
  mkDb (projects f) t (tags f) (task_tags f) (sync_metadata f) (sync_log f).
Definition set_tags (t : Table) (f : DbFile) : DbFile :=
  mkDb (projects f) (tasks f) t (task_tags f) (sync_metadata f) (sync_log f).
Definition set_task_tags (t : Table) (f : DbFile) : DbFile :=
  mkDb (projects f) (tasks f) (tags f) t (sync_metadata f) (sync_log f).
Definition set_sync_metadata (m : option (list MetaRow)) (f : DbFile) : DbFile :=
  mkDb (projects f) (tasks f) (tags f) (task_tags f) m (sync_log f).
Definition set_sync_log (l : option (list LogRow)) (f : DbFile) : DbFile :=
  mkDb (projects f) (tasks f) (tags f) (task_tags f) (sync_metadata f) l.

(* ===================================================================== *)
(** ** Async functions: state, return and throw *)
(* ===================================================================== *)

Inductive Outcome (A : Type) : Type :=
  | Returned (a : A)
  | Thrown (e : Error).
Arguments Returned {A} a.
Arguments Thrown {A} e.

Definition Async (Ext A : Type) : Type := World Ext -> Outcome A * World Ext.

Section Monad.
Context {Ext : Type}.

Definition ret {A} (a : A) : Async Ext A := fun w => (Returned a, w).

Definition throw {A} (e : Error) : Async Ext A := fun w => (Thrown e, w).

Definition bind {A B} (m : Async Ext A) (k : A -> Async Ext B) : Async Ext B :=
  fun w => match m w with
           | (Returned a, w') => k a w'
           | (Thrown e, w') => (Thrown e, w')
           end.

(** [try { m } catch (e) { handler e }] *)
Definition try_catch {A} (m : Async Ext A) (handler : Error -> Async Ext A)
  : Async Ext A :=
  fun w => match m w with
           | (Returned a, w') => (Returned a, w')
           | (Thrown e, w') => handler e w'
           end.

(** [try { m } finally { cleanup }], for a cleanup that cannot throw *)
Definition try_finally {A} (m : Async Ext A) (cleanup : World Ext -> World Ext)
  : Async Ext A :=
  fun w => let (r, w') := m w in (r, cleanup w').

(** read and change the process state *)
Definition gets {A} (f : World Ext -> A) : Async Ext A :=
  fun w => (Returned (f w), w).
Definition modify (f : World Ext -> World Ext) : Async Ext unit :=
  fun w => (Returned tt, f w).

(** run a call of the outside on the hidden state *)
Definition outside {A} (call : Ext -> A * Ext) : Async Ext A :=
  fun w => let (a, e') := call (ext w) in (Returned a, set_ext e' w).
End Monad.

Declare Scope async_scope.
Delimit Scope async_scope with async.
Notation "x <- m ;; k" := (bind m (fun x => k))
  (at level 61, m at next level, right associativity) : async_scope.
Notation "m ;;; k" := (bind m (fun _ => k))
  (at level 61, right associativity) : async_scope.
Open Scope async_scope.

(* ===================================================================== *)
(** ** SQL statements on one table *)
(* ===================================================================== *)

Definition is_null (v : Value) : bool :=
  match v with VNull => true | _ => false end.

Definition not_null (sch : Schema) (c : string) : bool :=
  existsb (fun cn => String.eqb c (fst cn) && snd cn) sch.

Definition max_id (rs : list Row) : Z :=
  fold_right (fun r m => match row_id r with
                         | Some z => Z.max z m
                         | None => m
                         end) 0 rs.

(** The rowid AUTOINCREMENT hands out next: one more than the largest
    rowid the table has ever held.  SQLite refuses the insert
    (SQLITE_FULL) once the largest rowid, 2^63 - 1, has been used; the
    tables here are taken to be below that limit, and the statements that
    rest on a fresh rowid say so. *)
Definition next_rowid (t : Table) : Z :=
  Z.max (seq t) (max_id (rows t)) + 1.

(** The largest rowid of SQLite. *)
Definition MAX_ROWID : Z := 2 ^ 63 - 1.

(** The largest integer up to which every integer is a JS number. *)
Definition MAX_SAFE : Z := 2 ^ 53.

(** An integer read into a JS number, as [lastInsertRowId] is: the
    nearest double, ties to the even mantissa.  Up to 2^53 in absolute
    value it is the integer itself. *)
Definition js_number (z : Z) : Z :=
  let a := Z.abs z in
  if a <=? MAX_SAFE then z
  else
    let ulp := 2 ^ (Z.log2 a - 52) in
    let q := a / ulp in
    let r := a mod ulp in
    let half := ulp / 2 in
    let q' := if r <? half then q
              else if half <? r then q + 1
              else if Z.even q then q else q + 1 in
    Z.sgn z * (q' * ulp).

(** [SELECT * FROM t WHERE id = ?], first row *)
Definition sql_first_by_id (id : Value) (t : Table) : option Row :=
  find (fun r => sql_eq (field "id" r) id) (rows t).

(** [INSERT INTO t (keys fields) VALUES (...)] into a table with an
    INTEGER PRIMARY KEY AUTOINCREMENT [id]; the new table and the rowid,
    or [None] when a constraint fails or a column is unknown. *)
Definition sql_insert (sch : Schema) (fields : Row) (t : Table)
  : option (Table * Z) :=
  if negb (forallb (has_column sch) (keys fields)) then None else
  match
    match field "id" fields with
    | VNull => Some (next_rowid t)
    | VInt z => if existsb (fun r => sql_eq (field "id" r) (VInt z)) (rows t)
                then None else Some z
    | VText _ => None
    end
  with
  | None => None
  | Some id =>
      let given := ("id", VInt id) :: fields in
      if existsb (fun cn => snd cn && is_null (field (fst cn) given)) sch
      then None
      else Some (mkTable
                   (rows t ++ [map (fun cn => (fst cn, field (fst cn) given)) sch])
                   (Z.max (seq t) id),
                 id)
  end.

(** [SET k = v, ...] on one row *)
Definition assign (sets : Row) (r : Row) : Row :=
  map (fun kv => if includes (keys sets) (fst kv)
                 then (fst kv, field (fst kv) sets) else kv) r.

(** [UPDATE t SET sets WHERE id = ?]; the new table and [changes], or
    [None] when a constraint fails or a column is unknown. *)
Definition sql_update_by_id (sch : Schema) (sets : Row) (id : Value) (t : Table)
  : option (Table * nat) :=
  let hit := fun r => sql_eq (field "id" r) id in
  let changes := List.length (filter hit (rows t)) in
  if negb (forallb (has_column sch) (keys sets)) then None
  else if negb (Nat.eqb changes 0)
          && existsb (fun kv => not_null sch (fst kv) && is_null (snd kv)) sets
  then None
  else Some (mkTable (map (fun r => if hit r then assign sets r else r) (rows t))
                     (seq t),
             changes).

(** [DELETE FROM t WHERE col = ?]; the new table and [changes]. *)
Definition sql_delete_where (col : string) (v : Value) (t : Table)
  : Table * nat :=
  (mkTable (filter (fun r => negb (sql_eq (field col r) v)) (rows t)) (seq t),
   List.length (filter (fun r => sql_eq (field col r) v) (rows t))).

(** Is the pair a row of task_tags? *)
Definition tagged (taskId tagId : Z) (t : Table) : bool :=
  existsb (fun r => sql_eq (field "task_id" r) (VInt taskId)
                    && sql_eq (field "tag_id" r) (VInt tagId)) (rows t).

(** [INSERT OR IGNORE INTO task_tags (task_id, tag_id) VALUES (?, ?)] *)
Definition sql_insert_or_ignore_task_tag (taskId tagId : Z) (t : Table) : Table :=
  if tagged taskId tagId t then t
  else mkTable (rows t ++ [[("task_id", VInt taskId); ("tag_id", VInt tagId)]])
               (seq t).

(** [INSERT INTO task_tags (task_id, tag_id) VALUES (?, ?)]; [None] when
    the pair is there already (PRIMARY KEY). *)
Definition sql_insert_task_tag (taskId tagId : Z) (t : Table) : option Table :=
  if tagged taskId tagId t then None
  else Some (sql_insert_or_ignore_task_tag taskId tagId t).

(** [DELETE FROM task_tags WHERE task_id = ? AND tag_id = ?] *)
Definition sql_delete_task_tag (taskId tagId : Z) (t : Table) : Table :=
  mkTable (filter (fun r => negb (sql_eq (field "task_id" r) (VInt taskId)
                                  && sql_eq (field "tag_id" r) (VInt tagId)))
                  (rows t))
          (seq t).

(** A business table by its name, as the template strings
    [`SELECT * FROM ${tableName} ...`] reach it. *)
Definition table_named (tableName : string) (f : DbFile) : option Table :=
  if String.eqb tableName "projects" then Some (projects f)
  else if String.eqb tableName "tasks" then Some (tasks f)
  else if String.eqb tableName "tags" then Some (tags f)
  else if String.eqb tableName "task_tags" then Some (task_tags f)
  else None.

Definition put_table (tableName : string) (t : Table) (f : DbFile) : DbFile :=
  if String.eqb tableName "projects" then set_projects t f
  else if String.eqb tableName "tasks" then set_tasks t f
  else if String.eqb tableName "tags" then set_tags t f
  else if String.eqb tableName "task_tags" then set_task_tags t f
  else f.

(** The business table and its schema when it has an [id] column. *)
Definition table_with_id (tableName : string) (f : DbFile)
  : option (Schema * Table) :=
  match schema_of tableName, table_named tableName f with
  | Some sch, Some t => if has_column sch "id" then Some (sch, t) else None
  | _, _ => None
  end.

(* ===================================================================== *)
(** ** SQL statements on sync_metadata *)
(* ===================================================================== *)

Definition same_key (tableName : string) (recordId : Value) (m : MetaRow) : bool :=
  String.eqb (table_name m) tableName && sql_eq (VInt (record_id m)) recordId.

(** The row of a (table, record) pair; UNIQUE(table_name, record_id). *)
Definition meta_lookup (tableName : string) (recordId : Z) (ms : list MetaRow)
  : option MetaRow :=
  find (same_key tableName (VInt recordId)) ms.

(** [INSERT OR REPLACE INTO sync_metadata (...) VALUES (?, ?, 'pending',
    ?, CURRENT_TIMESTAMP, CURRENT_TIMESTAMP, CURRENT_TIMESTAMP)]: the row
    that holds the key is deleted and a new row is appended. *)
Definition meta_replace (tableName : string) (recordId : Z)
           (supabaseId : option Z) (t : Z) (ms : list MetaRow) : list MetaRow :=
  filter (fun m => negb (same_key tableName (VInt recordId) m)) ms
  ++ [mkMeta tableName recordId pending supabaseId t t t].

(** The [updates] object of [updateSyncMetadata]: [sync_status] is always
    a key, [supabase_id] is one when [upd_supabase_id] is [Some]. *)
Record MetaUpdates : Type := mkUpd {
  upd_status : SyncStatus;
  upd_supabase_id : option (option Z)
}.

Definition apply_updates (u : MetaUpdates) (t : Z) (m : MetaRow) : MetaRow :=
  mkMeta (table_name m) (record_id m) (upd_status u)
         (match upd_supabase_id u with
          | Some s => s
          | None => supabase_id m
          end)
         (last_modified m) (created_at m) t.

(** [UPDATE sync_metadata SET ..., updated_at = CURRENT_TIMESTAMP
    WHERE table_name = ? AND record_id = ?] *)
Definition meta_update (tableName : string) (recordId : Value)
           (u : MetaUpdates) (t : Z) (ms : list MetaRow) : list MetaRow :=
  map (fun m => if same_key tableName recordId m then apply_updates u t m else m)
      ms.

(** [ORDER BY last_modified ASC], rows of equal time in rowid order. *)
Fixpoint insert_by_time (m : MetaRow) (sorted : list MetaRow) : list MetaRow :=
  match sorted with
  | [] => [m]
  | x :: rest => if last_modified m <? last_modified x
                 then m :: sorted
                 else x :: insert_by_time m rest
  end.

Definition order_by_last_modified (ms : list MetaRow) : list MetaRow :=
  fold_left (fun acc m => insert_by_time m acc) ms [].

(** [SELECT ... WHERE sync_status IN ('pending', 'error')
    ORDER BY last_modified ASC LIMIT ?] *)
Definition meta_pending (limit : nat) (ms : list MetaRow) : list MetaRow :=
  firstn limit
    (order_by_last_modified
       (filter (fun m => match sync_status m with
                         | synced => false
                         | _ => true
                         end) ms)).

(* ===================================================================== *)
(** ** lib/database.js *)
(* ===================================================================== *)

Section Service.
Context {Ext : Type} (out : Outside Ext).

Local Abbreviation M := (Async Ext).

(** [getDb()] *)
Definition getDb : M unit :=
  fun w => if db w then (Returned tt, w)
           else (Thrown "Database not initialized. Call initDatabase() first.", w).

(** [db.runAsync(`INSERT INTO ${tableName} (...) VALUES (...)`, values)],
    resolving to [lastInsertRowId], the rowid of the new row as a JS
    number *)
Definition run_insert (tableName : string) (fields : Row) : M Z :=
  fun w => match table_with_id tableName (file w) with
           | Some (sch, t) =>
               match sql_insert sch fields t with
               | Some (t', id) =>
                   (Returned (js_number id),
                    set_file (put_table tableName t' (file w)) w)
               | None => (Thrown "constraint failed", w)
               end
           | None => (Thrown "no such table", w)
           end.

(** [db.runAsync(`UPDATE ${tableName} SET ... WHERE id = ?`, values)],
    resolving to [changes] *)
Definition run_update (tableName : string) (sets : Row) (id : Value) : M nat :=
  fun w => match table_with_id tableName (file w) with
           | Some (sch, t) =>
               match sql_update_by_id sch sets id t with
               | Some (t', changes) =>
                   (Returned changes,
                    set_file (put_table tableName t' (file w)) w)
               | None => (Thrown "constraint failed", w)
               end
           | None => (Thrown "no such table", w)
           end.

(** [db.runAsync(`DELETE FROM ${tableName} WHERE ${col} = ?`, [v])],
    resolving to [changes] *)
Definition run_delete_where (tableName col : string) (v : Value) : M nat :=
  fun w => match table_named tableName (file w) with
           | Some t =>
               let (t', changes) := sql_delete_where col v t in
               (Returned changes, set_file (put_table tableName t' (file w)) w)
           | None => (Thrown "no such table", w)
           end.

(** [db.getFirstAsync(`SELECT * FROM ${tableName} WHERE id = ?`, [id])] *)
Definition run_first_by_id (tableName : string) (id : Value) : M (option Row) :=
  fun w => match table_with_id tableName (file w) with
           | Some (_, t) => (Returned (sql_first_by_id id t), w)
           | None => (Thrown "no such table or column", w)
           end.

(** [db.getAllAsync(`SELECT * FROM ${tableName}`)] *)
Definition run_select_all (tableName : string) : M (list Row) :=
  fun w => match table_named tableName (file w) with
           | Some t => (Returned (rows t), w)
           | None => (Thrown "no such table", w)
           end.

(** [db.runAsync('INSERT INTO task_tags (task_id, tag_id) VALUES (?, ?)')] *)
Definition run_insert_task_tag (taskId tagId : Z) : M unit :=
  fun w => match sql_insert_task_tag taskId tagId (task_tags (file w)) with
           | Some t' => (Returned tt, set_file (set_task_tags t' (file w)) w)
           | None => (Thrown "constraint failed", w)
           end.

(** [addSampleData()] *)
Definition addSampleData : M unit :=
  try_catch
    (inboxId <- run_insert "projects" [("name", VText "Inbox")] ;;
     projectId <- run_insert "projects" [("name", VText "My First Project")] ;;
     (if Z.eqb projectId 0 || Z.eqb inboxId 0
      then throw "Failed to get project ID from insert result"
      else ret tt) ;;;
     inboxTask1 <- run_insert "tasks"
       [("project_id", VInt inboxId); ("title", VText "Welcome to Inbox");
        ("description", VText "This is your main workspace for quick tasks")] ;;
     task1 <- run_insert "tasks"
       [("project_id", VInt projectId); ("title", VText "Design UI");
        ("description", VText "Create wireframes")] ;;
     task2 <- run_insert "tasks"
       [("project_id", VInt projectId); ("title", VText "Build API");
        ("description", VText "Set up backend endpoints")] ;;
     tag1 <- run_insert "tags" [("name", VText "UI")] ;;
     tag2 <- run_insert "tags" [("name", VText "Backend")] ;;
     run_insert_task_tag task1 tag1 ;;;
     run_insert_task_tag task2 tag2)
    (fun e => throw e).

(** The try block of [_initDatabase] that creates sync_metadata and
    sync_log with CREATE TABLE IF NOT EXISTS; a failure is logged and
    the tables stay missing. *)
Definition create_sync_tables : M unit :=
  try_catch
    (meta <- gets (fun w => sync_metadata (file w)) ;;
     match meta with
     | Some _ => ret tt
     | None =>
         ok <- outside (sqlite_create out "sync_metadata") ;;
         if ok
         then modify (fun w => set_file (set_sync_metadata (Some []) (file w)) w)
         else throw "cannot create sync_metadata"
     end ;;;
     log <- gets (fun w => sync_log (file w)) ;;
     match log with
     | Some _ => ret tt
     | None =>
         ok <- outside (sqlite_create out "sync_log") ;;
         if ok
         then modify (fun w => set_file (set_sync_log (Some []) (file w)) w)
         else throw "cannot create sync_log"
     end)
    (fun _ => ret tt).

(** [_initDatabase()].  The CREATE TABLE IF NOT EXISTS of the four
    business tables finds them in place.  When the file does not open,
    the catch block rethrows what [openDatabaseAsync] rejected with. *)
Definition _initDatabase : M unit :=
  try_catch
    (modify (set_db false) ;;;
     opened <- outside (sqlite_open out) ;;
     if opened then
       modify (set_db true) ;;;
       create_sync_tables ;;;
       count <- gets (fun w => List.length (rows (projects (file w)))) ;;
       if Nat.eqb count 0 then addSampleData
       else
         inboxExists <- gets (fun w =>
           List.length (filter (fun r => sql_eq (field "name" r) (VText "Inbox"))
                               (rows (projects (file w))))) ;;
         if Nat.eqb inboxExists 0
         then run_insert "projects" [("name", VText "Inbox")] ;;; ret tt
         else ret tt
     else
       rejection <- gets (fun w => sqlite_error out (ext w)) ;;
       throw rejection)
    (fun e => modify (set_db false) ;;; throw e).

(** [initDatabase()]; calls do not overlap here, so [initPromise] is
    null on entry. *)
Definition initDatabase : M unit :=
  opened <- gets db ;;
  if opened then ret tt else _initDatabase.

(** The loop of [withRetry]: [fuel] iterations are left. *)
Fixpoint retry {A} (operation : M A) (fuel : nat) (lastError : Error) : M A :=
  match fuel with
  | O => throw lastError
  | S fuel' =>
      try_catch (initDatabase ;;; operation)
                (fun e => modify (set_db false) ;;; retry operation fuel' e)
  end.

(** [withRetry(operation, maxRetries = 3)] *)
Definition withRetry {A} (operation : M A) : M A :=
  retry operation 3 "undefined".

(* ===================================================================== *)
(** ** lib/sync-service.js: bookkeeping *)
(* ===================================================================== *)

(** [CURRENT_TIMESTAMP], [Date.now()] *)
Definition clock : M Z := gets (fun w => now out (ext w)).

(** [notifyListeners(status, data)]: every listener is called inside a
    try block of its own, so nothing is thrown.  Of [data] the message is
    kept. *)
Definition notifyListeners (st : Phase) (msg : string) : M unit :=
  modify (fun w => set_heard (heard w ++ [mkNote st msg]) w).

(** [getPendingChanges()] *)
Definition getPendingChanges : M (list MetaRow) :=
  withRetry
    (getDb ;;;
     try_catch
       (meta <- gets (fun w => sync_metadata (file w)) ;;
        match meta with
        | Some ms => ret (meta_pending (BATCH_SIZE out) ms)
        | None => throw "no such table: sync_metadata"
        end)
       (fun _ => ret [])).

(** [getLocalRecord(tableName, recordId)] *)
Definition getLocalRecord (tableName : string) (recordId : Z) : M (option Row) :=
  withRetry (getDb ;;; run_first_by_id tableName (VInt recordId)).

(** [updateSyncMetadata(tableName, recordId, updates)] *)
Definition updateSyncMetadata (tableName : string) (recordId : Value)
           (updates : MetaUpdates) : M unit :=
  withRetry
    (getDb ;;;
     t <- clock ;;
     meta <- gets (fun w => sync_metadata (file w)) ;;
     match meta with
     | Some ms =>
         modify (fun w =>
           set_file (set_sync_metadata
                       (Some (meta_update tableName recordId updates t ms))
                       (file w)) w)
     | None => throw "no such table: sync_metadata"
     end).

(** [insertSyncMetadata(tableName, recordId, supabaseId = null)] *)
Definition insertSyncMetadata (tableName : string) (recordId : Z)
           (supabaseId : option Z) : M unit :=
  withRetry
    (getDb ;;;
     try_catch
       (t <- clock ;;
        meta <- gets (fun w => sync_metadata (file w)) ;;
        match meta with
        | Some ms =>
            modify (fun w =>
              set_file (set_sync_metadata
                          (Some (meta_replace tableName recordId supabaseId t ms))
                          (file w)) w)
        | None => throw "no such table: sync_metadata"
        end)
       (fun _ => ret tt)).

(** [logSyncOperation(syncType, status, message, recordsSynced = 0,
    errorDetails = null)] *)
Definition logSyncOperation (syncType st msg : string) (recordsSynced : nat)
           (errorDetails : option string) : M unit :=
  withRetry
    (getDb ;;;
     try_catch
       (t <- clock ;;
        log <- gets (fun w => sync_log (file w)) ;;
        match log with
        | Some ls =>
            modify (fun w =>
              set_file (set_sync_log
                          (Some (ls ++ [mkLog syncType st msg recordsSynced
                                              errorDetails t t]))
                          (file w)) w)
        | None => throw "no such table: sync_log"
        end)
       (fun _ => ret tt)).

(** [getLocalTableColumns(tableName)]: PRAGMA table_info of a table that
    does not exist has no rows. *)
Definition getLocalTableColumns (tableName : string) : M (list string) :=
  withRetry
    (getDb ;;;
     ret (match schema_of tableName with
          | Some sch => map fst sch
          | None => []
          end)).

(* ===================================================================== *)
(** ** lib/sync-service.js: the sync pass *)
(* ===================================================================== *)

(** [`${n}`] for a count *)
Definition show (n : nat) : string :=
  NilEmpty.string_of_uint (Nat.to_uint n).

(** [checkConnection()] *)
Definition checkConnection : M bool :=
  if negb (isSupabaseConfigured out) then throw "Supabase not configured"
  else
    try_catch
      (r <- outside (sb_ping out) ;;
       match r with
       | Failed e => throw e
       | Data _ => modify (set_isOnline true) ;;; ret true
       end)
      (fun _ => modify (set_isOnline false) ;;; ret false).

(** The running counters [uploadedCount], [errorCount] (and
    [downloadedCount], [errorCount] of the download). *)
Record Counters : Type := mkCounters {
  doneCount : nat;
  errorCount : nat
}.

(** The try block of the loop [for (const change of changes)] of
    [uploadToSupabase]. *)
Definition upload_attempt (change : MetaRow) (c : Counters) : M Counters :=
  localRecord <- getLocalRecord (table_name change) (record_id change) ;;
  match localRecord with
  | None =>
      match supabase_id change with
      | Some remoteId =>
          deleteResult <- outside (sb_delete out (table_name change) remoteId) ;;
          match deleteResult with
          | Failed e => throw e
          | Data _ => ret tt
          end
      | None => ret tt
      end ;;;
      updateSyncMetadata (table_name change) (VInt (record_id change))
                         (mkUpd synced None) ;;;
      ret (mkCounters (S (doneCount c)) (errorCount c))
  | Some record =>
      let supabaseData := delete_key "id" record in
      result <- match supabase_id change with
                | Some remoteId =>
                    outside (sb_update out (table_name change) supabaseData
                                       remoteId)
                | None =>
                    outside (sb_insert out (table_name change) supabaseData)
                end ;;
      match result with
      | Failed e => throw e
      | Data data =>
          updateSyncMetadata (table_name change) (VInt (record_id change))
                             (mkUpd synced (Some (row_id data))) ;;;
          ret (mkCounters (S (doneCount c)) (errorCount c))
      end
  end.

(** The body of that loop: the try block and its catch block, whose
    [updateSyncMetadata] is awaited outside any try. *)
Definition upload_change (change : MetaRow) (c : Counters) : M Counters :=
  try_catch
    (upload_attempt change c)
    (fun _ =>
       updateSyncMetadata (table_name change) (VInt (record_id change))
                          (mkUpd error None) ;;;
       ret (mkCounters (doneCount c) (S (errorCount c)))).

(** [for (const change of changes) { ... }] *)
Fixpoint upload_changes (changes : list MetaRow) (c : Counters) : M Counters :=
  match changes with
  | [] => ret c
  | change :: rest =>
      c' <- upload_change change c ;;
      upload_changes rest c'
  end.

(** [uploadToSupabase()] *)
Definition uploadToSupabase : M nat :=
  changes <- getPendingChanges ;;
  if Nat.eqb (List.length changes) 0 then ret O
  else
    c <- upload_changes changes (mkCounters 0 0) ;;
    ret (doneCount c).

(** The operation handed to [withRetry] for one downloaded record. *)
Definition store_record (tableName : string) (supabaseRecord : Row) : M unit :=
  getDb ;;;
  existingRecord <- run_first_by_id tableName (field "id" supabaseRecord) ;;
  match existingRecord with
  | Some _ =>
      localColumns <- getLocalTableColumns tableName ;;
      let updateKeys :=
        filter (fun key => negb (String.eqb key "id") && includes localColumns key)
               (keys supabaseRecord) in
      if negb (Nat.eqb (List.length updateKeys) 0)
      then run_update tableName
                      (map (fun key => (key, field key supabaseRecord)) updateKeys)
                      (field "id" supabaseRecord) ;;; ret tt
      else ret tt
  | None =>
      localColumns <- getLocalTableColumns tableName ;;
      let fieldsToInsert := filter (includes localColumns) (keys supabaseRecord) in
      if negb (Nat.eqb (List.length fieldsToInsert) 0)
      then run_insert tableName
                      (map (fun key => (key, field key supabaseRecord))
                           fieldsToInsert) ;;; ret tt
      else ret tt
  end ;;;
  updateSyncMetadata tableName (field "id" supabaseRecord)
                     (mkUpd synced (Some (row_id supabaseRecord))).

(** The body of the loop [for (const supabaseRecord of data)]. *)
Definition download_record (tableName : string) (supabaseRecord : Row)
           (c : Counters) : M Counters :=
  try_catch
    (withRetry (store_record tableName supabaseRecord) ;;;
     ret (mkCounters (S (doneCount c)) (errorCount c)))
    (fun _ => ret (mkCounters (doneCount c) (S (errorCount c)))).

Fixpoint download_records (tableName : string) (data : list Row) (c : Counters)
  : M Counters :=
  match data with
  | [] => ret c
  | supabaseRecord :: rest =>
      c' <- download_record tableName supabaseRecord c ;;
      download_records tableName rest c'
  end.

(** The body of the loop [for (const tableName of SYNC_CONFIG.TABLES)] of
    [downloadFromSupabase]. *)
Definition download_table (tableName : string) (c : Counters) : M Counters :=
  try_catch
    (reply <- outside (sb_select out tableName) ;;
     match reply with
     | Failed e => throw e
     | Data data => download_records tableName data c
     end)
    (fun _ => ret (mkCounters (doneCount c) (S (errorCount c)))).

Fixpoint download_tables (tables : list string) (c : Counters) : M Counters :=
  match tables with
  | [] => ret c
  | tableName :: rest =>
      c' <- download_table tableName c ;;
      download_tables rest c'
  end.

(** [downloadFromSupabase()] *)
Definition downloadFromSupabase : M nat :=
  tables <- gets TABLES ;;
  c <- download_tables tables (mkCounters 0 0) ;;
  ret (doneCount c).

(** What [sync] resolves to:
      [{ success: false, message }],
      [{ success: true, uploadedCount, downloadedCount, lastSyncTime,
         syncDuration }],
      [{ success: false, error, syncDuration }]. *)
Inductive SyncResult : Type :=
  | SyncSkipped (msg : string)
  | SyncDone (uploadedCount downloadedCount : nat) (syncTime : option Z)
             (syncDuration : Z)
  | SyncFailed (err : Error) (syncDuration : Z).

Definition success (r : SyncResult) : bool :=
  match r with
  | SyncDone _ _ _ _ => true
  | _ => false
  end.

(** The try block of [sync]. *)
Definition sync_pass (syncStartTime : Z) : M SyncResult :=
  isConnected <- checkConnection ;;
  (if negb isConnected
   then throw "No internet connection or Supabase unavailable"
   else ret tt) ;;;
  notifyListeners SYNCING "Uploading changes..." ;;;
  uploadedCount <- uploadToSupabase ;;
  notifyListeners SYNCING "Downloading changes..." ;;;
  downloadedCount <- downloadFromSupabase ;;
  t <- clock ;;
  modify (set_lastSyncTime (Some t)) ;;;
  t' <- clock ;;
  let totalSyncTime := t' - syncStartTime in
  logSyncOperation "full_sync" "success"
    (String.append "Sync completed successfully. Uploaded: "
       (String.append (show uploadedCount)
          (String.append ", Downloaded: " (show downloadedCount))))
    (uploadedCount + downloadedCount) None ;;;
  notifyListeners SUCCESS
    (String.append "Sync completed. Uploaded: "
       (String.append (show uploadedCount)
          (String.append ", Downloaded: " (show downloadedCount)))) ;;;
  syncTime <- gets lastSyncTime ;;
  ret (SyncDone uploadedCount downloadedCount syncTime totalSyncTime).

(** The catch block of [sync]. *)
Definition sync_failed (syncStartTime : Z) (e : Error) : M SyncResult :=
  t <- clock ;;
  let totalSyncTime := t - syncStartTime in
  logSyncOperation "full_sync" "error" (String.append "Sync failed: " e)
                   0 (Some e) ;;;
  notifyListeners ERROR (String.append "Sync failed: " e) ;;;
  ret (SyncFailed e totalSyncTime).

(** [sync(force = false)] *)
Definition sync (force : bool) : M SyncResult :=
  syncStartTime <- clock ;;
  inProgress <- gets syncInProgress ;;
  if inProgress && negb force
  then ret (SyncSkipped "Sync already in progress")
  else
    modify (set_syncInProgress true) ;;;
    notifyListeners SYNCING "Starting sync..." ;;;
    try_finally
      (try_catch (sync_pass syncStartTime) (sync_failed syncStartTime))
      (set_syncInProgress false).

(* ===================================================================== *)
(** ** lib/sync-service.js: the bulk export *)
(* ===================================================================== *)

(** The [options] of [exportAllDataToSupabase].  The loop
    [for (let i = 0; i < n; i += batchSize)] ends only for a positive
    step; the default is 10. *)
Record ExportOptions : Type := mkOptions {
  clearSupabaseFirst : bool;
  skipExisting : bool;
  batchSize : positive;
  (** is an [onProgress] callback supplied?  It only observes. *)
  onProgress : bool
}.

(** [{ exported, skipped, errors }], or [{ error, exported: 0, errors: 1 }]
    for a table whose export threw. *)
Record TableReport : Type := mkReport {
  exported : nat;
  skipped : nat;
  errors : nat;
  report_error : option Error
}.

(** What [exportAllDataToSupabase] resolves to. *)
Record ExportReport : Type := mkExport {
  export_success : bool;
  export_error : option Error;
  totalExported : nat;
  totalErrors : nat;
  results : list (string * TableReport)
}.

(** [results[tableName] = r] *)
Fixpoint set_result (tableName : string) (r : TableReport)
         (rs : list (string * TableReport)) : list (string * TableReport) :=
  match rs with
  | [] => [(tableName, r)]
  | (k, v) :: rest => if String.eqb k tableName then (k, r) :: rest
                      else (k, v) :: set_result tableName r rest
  end.

(** [localRecords.slice(i, i + batchSize)] for i = 0, batchSize, ... *)
Fixpoint batches (fuel : nat) (size : nat) (records : list Row) : list (list Row) :=
  match fuel, records with
  | O, _ | _, [] => []
  | S fuel', _ => firstn size records :: batches fuel' size (skipn size records)
  end.

(** The body of the loop [for (const record of batch)] of
    [exportTableToSupabase].  Nothing in its try block throws here (the
    client resolves every call, the callback only observes), so its
    catch block is not entered. *)
Definition export_record (tableName : string) (o : ExportOptions) (total : nat)
           (record : Row) (r : TableReport) : M TableReport :=
  existing <- (if skipExisting o
               then outside (sb_find out tableName (field "id" record))
               else ret None) ;;
  match existing with
  | Some _ => ret (mkReport (exported r) (S (skipped r)) (errors r) None)
  | None =>
      reply <- outside (sb_insert out tableName record) ;;
      let r' := match reply with
                | Failed _ => mkReport (exported r) (skipped r) (S (errors r)) None
                | Data _ => mkReport (S (exported r)) (skipped r) (errors r) None
                end in
      (if onProgress o
       then modify (fun w =>
              set_reported
                (reported w ++ [mkProgress tableName
                                  (exported r' + errors r' + skipped r')%nat
                                  total (errors r')]) w)
       else ret tt) ;;;
      ret r'
  end.

Fixpoint export_batch (tableName : string) (o : ExportOptions) (total : nat)
         (batch : list Row) (r : TableReport) : M TableReport :=
  match batch with
  | [] => ret r
  | record :: rest =>
      r' <- export_record tableName o total record r ;;
      export_batch tableName o total rest r'
  end.

Fixpoint export_batches (tableName : string) (o : ExportOptions) (total : nat)
         (bs : list (list Row)) (r : TableReport) : M TableReport :=
  match bs with
  | [] => ret r
  | batch :: rest =>
      r' <- export_batch tableName o total batch r ;;
      export_batches tableName o total rest r'
  end.

(** [exportTableToSupabase(tableName, options)] *)
Definition exportTableToSupabase (tableName : string) (o : ExportOptions)
  : M TableReport :=
  withRetry
    (getDb ;;;
     localRecords <- run_select_all tableName ;;
     if Nat.eqb (List.length localRecords) 0 then ret (mkReport 0 0 0 None)
     else
       export_batches tableName o (List.length localRecords)
         (batches (List.length localRecords) (Pos.to_nat (batchSize o))
                  localRecords)
         (mkReport 0 0 0 None)).

(** The body of the loop that clears the remote tables. *)
Definition clear_table (tableName : string) : M unit :=
  try_catch
    (reply <- outside (sb_clear out tableName) ;;
     match reply with
     | Failed e => throw e
     | Data _ => ret tt
     end)
    (fun _ => ret tt).

Fixpoint clear_tables (tables : list string) : M unit :=
  match tables with
  | [] => ret tt
  | tableName :: rest => clear_table tableName ;;; clear_tables rest
  end.

(** The body of the loop that exports table by table. *)
Definition export_table (o : ExportOptions) (tableName : string)
           (acc : ExportReport) : M ExportReport :=
  try_catch
    (tableResults <- exportTableToSupabase tableName o ;;
     ret (mkExport true None
            (totalExported acc + exported tableResults)
            (totalErrors acc + errors tableResults)
            (set_result tableName tableResults (results acc))))
    (fun e =>
       ret (mkExport true None (totalExported acc) (S (totalErrors acc))
              (set_result tableName (mkReport 0 0 1 (Some e)) (results acc)))).

Fixpoint export_tables (o : ExportOptions) (tables : list string)
         (acc : ExportReport) : M ExportReport :=
  match tables with
  | [] => ret acc
  | tableName :: rest =>
      acc' <- export_table o tableName acc ;;
      export_tables o rest acc'
  end.

(** [exportAllDataToSupabase(options)].  [Array.prototype.reverse]
    reverses the array it is called on, in place, and returns that same
    array: after [SYNC_CONFIG.TABLES.reverse()] the shared array is the
    reversed one.  Nothing in the try block throws once a counter has
    changed, so the catch block reports the initial counters. *)
Definition exportAllDataToSupabase (o : ExportOptions) : M ExportReport :=
  try_catch
    (isConnected <- checkConnection ;;
     (if negb isConnected then throw "No connection to Supabase" else ret tt) ;;;
     (if clearSupabaseFirst o
      then
        modify (fun w => set_TABLES (rev (TABLES w)) w) ;;;
        reversed <- gets TABLES ;;
        clear_tables reversed
      else ret tt) ;;;
     tables <- gets TABLES ;;
     export_tables o tables (mkExport true None 0 0 []))
    (fun e => ret (mkExport false (Some e) 0 0 [])).

(* ===================================================================== *)
(** ** repositories/projects.js, repositories/tasks.js *)
(* ===================================================================== *)

(** [updateProject(id, name)] *)
Definition updateProject (id : Z) (name : string) : M (Z * string) :=
  withRetry
    (getDb ;;;
     changes <- run_update "projects" [("name", VText name)] (VInt id) ;;
     (if Nat.eqb changes 0 then throw "Project not found" else ret tt) ;;;
     insertSyncMetadata "projects" id None ;;;
     ret (id, name)).

(** [deleteProject(id)] *)
Definition deleteProject (id : Z) : M Z :=
  withRetry
    (getDb ;;;
     tasksChanges <- run_delete_where "tasks" "project_id" (VInt id) ;;
     changes <- run_delete_where "projects" "id" (VInt id) ;;
     (if Nat.eqb changes 0 then throw "Project not found" else ret tt) ;;;
     insertSyncMetadata "projects" id None ;;;
     ret id).

(** [addTagToTask(taskId, tagId)] *)
Definition addTagToTask (taskId tagId : Z) : M (Z * Z) :=
  withRetry
    (getDb ;;;
     modify (fun w =>
       set_file (set_task_tags
                   (sql_insert_or_ignore_task_tag taskId tagId
                                                  (task_tags (file w)))
                   (file w)) w) ;;;
     ret (taskId, tagId)).

(** [removeTagFromTask(taskId, tagId)] *)
Definition removeTagFromTask (taskId tagId : Z) : M (Z * Z) :=
  withRetry
    (getDb ;;;
     modify (fun w =>
       set_file (set_task_tags
                   (sql_delete_task_tag taskId tagId (task_tags (file w)))
                   (file w)) w) ;;;
     ret (taskId, tagId)).

End Service.

Arguments getDb {Ext}.
Arguments notifyListeners {Ext}.

(* ===================================================================== *)
(** ** A test double for the outside *)
(* ===================================================================== *)

(** A Supabase server with a few relations, a call log and a clock, used
    to run the service on concrete inputs. *)
Inductive Call : Type :=
  | CallPing
  | CallSelect (t : string)
  | CallFind (t : string) (v : Value)
  | CallInsert (t : string) (r : Row)
  | CallUpdate (t : string) (r : Row) (id : Z)
  | CallDelete (t : string) (id : Z)
  | CallClear (t : string)
  | CallOpen
  | CallCreate (t : string).

Record Server : Type := mkServer {
  relations : list (string * list Row);
  calls : list Call;
  online : bool;
  time : Z
}.

Definition logged (c : Call) (s : Server) : Server :=
  mkServer (relations s) (calls s ++ [c]) (online s) (time s).

Fixpoint relation (t : string) (rs : list (string * list Row)) : option (list Row) :=
  match rs with
  | [] => None
  | (k, v) :: rest => if String.eqb k t then Some v else relation t rest
  end.

Fixpoint set_relation (t : string) (v : list Row) (rs : list (string * list Row))
  : list (string * list Row) :=
  match rs with
  | [] => []
  | (k, v0) :: rest => if String.eqb k t then (k, v) :: rest
                       else (k, v0) :: set_relation t v rest
  end.

Definition stored (t : string) (v : list Row) (s : Server) : Server :=
  mkServer (set_relation t v (relations s)) (calls s) (online s) (time s).

Definition server_insert (t : string) (r : Row) (s : Server) : Reply Row * Server :=
  let s := logged (CallInsert t r) s in
  match relation t (relations s) with
  | None => (Failed "relation does not exist", s)
  | Some rs =>
      let id := match row_id r with
                | Some z => z
                | None => max_id rs + 1
                end in
      if existsb (fun x => sql_eq (field "id" x) (VInt id)) rs
      then (Failed "duplicate key value violates unique constraint", s)
      else let row := ("id", VInt id) :: delete_key "id" r in
           (Data row, stored t (rs ++ [row]) s)
  end.

Definition server_update (t : string) (r : Row) (id : Z) (s : Server)
  : Reply Row * Server :=
  let s := logged (CallUpdate t r id) s in
  match relation t (relations s) with
  | None => (Failed "relation does not exist", s)
  | Some rs =>
      match find (fun x => sql_eq (field "id" x) (VInt id)) rs with
      | None => (Failed "JSON object requested, multiple (or no) rows returned", s)
      | Some old =>
          (Data (assign r old),
           stored t (map (fun x => if sql_eq (field "id" x) (VInt id)
                                   then assign r x else x) rs) s)
      end
  end.

Definition server_delete (t : string) (id : Z) (s : Server) : Reply unit * Server :=
  let s := logged (CallDelete t id) s in
  match relation t (relations s) with
  | None => (Failed "relation does not exist", s)
  | Some rs =>
      (Data tt,
       stored t (filter (fun x => negb (sql_eq (field "id" x) (VInt id))) rs) s)
  end.

Definition server_clear (t : string) (s : Server) : Reply unit * Server :=
  let s := logged (CallClear t) s in
  match relation t (relations s) with
  | None => (Failed "relation does not exist", s)
  | Some _ => (Data tt, stored t [] s)
  end.

Definition server_select (t : string) (s : Server) : Reply (list Row) * Server :=
  let s := logged (CallSelect t) s in
  match relation t (relations s) with
  | None => (Failed "relation does not exist", s)
  | Some rs => (Data rs, s)
  end.

Definition server_find (t : string) (v : Value) (s : Server) : option Row * Server :=
  let s := logged (CallFind t v) s in
  match relation t (relations s) with
  | None => (None, s)
  | Some rs => (find (fun x => sql_eq (field "id" x) v) rs, s)
  end.

Definition server_ping (s : Server) : Reply unit * Server :=
  let s := logged CallPing s in
  if online s then (Data tt, s) else (Failed "Network request failed", s).

(** What the server's [openDatabaseAsync] rejects with. *)
Definition rejection : Error := "unable to open database file".

(** The outside played by the server; [configured] answers
    [isSupabaseConfigured()] and [storage] says whether projects.db can
    be opened. *)
Definition double (configured storage : bool) (batch : nat) : Outside Server :=
  mkOutside configured batch server_ping server_select server_find
            server_insert server_update server_delete server_clear
            (fun s => (storage, logged CallOpen s))
            (fun _ => rejection)
            (fun t s => (storage, logged (CallCreate t) s))
            time.


(** A server with the three relations of the README and no rows. *)
Definition empty_server : Server :=
  mkServer [("projects", []); ("tasks", []); ("tags", [])] [] true 1000.

(** A freshly constructed service on an open database. *)
Definition start (f : DbFile) (tables : list string) (s : Server) : World Server :=
  mkWorld true f true false None [] [] tables s.

(** Shorthands for rows. *)
Definition project (id : Z) (name : string) : Row :=
  [("id", VInt id); ("name", VText name)].
Definition task (id projectId : Z) (title : string) : Row :=
  [("id", VInt id); ("project_id", VInt projectId); ("title", VText title);
   ("description", VNull)].
Definition tag (id : Z) (name : string) : Row :=
  [("id", VInt id); ("name", VText name)].


(** The rows of sync_metadata; none when the table is missing. *)
Definition meta_rows (f : DbFile) : list MetaRow :=
  match sync_metadata f with
  | Some ms => ms
  | None => []
  end.

(** Status and remote id of the metadata row of a record, if any. *)
Definition tracked {Ext : Type} (tableName : string) (recordId : Z)
           (w : World Ext) : option (SyncStatus * option Z) :=
  option_map (fun m => (sync_status m, supabase_id m))
             (meta_lookup tableName recordId (meta_rows (file w))).

(** The tracked tables, parents before dependents. *)
Definition tracked_tables : list string := ["projects"; "tasks"; "tags"].

(** The service with Supabase configured, a storage that opens and a
    batch size of 50. *)
Definition service : Outside Server := double true true 50.

(** Project 2 was uploaded earlier and is remote row 7. *)
Definition synced_world : World Server :=
  start (mkDb (mkTable [project 1 "Inbox"; project 2 "Work"] 2)
              (mkTable [] 0) (mkTable [] 0) (mkTable [] 0)
              (Some [mkMeta "projects" 2 synced (Some 7) 10 10 20])
              (Some []))
        tracked_tables
        (mkServer [("projects", [project 7 "Work"]); ("tasks", []); ("tags", [])]
                  [] true 1000).

(** The same, with a pass in flight. *)
Definition busy_world : World Server := set_syncInProgress true synced_world.

(** The same, before the database has been opened. *)
Definition closed_world : World Server := set_db false synced_world.

(** The remote has project 1 (known locally, never tracked) and
    project 9 (unknown locally). *)
Definition remote_ahead_world : World Server :=
  start (mkDb (mkTable [project 1 "Inbox"] 1)
              (mkTable [] 0) (mkTable [] 0) (mkTable [] 0)
              (Some []) (Some []))
        tracked_tables
        (mkServer [("projects", [project 1 "Inbox"; project 9 "Shared"]);
                   ("tasks", []); ("tags", [])]
                  [] true 1000).

(** One project with one task, nothing tracked, an empty remote. *)
Definition seeded_world : World Server :=
  start (mkDb (mkTable [project 1 "Inbox"] 1)
              (mkTable [task 1 1 "Welcome"] 1)
              (mkTable [] 0) (mkTable [] 0)
              (Some []) (Some []))
        tracked_tables
        empty_server.

(** Project 2 with two tasks, all three uploaded earlier. *)
Definition project_world : World Server :=
  start (mkDb (mkTable [project 1 "Inbox"; project 2 "Work"] 2)
              (mkTable [task 1 1 "Welcome"; task 2 2 "Design UI";
                        task 3 2 "Build API"] 3)
              (mkTable [] 0) (mkTable [] 0)
              (Some [mkMeta "projects" 2 synced (Some 7) 10 10 20;
                     mkMeta "tasks" 2 synced (Some 12) 11 11 20;
                     mkMeta "tasks" 3 synced (Some 13) 12 12 20])
              (Some []))
        tracked_tables
        (mkServer [("projects", [project 7 "Work"]);
                   ("tasks", [task 12 7 "Design UI"; task 13 7 "Build API"]);
                   ("tags", [])]
                  [] true 1000).

(** Project 2 was uploaded as remote row 7, then deleted locally. *)
Definition tombstone : MetaRow := mkMeta "projects" 2 pending (Some 7) 10 10 10.

Definition tombstone_world : World Server :=
  start (mkDb (mkTable [project 1 "Inbox"] 2)
              (mkTable [] 0) (mkTable [] 0) (mkTable [] 0)
              (Some [tombstone]) (Some []))
        tracked_tables
        (mkServer [("projects", [project 7 "Work"]); ("tasks", []); ("tags", [])]
                  [] true 1000).

(** Tag 5 was uploaded as remote row 9, then deleted locally; the remote
    has no relation tags any more. *)
Definition orphan : MetaRow := mkMeta "tags" 5 pending (Some 9) 10 10 10.

Definition orphan_world : World Server :=
  start (mkDb (mkTable [project 1 "Inbox"] 1)
              (mkTable [] 0) (mkTable [] 5) (mkTable [] 0)
              (Some [orphan]) (Some []))
        tracked_tables
        (mkServer [("projects", []); ("tasks", [])] [] true 1000).

(** A new tag and a new project wait for upload; the remote has no
    relation tags. *)
Definition new_tag : MetaRow := mkMeta "tags" 1 pending None 10 10 10.
Definition new_project : MetaRow := mkMeta "projects" 1 pending None 11 11 11.

Definition mixed_world : World Server :=
  start (mkDb (mkTable [project 1 "Inbox"] 1)
              (mkTable [] 0) (mkTable [tag 1 "UI"] 1) (mkTable [] 0)
              (Some [new_tag; new_project]) (Some []))
        tracked_tables
        (mkServer [("projects", []); ("tasks", [])] [] true 1000).



(* ===================================================================== *)
(** ** Vocabulary of the statements *)
(* ===================================================================== *)

(** [keeps P m]: whatever [m] does, and whether it returns or throws, a
    world with [P] is left with [P]. *)
Definition keeps {Ext A : Type} (P : World Ext -> Prop) (m : Async Ext A) : Prop :=
  forall w r w', P w -> m w = (r, w') -> P w'.

(** A property of the metadata rows, as a property of the world. *)
Definition on_meta_rows {Ext : Type} (Q : list MetaRow -> Prop) (w : World Ext)
  : Prop :=
  Q (meta_rows (file w)).

(** The metadata rows of every record but one. *)
Definition other_rows (tableName : string) (recordId : Z) (ms : list MetaRow)
  : list MetaRow :=
  filter (fun m => negb (same_key tableName (VInt recordId) m)) ms.

(** What the loop body of the upload asks of the remote for one change,
    the reply read as the update it leads to, and the outside after the
    exchange: nothing is asked when the record is gone locally and has
    no remote id.  [None] when the local table cannot be read by id. *)
Definition upload_exchange {Ext : Type} (out : Outside Ext) (change : MetaRow)
           (w : World Ext) : option (Reply MetaUpdates * Ext) :=
  match table_with_id (table_name change) (file w) with
  | None => None
  | Some (_, t) =>
      Some
        match sql_first_by_id (VInt (record_id change)) t with
        | None =>
            match supabase_id change with
            | None => (Data (mkUpd synced None), ext w)
            | Some remoteId =>
                let (r, x) := sb_delete out (table_name change) remoteId (ext w) in
                (match r with
                 | Data _ => Data (mkUpd synced None)
                 | Failed e => Failed e
                 end, x)
            end
        | Some record =>
            let (r, x) :=
              match supabase_id change with
              | Some remoteId =>
                  sb_update out (table_name change) (delete_key "id" record)
                            remoteId (ext w)
              | None =>
                  sb_insert out (table_name change) (delete_key "id" record)
                            (ext w)
              end in
            (match r with
             | Data data => Data (mkUpd synced (Some (row_id data)))
             | Failed e => Failed e
             end, x)
        end
  end.

(** Does the local table of this name have an [id] column? *)
Definition has_id (tableName : string) : bool :=
  match schema_of tableName with
  | Some sch => has_column sch "id"
  | None => false
  end.

(** Does the projects table hold a project named Inbox? *)
Definition has_inbox {Ext : Type} (w : World Ext) : Prop :=
  existsb (fun r => sql_eq (field "name" r) (VText "Inbox"))
          (rows (projects (file w))) = true.

(* ===================================================================== *)
(** ** The rest of the repositories and of the service *)
(* ===================================================================== *)

(** The order of SQLite between stored values: NULL first, then the
    integers, then the texts (binary collation). *)
Definition sql_lt (a b : Value) : bool :=
  match a, b with
  | VNull, VNull => false
  | VNull, _ => true
  | VInt _, VNull => false
  | VInt x, VInt y => Z.ltb x y
  | VInt _, VText _ => true
  | VText x, VText y => String.ltb x y
  | VText _, _ => false
  end.

(** [ORDER BY id], rows of equal id in rowid order. *)
Fixpoint insert_by_id (r : Row) (sorted : list Row) : list Row :=
  match sorted with
  | [] => [r]
  | x :: rest => if sql_lt (field "id" r) (field "id" x)
                 then r :: sorted
                 else x :: insert_by_id r rest
  end.

Definition order_by_id (rs : list Row) : list Row :=
  fold_left (fun acc r => insert_by_id r acc) rs [].

(** [ORDER BY started_at DESC], rows of equal time in rowid order. *)
Fixpoint insert_by_start (l : LogRow) (sorted : list LogRow) : list LogRow :=
  match sorted with
  | [] => [l]
  | x :: rest => if started_at x <? started_at l
                 then l :: sorted
                 else x :: insert_by_start l rest
  end.

Definition order_by_started_at_desc (ls : list LogRow) : list LogRow :=
  fold_left (fun acc l => insert_by_start l acc) ls [].

(** What [sendAllDataToSupabase] files under a table in [results]:
    [{ error }] or [{ success: true, count }]. *)
Inductive SendOutcome : Type :=
  | SendError (e : Error)
  | SendOk (count : nat).

(** What [sendAllDataToSupabase] resolves to:
    [{ success: true, message, results }] or [{ success: false, error }]. *)
Record SendReport : Type := mkSend {
  send_success : bool;
  send_error : option Error;
  sent_projects : option SendOutcome;
  sent_tasks : option SendOutcome;
  sent_tags : option SendOutcome
}.

(** What [debugLocalData] resolves to: the rows of every table of
    [SYNC_CONFIG.TABLES], and those of sync_metadata. *)
Record LocalData : Type := mkLocal {
  local_tables : list (string * list Row);
  local_syncMetadata : list MetaRow
}.

(** [results[tableName] = data] *)
Fixpoint set_rows (tableName : string) (data : list Row)
         (rs : list (string * list Row)) : list (string * list Row) :=
  match rs with
  | [] => [(tableName, data)]
  | (k, v) :: rest => if String.eqb k tableName then (k, data) :: rest
                      else (k, v) :: set_rows tableName data rest
  end.

(** [localData[tableName]], [undefined] when the key is missing *)
Fixpoint rows_of (tableName : string) (rs : list (string * list Row))
  : option (list Row) :=
  match rs with
  | [] => None
  | (k, v) :: rest => if String.eqb k tableName then Some v
                      else rows_of tableName rest
  end.

Section Repositories.
Context {Ext : Type} (out : Outside Ext).

Local Abbreviation M := (Async Ext).

(** [getAllProjects()] *)
Definition getAllProjects : M (list Row) :=
  withRetry out
    (getDb ;;;
     rs <- run_select_all "projects" ;;
     ret (order_by_id rs)).

(** [getProjectById(id)] *)
Definition getProjectById (id : Z) : M (option Row) :=
  withRetry out (getDb ;;; run_first_by_id "projects" (VInt id)).

(** [createProject(name)] *)
Definition createProject (name : string) : M (Z * string) :=
  withRetry out
    (getDb ;;;
     projectId <- run_insert "projects" [("name", VText name)] ;;
     insertSyncMetadata out "projects" projectId None ;;;
     ret (projectId, name)).

(** [getTasksByProjectId(projectId)] *)
Definition getTasksByProjectId (projectId : Z) : M (list Row) :=
  withRetry out
    (getDb ;;;
     rs <- run_select_all "tasks" ;;
     ret (order_by_id
            (filter (fun r => sql_eq (field "project_id" r) (VInt projectId))
                    rs))).

(** [createTask(projectId, title, description = null)] *)
Definition createTask (projectId : Z) (title : string)
           (description : option string) : M Z :=
  withRetry out
    (getDb ;;;
     taskId <- run_insert "tasks"
       [("project_id", VInt projectId); ("title", VText title);
        ("description", match description with
                        | Some d => VText d
                        | None => VNull
                        end)] ;;
     insertSyncMetadata out "tasks" taskId None ;;;
     ret taskId).

(** [deleteTask(id)] *)
Definition deleteTask (id : Z) : M Z :=
  withRetry out
    (getDb ;;;
     tagsChanges <- run_delete_where "task_tags" "task_id" (VInt id) ;;
     changes <- run_delete_where "tasks" "id" (VInt id) ;;
     (if Nat.eqb changes 0 then throw "Task not found" else ret tt) ;;;
     insertSyncMetadata out "tasks" id None ;;;
     ret id).

(** [getTaskTags(taskId)]: the tags joined to task_tags on
    [t.id = tt.tag_id], the tags table outermost. *)
Definition getTaskTags (taskId : Z) : M (list Row) :=
  withRetry out
    (getDb ;;;
     ts <- run_select_all "tags" ;;
     tts <- run_select_all "task_tags" ;;
     ret (flat_map
            (fun t =>
               map (fun _ => t)
                   (filter (fun tt => sql_eq (field "id" t) (field "tag_id" tt)
                                      && sql_eq (field "task_id" tt)
                                                (VInt taskId))
                           tts))
            ts)).

(** [deleteTag(id)] *)
Definition deleteTag (id : Z) : M Z :=
  withRetry out
    (getDb ;;;
     run_delete_where "task_tags" "tag_id" (VInt id) ;;;
     changes <- run_delete_where "tags" "id" (VInt id) ;;
     (if Nat.eqb changes 0 then throw "Tag not found" else ret tt) ;;;
     insertSyncMetadata out "tags" id None ;;;
     ret id).

(** [getSyncHistory(limit = 10)] *)
Definition getSyncHistory (limit : nat) : M (list LogRow) :=
  withRetry out
    (getDb ;;;
     log <- gets (fun w => sync_log (file w)) ;;
     match log with
     | Some ls => ret (firstn limit (order_by_started_at_desc ls))
     | None => throw "no such table: sync_log"
     end).

(** [clearSyncMetadata()] *)
Definition clearSyncMetadata : M unit :=
  withRetry out
    (getDb ;;;
     meta <- gets (fun w => sync_metadata (file w)) ;;
     match meta with
     | Some _ =>
         modify (fun w => set_file (set_sync_metadata (Some []) (file w)) w)
     | None => throw "no such table: sync_metadata"
     end ;;;
     log <- gets (fun w => sync_log (file w)) ;;
     match log with
     | Some _ => modify (fun w => set_file (set_sync_log (Some []) (file w)) w)
     | None => throw "no such table: sync_log"
     end).

(** The loop [for (const tableName of SYNC_CONFIG.TABLES)] of
    [debugLocalData]. *)
Fixpoint local_rows (tables : list string) (results : list (string * list Row))
  : M (list (string * list Row)) :=
  match tables with
  | [] => ret results
  | tableName :: rest =>
      data <- try_catch (run_select_all tableName) (fun _ => ret []) ;;
      local_rows rest (set_rows tableName data results)
  end.

(** [debugLocalData()] *)
Definition debugLocalData : M LocalData :=
  withRetry out
    (getDb ;;;
     tables <- gets TABLES ;;
     results <- local_rows tables [] ;;
     syncMetadata <- try_catch
       (meta <- gets (fun w => sync_metadata (file w)) ;;
        match meta with
        | Some ms => ret ms
        | None => throw "no such table: sync_metadata"
        end)
       (fun _ => ret []) ;;
     ret (mkLocal results syncMetadata)).

(** One of the three loops of [sendAllDataToSupabase]: every record is
    inserted with the columns [columns] only, and the outcome of each
    insert is written over [results[tableName]]. *)
Fixpoint send_rows (tableName : string) (columns : list string) (count : nat)
         (records : list Row) (result : option SendOutcome)
  : M (option SendOutcome) :=
  match records with
  | [] => ret result
  | record :: rest =>
      reply <- outside (sb_insert out tableName
                          (map (fun c => (c, field c record)) columns)) ;;
      send_rows tableName columns count rest
                (Some match reply with
                      | Failed e => SendError e
                      | Data _ => SendOk count
                      end)
  end.

(** [if (localData.x && localData.x.length > 0) { for ... }] *)
Definition send_table (tableName : string) (columns : list string)
           (localData : LocalData) : M (option SendOutcome) :=
  match rows_of tableName (local_tables localData) with
  | Some (r :: rs) =>
      send_rows tableName columns (List.length (r :: rs)) (r :: rs) None
  | _ => ret None
  end.

(** [sendAllDataToSupabase()] *)
Definition sendAllDataToSupabase : M SendReport :=
  try_catch
    (localData <- debugLocalData ;;
     isConnected <- checkConnection out ;;
     (if negb isConnected then throw "Cannot connect to Supabase" else ret tt) ;;;
     ps <- send_table "projects" ["id"; "name"] localData ;;
     ts <- send_table "tasks" ["id"; "project_id"; "title"; "description"]
                      localData ;;
     gs <- send_table "tags" ["id"; "name"] localData ;;
     ret (mkSend true None ps ts gs))
    (fun e => ret (mkSend false (Some e) None None None)).

End Repositories.

(** Older or as old, by [last_modified]. *)
Definition not_newer (a b : MetaRow) : Prop := last_modified a <= last_modified b.

(** The service with a batch size of 2. *)
Definition small_batches : Outside Server := double true true 2.

(** Four tracked records: one synced, one in error, two pending. *)
Definition backlog_world : World Server :=
  start (mkDb (mkTable [project 1 "Inbox"; project 4 "Work"] 4)
              (mkTable [task 2 1 "Welcome"] 2) (mkTable [tag 3 "UI"] 3)
              (mkTable [] 0)
              (Some [mkMeta "projects" 1 pending None 30 30 30;
                     mkMeta "tasks" 2 synced (Some 2) 5 5 6;
                     mkMeta "tags" 3 error None 10 10 11;
                     mkMeta "projects" 4 pending None 20 20 20])
              (Some []))
        tracked_tables
        empty_server.

(** Project 2 holds task 2, which carries tag 1. *)
Definition tagged_world : World Server :=
  start (mkDb (mkTable [project 1 "Inbox"; project 2 "Work"] 2)
              (mkTable [task 1 1 "Welcome"; task 2 2 "Design UI"] 2)
              (mkTable [tag 1 "UI"] 1)
              (mkTable [[("task_id", VInt 2); ("tag_id", VInt 1)]] 0)
              (Some []) (Some []))
        tracked_tables
        empty_server.

(** Started no earlier. *)
Definition not_older (a b : LogRow) : Prop := started_at b <= started_at a.

(** Three passes in the history, and the tracked records of
    [backlog_world]. *)
Definition history_world : World Server :=
  start (mkDb (mkTable [project 1 "Inbox"; project 4 "Work"] 4)
              (mkTable [task 2 1 "Welcome"] 2) (mkTable [tag 3 "UI"] 3)
              (mkTable [] 0)
              (Some [mkMeta "projects" 1 pending None 30 30 30;
                     mkMeta "tags" 3 error None 10 10 11])
              (Some [mkLog "full_sync" "success" "first" 2 None 100 101;
                     mkLog "full_sync" "error" "second" 0 (Some "boom") 300 301;
                     mkLog "full_sync" "success" "third" 1 None 200 201]))
        tracked_tables
        empty_server.

(** [results.projects], [results.tasks], [results.tags] of what
    [sendAllDataToSupabase] resolves to. *)
Definition sent (tableName : string) (r : SendReport) : option SendOutcome :=
  if String.eqb tableName "projects" then sent_projects r
  else if String.eqb tableName "tasks" then sent_tasks r
  else if String.eqb tableName "tags" then sent_tags r
  else None.

(** Two local projects, the first of them on the remote already. *)
Definition resend_world : World Server :=
  start (mkDb (mkTable [project 1 "Inbox"; project 2 "Work"] 2)
              (mkTable [] 0) (mkTable [] 0) (mkTable [] 0)
              (Some []) (Some []))
        tracked_tables
        (mkServer [("projects", [project 1 "Inbox"]); ("tasks", []);
                   ("tags", [])]
                  [] true 1000).

(** A junction row that names tag 7, which is not in tags. *)
Definition dangling_world : World Server :=
  start (mkDb (mkTable [project 1 "Inbox"] 1)
              (mkTable [task 2 1 "Welcome"] 2)
              (mkTable [tag 1 "UI"] 1)
              (mkTable [[("task_id", VInt 2); ("tag_id", VInt 7)];
                        [("task_id", VInt 2); ("tag_id", VInt 1)]] 0)
              (Some []) (Some []))
        tracked_tables
        empty_server.

(** [a] does not come after [b] in [ORDER BY id]. *)
Definition id_not_above (a b : Row) : Prop :=
  sql_lt (field "id" b) (field "id" a) = false.

(** The row has an integer in its [id] column, as INTEGER PRIMARY KEY
    gives every row of a business table. *)
Definition has_integer_id (r : Row) : Prop :=
  exists z, field "id" r = VInt z.

(** Projects and tasks stored out of id order, as a download of remote
    rows with ids of their own leaves them. *)
Definition shuffled_world : World Server :=
  start (mkDb (mkTable [project 5 "Late"; project 1 "Inbox"; project 3 "Work"] 5)
              (mkTable [task 9 3 "Ship"; task 2 1 "Welcome"; task 4 3 "Plan"] 9)
              (mkTable [] 0) (mkTable [] 0)
              (Some []) (Some []))
        tracked_tables
        empty_server.

(** Does the table hold a row of this id? *)
Definition row_present {Ext : Type} (tableName : string) (id : Z)
           (w : World Ext) : Prop :=
  exists t, table_named tableName (file w) = Some t /\
            existsb (fun r => sql_eq (field "id" r) (VInt id)) (rows t) = true.

(** Local project 2 is gone from the remote, which holds projects 1
    and 9. *)
Definition remote_deleted_world : World Server :=
  start (mkDb (mkTable [project 1 "Inbox"; project 2 "Work"] 2)
              (mkTable [] 0) (mkTable [] 0) (mkTable [] 0)
              (Some [mkMeta "projects" 1 synced (Some 1) 5 5 5;
                     mkMeta "projects" 2 synced (Some 2) 5 5 5])
              (Some []))
        tracked_tables
        (mkServer [("projects", [project 1 "Inbox"; project 9 "Shared"]);
                   ("tasks", []); ("tags", [])]
                  [] true 1000).

(** The records that have a row in sync_metadata. *)
Definition tracked_keys (f : DbFile) : list (string * Z) :=
  map (fun m => (table_name m, record_id m)) (meta_rows f).

(** An initialised database whose sync tables could not be created. *)
Definition bare_world : World Server :=
  start (mkDb (mkTable [project 1 "Inbox"] 1)
              (mkTable [] 0) (mkTable [] 0) (mkTable [] 0)
              None None)
        tracked_tables
        empty_server.




(* ===================================================================== *)
(** ** Reasoning about async functions *)
(* ===================================================================== *)

Section Basics.
Context {Ext : Type} (out : Outside Ext).

Lemma bind_returned {A B} (m : Async Ext A) (k : A -> Async Ext B) w a w1 :
  m w = (Returned a, w1) -> bind m k w = k a w1.
Proof. intros H. unfold bind. rewrite H. reflexivity. Qed.


Lemma bind_returned_inv {A B} (m : Async Ext A) (k : A -> Async Ext B) w b w' :
  bind m k w = (Returned b, w') ->
  exists a w1, m w = (Returned a, w1) /\ k a w1 = (Returned b, w').
Proof.
  unfold bind. destruct (m w) as [[a | e] w1]; intros H.
  - exists a, w1. split; [reflexivity | exact H].
  - discriminate H.
Qed.

(** On an open database [initDatabase] returns at once. *)
Lemma initDatabase_open w :
  db w = true -> initDatabase out w = (Returned tt, w).
Proof.
  intros H. unfold initDatabase, bind, gets. rewrite H. reflexivity.
Qed.

Lemma getDb_open (w : World Ext) :
  db w = true -> getDb w = (Returned tt, w).
Proof. intros H. unfold getDb. rewrite H. reflexivity. Qed.

(** An operation that returns on an open database is run once. *)
Lemma withRetry_first {A} (operation : Async Ext A) w a w' :
  db w = true ->
  operation w = (Returned a, w') ->
  withRetry out operation w = (Returned a, w').
Proof.
  intros Hdb Hop. unfold withRetry. simpl. unfold try_catch.
  rewrite (bind_returned _ _ _ (initDatabase_open _ Hdb)), Hop. reflexivity.
Qed.

End Basics.

(* ===================================================================== *)
(** ** The connection check *)
(* ===================================================================== *)



(* ===================================================================== *)
(** ** The guard of a sync pass *)
(* ===================================================================== *)

Section Guard.
Context {Ext : Type} (out : Outside Ext).

(** The try block of [sync] only ever returns the success object. *)
Lemma sync_pass_returns t0 w r w' :
  sync_pass out t0 w = (Returned r, w') -> success r = true.
Proof.
  unfold sync_pass. intros H.
  repeat (apply bind_returned_inv in H; destruct H as (? & ? & _ & H)).
  unfold ret in H. inversion H. reflexivity.
Qed.

(** The catch block of [sync] only ever returns the failure object. *)
Lemma sync_failed_returns t0 e w r w' :
  sync_failed out t0 e w = (Returned r, w') -> exists d, r = SyncFailed e d.
Proof.
  unfold sync_failed. intros H.
  repeat (apply bind_returned_inv in H; destruct H as (? & ? & _ & H)).
  unfold ret in H. inversion H. eexists. reflexivity.
Qed.

(** A call that is not turned away runs the try block, then the catch
    block if need be, and releases the lock. *)
Lemma sync_past_guard_runs force (w : World Ext) :
  syncInProgress w && negb force = false ->
  sync out force w
  = (let (r, w') :=
       try_catch (sync_pass out (now out (ext w)))
                 (sync_failed out (now out (ext w)))
                 (set_heard (heard w ++ [mkNote SYNCING "Starting sync..."])
                            (set_syncInProgress true w)) in
     (r, set_syncInProgress false w')).
Proof.
  intros Hguard. unfold sync, bind at 1, clock at 1, gets. unfold bind at 1.
  rewrite Hguard. reflexivity.
Qed.

(** Such a call is not answered "Sync already in progress", and leaves
    the lock released. *)
Lemma sync_past_guard force (w : World Ext) r w' :
  syncInProgress w && negb force = false ->
  sync out force w = (r, w') ->
  r <> Returned (SyncSkipped "Sync already in progress") /\
  syncInProgress w' = false.
Proof.
  intros Hguard H. rewrite (sync_past_guard_runs _ _ Hguard) in H.
  match type of H with
  | context [try_catch ?m ?h ?w0] =>
      destruct (try_catch m h w0) as [r1 w1] eqn:Hrun
  end.
  inversion H; subst; clear H. split; [| reflexivity].
  intros ->. unfold try_catch in Hrun.
  match type of Hrun with
  | context [sync_pass ?o ?t ?w0] =>
      destruct (sync_pass o t w0) as [[r2 | e] w2] eqn:Hpass
  end.
  - inversion Hrun; subst. apply sync_pass_returns in Hpass. discriminate.
  - apply sync_failed_returns in Hrun. destruct Hrun as [d Hd]. discriminate.
Qed.

End Guard.

(** C2, as the code has it.  While a pass is in flight a call of
    [sync()] or [sync(false)] returns
    [{success: false, message: "Sync already in progress"}] and changes
    nothing: no store is touched, no listener is told, the flag of the
    running pass stays set.  A call of [sync(true)] is not rejected: it
    goes past the guard, runs a pass of its own and clears
    [syncInProgress] when it ends; a call without force that follows it
    is then not rejected either. *)
Theorem sync_guard :
  forall (Ext : Type) (out : Outside Ext) (w : World Ext),
    syncInProgress w = true ->
    sync out false w = (Returned (SyncSkipped "Sync already in progress"), w) /\
    sync out true w
    = (let (r, w') :=
         try_catch (sync_pass out (now out (ext w)))
                   (sync_failed out (now out (ext w)))
                   (set_heard (heard w ++ [mkNote SYNCING "Starting sync..."])
                              (set_syncInProgress true w)) in
       (r, set_syncInProgress false w')) /\
    (forall r w', sync out true w = (r, w') ->
       r <> Returned (SyncSkipped "Sync already in progress") /\
       syncInProgress w' = false /\
       (forall r2 w2, sync out false w' = (r2, w2) ->
          r2 <> Returned (SyncSkipped "Sync already in progress"))).
Proof.
  intros Ext out w Hbusy.
  assert (Hguard : syncInProgress w && negb true = false)
    by (rewrite Hbusy; reflexivity).
  split; [| split].
  - unfold sync, bind, clock, gets. rewrite Hbusy. reflexivity.
  - exact (@sync_past_guard_runs Ext out true w Hguard).
  - intros r w' H.
    destruct (@sync_past_guard Ext out true w r w' Hguard H) as [Hr Hlock].
    split; [exact Hr |]. split; [exact Hlock |].
    intros r2 w2 H2.
    assert (Hguard2 : syncInProgress w' && negb false = false)
      by (rewrite Hlock; reflexivity).
    exact (proj1 (@sync_past_guard Ext out false w' r2 w2 Hguard2 H2)).
Qed.

Lemma sync_guard_witness :
  syncInProgress busy_world = true /\
  sync service false busy_world
  = (Returned (SyncSkipped "Sync already in progress"), busy_world).
Proof.
  split; [reflexivity |].
  apply (proj1 (sync_guard service busy_world eq_refl)).
Defined.

(** C2 as it is written fails for [force = true]: with a pass in flight,
    [sync(true)] is not answered "Sync already in progress"; it pings
    the remote, reads three remote tables, stores a row locally, writes
    the history log and clears the flag of the pass that is running. *)
Lemma sync_forced_while_busy :
  syncInProgress busy_world = true /\
  sync service true busy_world
  <> (Returned (SyncSkipped "Sync already in progress"), busy_world) /\
  fst (sync service true busy_world) = Returned (SyncDone 0 1 (Some 1000) 0) /\
  calls (ext (snd (sync service true busy_world)))
  = [CallPing; CallSelect "projects"; CallSelect "tasks"; CallSelect "tags"] /\
  syncInProgress (snd (sync service true busy_world)) = false.
Proof.
  split; [reflexivity |]. split.
  - intros H. apply (f_equal fst) in H. vm_compute in H. discriminate H.
  - repeat split; vm_compute; reflexivity.
Qed.

(* ===================================================================== *)
(** ** Marking a record pending *)
(* ===================================================================== *)

(** C1 at a concrete input.  Project 2 is tracked as synced with remote
    id 7.  [updateProject(2, "Renamed")] calls
    [insertSyncMetadata('projects', 2)]; the INSERT OR REPLACE writes the
    omitted [supabaseId], NULL, over the 7.  The upload that follows
    therefore inserts a second remote row instead of updating row 7. *)
Theorem updateProject_forgets_remote_id :
  tracked "projects" 2 synced_world = Some (synced, Some 7) /\
  fst (updateProject service 2 "Renamed" synced_world)
  = Returned (2, "Renamed") /\
  tracked "projects" 2 (snd (updateProject service 2 "Renamed" synced_world))
  = Some (pending, None) /\
  calls (ext (snd (uploadToSupabase service
                     (snd (updateProject service 2 "Renamed" synced_world)))))
  = [CallInsert "projects" [("name", VText "Renamed")]] /\
  relation "projects"
    (relations (ext (snd (uploadToSupabase service
                       (snd (updateProject service 2 "Renamed" synced_world))))))
  = Some [project 7 "Work"; project 8 "Renamed"].
Proof. repeat split; vm_compute; reflexivity. Qed.

(* ===================================================================== *)
(** ** The download phase *)
(* ===================================================================== *)

(** C5 at a concrete input.  The remote holds project 1, which exists
    locally, and project 9, which does not; neither has a metadata row.
    The download updates the one and inserts the other, counts both as
    processed, and [updateSyncMetadata], an UPDATE, finds no row to
    change: afterwards there is still no metadata row for (projects, 1)
    nor for (projects, 9). *)
Theorem download_leaves_rows_untracked :
  fst (downloadFromSupabase service remote_ahead_world) = Returned 2%nat /\
  rows (projects (file (snd (downloadFromSupabase service remote_ahead_world))))
  = [project 1 "Inbox"; project 9 "Shared"] /\
  tracked "projects" 1 (snd (downloadFromSupabase service remote_ahead_world))
  = None /\
  tracked "projects" 9 (snd (downloadFromSupabase service remote_ahead_world))
  = None /\
  sync_metadata (file (snd (downloadFromSupabase service remote_ahead_world)))
  = Some [].
Proof. repeat split; vm_compute; reflexivity. Qed.

(* ===================================================================== *)
(** ** The bulk export *)
(* ===================================================================== *)

(** C6 at a concrete input.  With [clearSupabaseFirst] the remote tables
    are cleared dependents first, as intended; but
    [SYNC_CONFIG.TABLES.reverse()] has reversed the shared array itself,
    so the export loop that follows walks the same reversed array: the
    task is inserted before the project it belongs to, and the array
    stays reversed for every later user. *)
Theorem export_after_clear_runs_backwards :
  TABLES seeded_world = ["projects"; "tasks"; "tags"] /\
  calls (ext (snd (exportAllDataToSupabase service (mkOptions true true 10 false)
                                           seeded_world)))
  = [CallPing;
     CallClear "tags"; CallClear "tasks"; CallClear "projects";
     CallFind "tasks" (VInt 1); CallInsert "tasks" (task 1 1 "Welcome");
     CallFind "projects" (VInt 1); CallInsert "projects" (project 1 "Inbox")] /\
  map fst (results
    match fst (exportAllDataToSupabase service (mkOptions true true 10 false)
                                       seeded_world) with
    | Returned r => r
    | Thrown _ => mkExport false None 0 0 []
    end)
  = ["tags"; "tasks"; "projects"] /\
  TABLES (snd (exportAllDataToSupabase service (mkOptions true true 10 false)
                                       seeded_world))
  = ["tags"; "tasks"; "projects"].
Proof. repeat split; vm_compute; reflexivity. Qed.

(* ===================================================================== *)
(** ** Properties of the world that a call keeps *)
(* ===================================================================== *)

Section Keeps.
Context {Ext : Type} (out : Outside Ext).
Variable P : World Ext -> Prop.

Lemma keeps_ret {A} (a : A) : keeps P (ret a).
Proof. intros w r w' HP H. inversion H; subst. exact HP. Qed.

Lemma keeps_throw {A} (e : Error) : keeps P (@throw Ext A e).
Proof. intros w r w' HP H. inversion H; subst. exact HP. Qed.

Lemma keeps_gets {A} (f : World Ext -> A) : keeps P (gets f).
Proof. intros w r w' HP H. inversion H; subst. exact HP. Qed.

Lemma keeps_modify (f : World Ext -> World Ext) :
  (forall w, P w -> P (f w)) -> keeps P (modify f).
Proof. intros Hf w r w' HP H. inversion H; subst. apply Hf, HP. Qed.

Lemma keeps_bind {A B} (m : Async Ext A) (k : A -> Async Ext B) :
  keeps P m -> (forall a, keeps P (k a)) -> keeps P (bind m k).
Proof.
  intros Hm Hk w r w' HP H. unfold bind in H.
  destruct (m w) as [[a | e] w1] eqn:E.
  - eapply Hk; [eapply Hm; eassumption | eassumption].
  - inversion H; subst. eapply Hm; eassumption.
Qed.

Lemma keeps_try_catch {A} (m : Async Ext A) (h : Error -> Async Ext A) :
  keeps P m -> (forall e, keeps P (h e)) -> keeps P (try_catch m h).
Proof.
  intros Hm Hh w r w' HP H. unfold try_catch in H.
  destruct (m w) as [[a | e] w1] eqn:E.
  - inversion H; subst. eapply Hm; eassumption.
  - eapply Hh; [eapply Hm; eassumption | eassumption].
Qed.

Lemma keeps_if {A} (b : bool) (m1 m2 : Async Ext A) :
  keeps P m1 -> keeps P m2 -> keeps P (if b then m1 else m2).
Proof. destruct b; auto. Qed.

(** What [P] has to be indifferent to for the database layer to keep
    it: the handle, the outside, the business tables, and the creation
    of an empty sync table. *)
Hypothesis P_db : forall b w, P w -> P (set_db b w).
Hypothesis P_ext : forall x w, P w -> P (set_ext x w).
Hypothesis P_table : forall n t w, P w -> P (set_file (put_table n t (file w)) w).
Hypothesis P_new_metadata :
  forall w, sync_metadata (file w) = None ->
            P w -> P (set_file (set_sync_metadata (Some []) (file w)) w).
Hypothesis P_new_log :
  forall w, sync_log (file w) = None ->
            P w -> P (set_file (set_sync_log (Some []) (file w)) w).

Lemma keeps_outside {A} (call : Ext -> A * Ext) : keeps P (outside call).
Proof.
  intros w r w' HP H. unfold outside in H.
  destruct (call (ext w)) as [a x]. inversion H; subst. apply P_ext, HP.
Qed.

Lemma keeps_getDb : keeps P getDb.
Proof.
  intros w r w' HP H. unfold getDb in H.
  destruct (db w); inversion H; subst; exact HP.
Qed.

Lemma keeps_run_insert n fields : keeps P (run_insert n fields).
Proof.
  intros w r w' HP H. unfold run_insert in H.
  destruct (table_with_id n (file w)) as [[sch t] |].
  - destruct (sql_insert sch fields t) as [[t' id] |];
      inversion H; subst; [apply P_table, HP | exact HP].
  - inversion H; subst. exact HP.
Qed.

Lemma keeps_run_update n sets id : keeps P (run_update n sets id).
Proof.
  intros w r w' HP H. unfold run_update in H.
  destruct (table_with_id n (file w)) as [[sch t] |].
  - destruct (sql_update_by_id sch sets id t) as [[t' c] |];
      inversion H; subst; [apply P_table, HP | exact HP].
  - inversion H; subst. exact HP.
Qed.

Lemma keeps_run_delete_where n col v : keeps P (run_delete_where n col v).
Proof.
  intros w r w' HP H. unfold run_delete_where in H.
  destruct (table_named n (file w)) as [t |].
  - destruct (sql_delete_where col v t) as [t' c].
    inversion H; subst. apply P_table, HP.
  - inversion H; subst. exact HP.
Qed.

Lemma keeps_run_first_by_id n id : keeps P (run_first_by_id n id).
Proof.
  intros w r w' HP H. unfold run_first_by_id in H.
  destruct (table_with_id n (file w)) as [[sch t] |];
    inversion H; subst; exact HP.
Qed.

Lemma keeps_run_insert_task_tag a b : keeps P (run_insert_task_tag a b).
Proof.
  intros w r w' HP H. unfold run_insert_task_tag in H.
  destruct (sql_insert_task_tag a b (task_tags (file w))) as [t' |];
    inversion H; subst; [| exact HP].
  exact (P_table "task_tags" t' HP).
Qed.


Ltac keeps_step :=
  first
    [ apply keeps_bind; [| intros ?]
    | apply keeps_try_catch; [| intros ?]
    | apply keeps_ret
    | apply keeps_throw
    | apply keeps_gets
    | apply keeps_outside
    | apply keeps_getDb
    | apply keeps_run_insert
    | apply keeps_run_update
    | apply keeps_run_delete_where
    | apply keeps_run_first_by_id
    | apply keeps_run_insert_task_tag
    | apply keeps_if ].

Lemma keeps_addSampleData : keeps P (addSampleData (Ext := Ext)).
Proof. unfold addSampleData. repeat keeps_step. Qed.

Lemma keeps_create_sync_tables : keeps P (create_sync_tables out).
Proof.
  intros w r w' HP H.
  unfold create_sync_tables, try_catch, bind, gets, outside, modify, throw, ret
    in H.
  destruct (sync_metadata (file w)) eqn:E1.
  - destruct (sync_log (file w)) eqn:E2.
    + inversion H; subst. exact HP.
    + destruct (sqlite_create out "sync_log" (ext w)) as [[|] x];
        inversion H; subst.
      * apply (P_new_log (w := set_ext x w)); [exact E2 | apply P_ext, HP].
      * apply P_ext, HP.
  - destruct (sqlite_create out "sync_metadata" (ext w)) as [[|] x]; simpl in H.
    + assert (HP1 : P (set_file (set_sync_metadata (Some []) (file (set_ext x w)))
                                (set_ext x w)))
        by (apply (P_new_metadata (w := set_ext x w));
            [exact E1 | apply P_ext, HP]).
      destruct (sync_log (file w)) eqn:E2; simpl in H.
      * inversion H; subst. exact HP1.
      * destruct (sqlite_create out "sync_log" x) as [[|] x2];
          inversion H; subst.
        -- apply (P_new_log
                    (w := set_ext x2
                            (set_file (set_sync_metadata (Some [])
                                         (file (set_ext x w))) (set_ext x w))));
             [exact E2 | apply P_ext, HP1].
        -- apply (P_ext x2 HP1).
    + inversion H; subst. apply P_ext, HP.
Qed.

Lemma keeps_initDatabase : keeps P (initDatabase out).
Proof.
  unfold initDatabase. apply keeps_bind; [apply keeps_gets |].
  intros opened. apply keeps_if; [apply keeps_ret |].
  unfold _initDatabase.
  apply keeps_try_catch.
  - apply keeps_bind; [apply keeps_modify, P_db |]. intros _.
    apply keeps_bind; [apply keeps_outside |]. intros opened'.
    apply keeps_if;
      [| apply keeps_bind; [apply keeps_gets | intros e; apply keeps_throw]].
    apply keeps_bind; [apply keeps_modify, P_db |]. intros _.
    apply keeps_bind; [apply keeps_create_sync_tables |]. intros _.
    apply keeps_bind; [apply keeps_gets |]. intros count.
    apply keeps_if; [apply keeps_addSampleData |].
    repeat keeps_step.
  - intros e. apply keeps_bind; [apply keeps_modify, P_db |].
    intros _. apply keeps_throw.
Qed.

Lemma keeps_retry {A} (operation : Async Ext A) fuel lastError :
  keeps P operation -> keeps P (retry out operation fuel lastError).
Proof.
  intros Hop. revert lastError.
  induction fuel as [| fuel IH]; intros lastError; simpl.
  - apply keeps_throw.
  - apply keeps_try_catch.
    + apply keeps_bind; [apply keeps_initDatabase | intros _; exact Hop].
    + intros e. apply keeps_bind; [apply keeps_modify, P_db |].
      intros _. apply IH.
Qed.

Lemma keeps_withRetry {A} (operation : Async Ext A) :
  keeps P operation -> keeps P (withRetry out operation).
Proof. apply keeps_retry. Qed.

End Keeps.

(* ===================================================================== *)
(** ** What leaves the metadata rows alone *)
(* ===================================================================== *)

Lemma sync_metadata_put_table n t f :
  sync_metadata (put_table n t f) = sync_metadata f.
Proof.
  unfold put_table.
  repeat match goal with
         | |- context [if ?b then _ else _] => destruct b
         end; reflexivity.
Qed.

Lemma meta_rows_put_table n t f : meta_rows (put_table n t f) = meta_rows f.
Proof. unfold meta_rows. rewrite sync_metadata_put_table. reflexivity. Qed.

Section MetaRowsKept.
Context {Ext : Type} (out : Outside Ext).
Variable Q : list MetaRow -> Prop.

Lemma on_meta_rows_db b (w : World Ext) : on_meta_rows Q w -> on_meta_rows Q (set_db b w).
Proof. exact (fun H => H). Qed.

Lemma on_meta_rows_ext x (w : World Ext) : on_meta_rows Q w -> on_meta_rows Q (set_ext x w).
Proof. exact (fun H => H). Qed.

Lemma on_meta_rows_table n t (w : World Ext) :
  on_meta_rows Q w -> on_meta_rows Q (set_file (put_table n t (file w)) w).
Proof.
  unfold on_meta_rows. simpl. rewrite meta_rows_put_table. exact (fun H => H).
Qed.

Lemma on_meta_rows_new_metadata (w : World Ext) :
  sync_metadata (file w) = None ->
  on_meta_rows Q w ->
  on_meta_rows Q (set_file (set_sync_metadata (Some []) (file w)) w).
Proof.
  unfold on_meta_rows, meta_rows. simpl. intros ->. exact (fun H => H).
Qed.

Lemma on_meta_rows_new_log (w : World Ext) :
  sync_log (file w) = None ->
  on_meta_rows Q w ->
  on_meta_rows Q (set_file (set_sync_log (Some []) (file w)) w).
Proof. intros _. exact (fun H => H). Qed.

(** [withRetry] adds nothing to what its operation does to the rows. *)
Lemma withRetry_keeps_meta_rows {A} (operation : Async Ext A) :
  keeps (on_meta_rows Q) operation -> keeps (on_meta_rows Q) (withRetry out operation).
Proof.
  apply keeps_withRetry.
  - exact on_meta_rows_db.
  - exact on_meta_rows_ext.
  - exact on_meta_rows_table.
  - exact on_meta_rows_new_metadata.
  - exact on_meta_rows_new_log.
Qed.


End MetaRowsKept.

Section Pending.
Context {Ext : Type} (out : Outside Ext).

(** On an open database the pending-changes query reads the rows and
    changes nothing. *)
Lemma getPendingChanges_open (w : World Ext) :
  db w = true ->
  getPendingChanges out w
  = (Returned (meta_pending (BATCH_SIZE out) (meta_rows (file w))), w).
Proof.
  intros Hdb. unfold getPendingChanges.
  apply withRetry_first; [exact Hdb |].
  rewrite (bind_returned _ _ _ (getDb_open _ Hdb)).
  unfold try_catch, bind, gets, meta_rows.
  destruct (sync_metadata (file w)) as [ms |]; [reflexivity |].
  simpl. unfold meta_pending. simpl. rewrite firstn_nil. reflexivity.
Qed.

End Pending.



(* ===================================================================== *)
(** ** Deleting a project *)
(* ===================================================================== *)

Lemma filter_twice {A} (p : A -> bool) (l : list A) :
  filter p (filter p l) = filter p l.
Proof.
  induction l as [| x l IH]; simpl; [reflexivity |].
  destruct (p x) eqn:E; simpl; [rewrite E, IH |]; auto.
Qed.

Lemma same_key_refl tableName recordId s sid t1 t2 t3 :
  same_key tableName (VInt recordId)
           (mkMeta tableName recordId s sid t1 t2 t3) = true.
Proof.
  unfold same_key. simpl. rewrite String.eqb_refl, Z.eqb_refl. reflexivity.
Qed.

(** INSERT OR REPLACE touches the row of its own key only. *)
Lemma other_rows_meta_replace tableName recordId sid t ms :
  other_rows tableName recordId (meta_replace tableName recordId sid t ms)
  = other_rows tableName recordId ms.
Proof.
  unfold other_rows, meta_replace. rewrite filter_app, filter_twice. simpl.
  rewrite same_key_refl. simpl. apply app_nil_r.
Qed.

(** After INSERT OR REPLACE the key holds a pending row with the remote
    id that was passed. *)
Lemma meta_lookup_meta_replace tableName recordId sid t ms :
  meta_lookup tableName recordId (meta_replace tableName recordId sid t ms)
  = Some (mkMeta tableName recordId pending sid t t t).
Proof.
  unfold meta_lookup, meta_replace.
  induction ms as [| m ms IH]; simpl.
  - rewrite same_key_refl. reflexivity.
  - destruct (same_key tableName (VInt recordId) m) eqn:E; simpl.
    + exact IH.
    + rewrite E. exact IH.
Qed.

Lemma find_filter {A} (p q : A -> bool) (l : list A) :
  (forall x, p x = true -> q x = true) ->
  find p (filter q l) = find p l.
Proof.
  intros Hpq. induction l as [| x l IH]; simpl; [reflexivity |].
  destruct (q x) eqn:Eq; simpl.
  - rewrite IH. reflexivity.
  - destruct (p x) eqn:Ep; [| exact IH].
    rewrite (Hpq x Ep) in Eq. discriminate Eq.
Qed.

(** A row of another table is among the other rows. *)
Lemma meta_lookup_other_rows tableName recordId tableName' recordId' ms :
  String.eqb tableName' tableName = false ->
  meta_lookup tableName' recordId' (other_rows tableName recordId ms)
  = meta_lookup tableName' recordId' ms.
Proof.
  intros Hne. unfold meta_lookup, other_rows. apply find_filter.
  intros m Hm. unfold same_key in *.
  apply andb_true_iff in Hm. destruct Hm as [Hm _].
  apply String.eqb_eq in Hm. rewrite Hm, Hne. reflexivity.
Qed.

Lemma filter_hit_length {A} (p : A -> bool) (l : list A) :
  existsb p l = true -> Nat.eqb (List.length (filter p l)) 0 = false.
Proof.
  induction l as [| x l IH]; simpl; [discriminate |].
  destruct (p x); simpl; [reflexivity | exact IH].
Qed.

Section MarkPending.
Context {Ext : Type} (out : Outside Ext).

(** [insertSyncMetadata] on an open database. *)
Lemma insertSyncMetadata_open tableName recordId sid (w : World Ext) :
  db w = true ->
  insertSyncMetadata out tableName recordId sid w
  = (Returned tt,
     match sync_metadata (file w) with
     | Some ms =>
         set_file (set_sync_metadata
                     (Some (meta_replace tableName recordId sid
                                         (now out (ext w)) ms))
                     (file w)) w
     | None => w
     end).
Proof.
  intros Hdb. unfold insertSyncMetadata.
  apply withRetry_first; [exact Hdb |].
  rewrite (bind_returned _ _ _ (getDb_open _ Hdb)).
  unfold try_catch, bind, clock, gets, modify.
  destruct (sync_metadata (file w)); reflexivity.
Qed.

(** Marked pending without a remote id, a row has none, whatever it
    held before. *)
Lemma insertSyncMetadata_without_remote_id tableName recordId ms (w : World Ext) :
  db w = true ->
  sync_metadata (file w) = Some ms ->
  tracked tableName recordId
          (snd (insertSyncMetadata out tableName recordId None w))
  = Some (pending, None).
Proof.
  intros Hdb Hms. rewrite insertSyncMetadata_open by exact Hdb.
  rewrite Hms. unfold tracked, meta_rows. simpl.
  rewrite meta_lookup_meta_replace. reflexivity.
Qed.

(** [insertSyncMetadata] keeps the rows of every other record, whatever
    the state of the database. *)
Lemma insertSyncMetadata_keeps_other_rows tableName recordId sid L :
  keeps (on_meta_rows (Ext := Ext)
           (fun ms => other_rows tableName recordId ms = L))
        (insertSyncMetadata out tableName recordId sid).
Proof.
  unfold insertSyncMetadata. apply withRetry_keeps_meta_rows.
  apply keeps_bind; [apply keeps_getDb | intros _].
  apply keeps_try_catch; [| intros _; apply keeps_ret].
  intros w r w' HP H. unfold bind, clock, gets, modify, throw in H.
  unfold on_meta_rows, meta_rows in *.
  destruct (sync_metadata (file w)) as [ms |] eqn:E;
    injection H as _ Hw; subst w'; simpl.
  - rewrite other_rows_meta_replace. exact HP.
  - rewrite E. exact HP.
Qed.

End MarkPending.

(** C9.  [deleteProject(id)] leaves the metadata row of every record
    other than (projects, id) exactly as it was, on every path; in
    particular the rows of tasks are not re-marked.  On an initialised
    database that holds the project it returns, every task whose
    [project_id] is [id] is gone from tasks and the other tasks are
    kept, and the one metadata row written is a pending row for
    (projects, id). *)
Theorem deleteProject_marks_only_the_project :
  forall (Ext : Type) (out : Outside Ext) (id : Z) (w : World Ext),
    other_rows "projects" id (meta_rows (file (snd (deleteProject out id w))))
    = other_rows "projects" id (meta_rows (file w)) /\
    (forall taskId,
       tracked "tasks" taskId (snd (deleteProject out id w))
       = tracked "tasks" taskId w) /\
    (db w = true ->
     existsb (fun r => sql_eq (field "id" r) (VInt id))
             (rows (projects (file w))) = true ->
     fst (deleteProject out id w) = Returned id /\
     rows (tasks (file (snd (deleteProject out id w))))
     = filter (fun r => negb (sql_eq (field "project_id" r) (VInt id)))
              (rows (tasks (file w))) /\
     (sync_metadata (file w) <> None ->
      tracked "projects" id (snd (deleteProject out id w))
      = Some (pending, None))).
Proof.
  intros Ext out id w.
  assert (Hframe :
    other_rows "projects" id (meta_rows (file (snd (deleteProject out id w))))
    = other_rows "projects" id (meta_rows (file w))).
  { destruct (deleteProject out id w) as [r w'] eqn:E.
    refine (@withRetry_keeps_meta_rows _ out
              (fun ms => other_rows "projects" id ms
                         = other_rows "projects" id (meta_rows (file w)))
              _ _ _ w r w' eq_refl E).
    apply keeps_bind; [apply keeps_getDb | intros _].
    apply keeps_bind;
      [apply keeps_run_delete_where, on_meta_rows_table | intros _].
    apply keeps_bind;
      [apply keeps_run_delete_where, on_meta_rows_table | intros changes].
    apply keeps_bind;
      [apply keeps_if; [apply keeps_throw | apply keeps_ret] | intros _].
    apply keeps_bind; [| intros _; apply keeps_ret].
    apply insertSyncMetadata_keeps_other_rows. }
  split; [exact Hframe |]. split.
  - intros taskId. unfold tracked.
    rewrite <- (meta_lookup_other_rows "projects" id "tasks" taskId
                  (meta_rows (file (snd (deleteProject out id w)))))
      by reflexivity.
    rewrite Hframe.
    rewrite meta_lookup_other_rows by reflexivity. reflexivity.
  - intros Hdb Hfound.
    assert (E : deleteProject out id w
                = (Returned id,
                   let f2 := set_projects
                               (fst (sql_delete_where "id" (VInt id)
                                       (projects (file w))))
                               (set_tasks
                                  (fst (sql_delete_where "project_id" (VInt id)
                                          (tasks (file w))))
                                  (file w)) in
                   match sync_metadata (file w) with
                   | Some ms =>
                       set_file (set_sync_metadata
                                   (Some (meta_replace "projects" id None
                                            (now out (ext w)) ms)) f2) w
                   | None => set_file f2 w
                   end)).
    { unfold deleteProject. apply withRetry_first; [exact Hdb |].
      rewrite (bind_returned _ _ _ (getDb_open _ Hdb)).
      unfold bind at 1. unfold run_delete_where at 1. simpl.
      unfold bind at 1. unfold run_delete_where at 1. simpl.
      rewrite (filter_hit_length _ _ Hfound). simpl.
      unfold bind at 1. unfold ret at 1.
      unfold bind at 1. rewrite insertSyncMetadata_open by exact Hdb. simpl.
      destruct (sync_metadata (file w)); reflexivity. }
    rewrite E. simpl fst. simpl snd. split; [reflexivity |]. split.
    + destruct (sync_metadata (file w)); reflexivity.
    + intros Hsome. unfold tracked, meta_rows.
      destruct (sync_metadata (file w)) as [ms |]; [| congruence]. simpl.
      rewrite meta_lookup_meta_replace. reflexivity.
Qed.

Lemma deleteProject_marks_only_the_project_witness :
  fst (deleteProject service 2 project_world) = Returned 2 /\
  rows (tasks (file (snd (deleteProject service 2 project_world))))
  = [task 1 1 "Welcome"] /\
  tracked "projects" 2 (snd (deleteProject service 2 project_world))
  = Some (pending, None) /\
  tracked "tasks" 2 (snd (deleteProject service 2 project_world))
  = Some (synced, Some 12) /\
  tracked "tasks" 3 (snd (deleteProject service 2 project_world))
  = Some (synced, Some 13).
Proof.
  pose proof (deleteProject_marks_only_the_project service 2 project_world)
    as (_ & Htasks & H).
  destruct (H eq_refl eq_refl) as (Hret & Hrows & Hmark).
  split; [exact Hret |]. split; [exact Hrows |].
  split; [apply Hmark; discriminate |].
  split; [exact (Htasks 2) | exact (Htasks 3)].
Defined.

(* ===================================================================== *)
(** ** The upload phase, record by record *)
(* ===================================================================== *)

Lemma same_key_apply_updates tableName recordId u t m :
  same_key tableName recordId (apply_updates u t m)
  = same_key tableName recordId m.
Proof. reflexivity. Qed.

(** UPDATE changes the row of the key, if there is one. *)
Lemma meta_lookup_meta_update tableName recordId u t ms :
  meta_lookup tableName recordId
              (meta_update tableName (VInt recordId) u t ms)
  = option_map (apply_updates u t) (meta_lookup tableName recordId ms).
Proof.
  unfold meta_lookup, meta_update.
  induction ms as [| m ms IH]; simpl; [reflexivity |].
  destruct (same_key tableName (VInt recordId) m) eqn:E.
  - rewrite same_key_apply_updates, E. reflexivity.
  - rewrite E. exact IH.
Qed.

Section Upload.
Context {Ext : Type} (out : Outside Ext).

Lemma getLocalRecord_open tableName recordId sch t (w : World Ext) :
  db w = true ->
  table_with_id tableName (file w) = Some (sch, t) ->
  getLocalRecord out tableName recordId w
  = (Returned (sql_first_by_id (VInt recordId) t), w).
Proof.
  intros Hdb Ht. unfold getLocalRecord.
  apply withRetry_first; [exact Hdb |].
  rewrite (bind_returned _ _ _ (getDb_open _ Hdb)).
  unfold run_first_by_id. rewrite Ht. reflexivity.
Qed.

Lemma updateSyncMetadata_open tableName recordId u ms (w : World Ext) :
  db w = true ->
  sync_metadata (file w) = Some ms ->
  updateSyncMetadata out tableName recordId u w
  = (Returned tt,
     set_file (set_sync_metadata
                 (Some (meta_update tableName recordId u (now out (ext w)) ms))
                 (file w)) w).
Proof.
  intros Hdb Hms. unfold updateSyncMetadata.
  apply withRetry_first; [exact Hdb |].
  rewrite (bind_returned _ _ _ (getDb_open _ Hdb)).
  unfold bind, clock, gets, modify. rewrite Hms. reflexivity.
Qed.

(** [updateSyncMetadata] gives no row to a record that has none, and
    sets status and remote id on the row of a record that has one. *)
Lemma updateSyncMetadata_needs_a_row tableName recordId u ms (w : World Ext) :
  db w = true ->
  sync_metadata (file w) = Some ms ->
  tracked tableName recordId
          (snd (updateSyncMetadata out tableName (VInt recordId) u w))
  = option_map (fun m => (upd_status u,
                          match upd_supabase_id u with
                          | Some s => s
                          | None => supabase_id m
                          end))
               (meta_lookup tableName recordId ms).
Proof.
  intros Hdb Hms.
  rewrite (@updateSyncMetadata_open tableName (VInt recordId) u ms w Hdb Hms).
  unfold tracked, meta_rows. simpl. rewrite meta_lookup_meta_update.
  destruct (meta_lookup tableName recordId ms); reflexivity.
Qed.

(** The loop body of the upload on an open database with the metadata
    table in place: it returns, having written the outcome of the
    exchange on the row of the change. *)
Lemma upload_change_open change c ms reply x (w : World Ext) :
  db w = true ->
  sync_metadata (file w) = Some ms ->
  upload_exchange out change w = Some (reply, x) ->
  upload_change out change c w
  = (Returned match reply with
              | Data _ => mkCounters (S (doneCount c)) (errorCount c)
              | Failed _ => mkCounters (doneCount c) (S (errorCount c))
              end,
     set_file (set_sync_metadata
                 (Some (meta_update (table_name change)
                                    (VInt (record_id change))
                                    match reply with
                                    | Data u => u
                                    | Failed _ => mkUpd error None
                                    end
                                    (now out x) ms))
                 (file w))
              (set_ext x w)).
Proof.
  intros Hdb Hms Hex. unfold upload_exchange in Hex.
  destruct (table_with_id (table_name change) (file w)) as [[sch t] |] eqn:Ht;
    [| discriminate Hex].
  injection Hex as Hex.
  unfold upload_change, upload_attempt, try_catch, bind.
  rewrite (@getLocalRecord_open (table_name change) (record_id change)
             sch t w Hdb Ht).
  destruct (sql_first_by_id (VInt (record_id change)) t) as [record |];
    destruct (supabase_id change) as [remoteId |];
    unfold outside, ret, throw.
  - destruct (sb_update out (table_name change) (delete_key "id" record)
                        remoteId (ext w)) as [[data | e] x'];
      injection Hex as Hr Hx; subst reply x';
      rewrite (@updateSyncMetadata_open _ _ _ ms (set_ext x w) Hdb Hms);
      reflexivity.
  - destruct (sb_insert out (table_name change) (delete_key "id" record)
                        (ext w)) as [[data | e] x'];
      injection Hex as Hr Hx; subst reply x';
      rewrite (@updateSyncMetadata_open _ _ _ ms (set_ext x w) Hdb Hms);
      reflexivity.
  - destruct (sb_delete out (table_name change) remoteId (ext w))
      as [[u | e] x'];
      injection Hex as Hr Hx; subst reply x';
      rewrite (@updateSyncMetadata_open _ _ _ ms (set_ext x w) Hdb Hms);
      reflexivity.
  - injection Hex as Hr Hx; subst reply x.
    rewrite (@updateSyncMetadata_open _ _ _ ms w Hdb Hms).
    destruct w; reflexivity.
Qed.

End Upload.

Lemma table_with_id_has_id tableName f :
  has_id tableName = true ->
  exists sch t, table_with_id tableName f = Some (sch, t).
Proof.
  unfold has_id, table_with_id, schema_of, table_named.
  destruct (String.eqb tableName "projects"); [intros _; do 2 eexists; reflexivity |].
  destruct (String.eqb tableName "tasks"); [intros _; do 2 eexists; reflexivity |].
  destruct (String.eqb tableName "tags"); [intros _; do 2 eexists; reflexivity |].
  destruct (String.eqb tableName "task_tags"); discriminate.
Qed.

Lemma table_with_id_set_sync_metadata tableName m f :
  table_with_id tableName (set_sync_metadata m f) = table_with_id tableName f.
Proof. reflexivity. Qed.

Section UploadBatch.
Context {Ext : Type} (out : Outside Ext).

(** A change on a table with an [id] column always has an exchange. *)
Lemma upload_exchange_has_id change (w : World Ext) :
  has_id (table_name change) = true ->
  exists reply x, upload_exchange out change w = Some (reply, x).
Proof.
  intros Hid. unfold upload_exchange.
  destruct (table_with_id_has_id (table_name change) (file w) Hid)
    as (sch & t & ->).
  match goal with
  | |- exists reply x, Some ?p = _ => destruct p as [reply x]
  end.
  exists reply, x. reflexivity.
Qed.

(** The loop of the upload runs to the end of the batch: with the
    database open and the metadata table in place, no record stops it. *)
Lemma upload_changes_returns changes :
  forall c (w : World Ext),
    db w = true ->
    sync_metadata (file w) <> None ->
    Forall (fun change => has_id (table_name change) = true) changes ->
    exists c' w',
      upload_changes out changes c w = (Returned c', w') /\
      db w' = true /\ sync_metadata (file w') <> None.
Proof.
  induction changes as [| change rest IH]; intros c w Hdb Hms Hall.
  - exists c, w. repeat split; assumption.
  - inversion Hall as [| ? ? Hid Hrest]; subst.
    destruct (sync_metadata (file w)) as [ms |] eqn:Ems; [| congruence].
    destruct (upload_exchange_has_id change w Hid) as (reply & x & Hex).
    simpl. unfold bind.
    rewrite (@upload_change_open _ out change c ms reply x w Hdb Ems Hex).
    apply IH; [exact Hdb | discriminate | exact Hrest].
Qed.

End UploadBatch.

(** C3, as the code has it.  A change whose local record is gone is
    marked synced and counted as uploaded when it has no remote id
    (nothing is asked of the remote) or when the remote delete of its
    remote id succeeds.  When that delete fails the change is marked
    error and counted as an error, not as uploaded.  In no case is it
    left pending. *)
Theorem upload_of_deleted_record :
  forall (Ext : Type) (out : Outside Ext) (change : MetaRow) (c : Counters)
         (ms : list MetaRow) (sch : Schema) (t : Table) (w : World Ext),
    db w = true ->
    sync_metadata (file w) = Some ms ->
    meta_lookup (table_name change) (record_id change) ms = Some change ->
    table_with_id (table_name change) (file w) = Some (sch, t) ->
    sql_first_by_id (VInt (record_id change)) t = None ->
    exists w',
      match supabase_id change with
      | None =>
          upload_change out change c w
          = (Returned (mkCounters (S (doneCount c)) (errorCount c)), w') /\
          ext w' = ext w /\
          tracked (table_name change) (record_id change) w'
          = Some (synced, None)
      | Some remoteId =>
          match sb_delete out (table_name change) remoteId (ext w) with
          | (Data _, x) =>
              upload_change out change c w
              = (Returned (mkCounters (S (doneCount c)) (errorCount c)), w') /\
              ext w' = x /\
              tracked (table_name change) (record_id change) w'
              = Some (synced, Some remoteId)
          | (Failed _, x) =>
              upload_change out change c w
              = (Returned (mkCounters (doneCount c) (S (errorCount c))), w') /\
              ext w' = x /\
              tracked (table_name change) (record_id change) w'
              = Some (error, Some remoteId)
          end
      end /\
      option_map fst (tracked (table_name change) (record_id change) w')
      <> Some pending.
Proof.
  intros Ext out change c ms sch t w Hdb Hms Hrow Ht Hgone.
  assert (Hex : exists reply x, upload_exchange out change w = Some (reply, x)).
  { unfold upload_exchange. rewrite Ht.
    match goal with
    | |- exists reply x, Some ?p = _ => destruct p as [reply x]
    end.
    exists reply, x. reflexivity. }
  destruct Hex as (reply & x & Hex).
  pose proof (@upload_change_open _ out change c ms _ x w Hdb Hms Hex) as Hrun.
  exists (snd (upload_change out change c w)). rewrite Hrun. simpl snd.
  unfold upload_exchange in Hex. rewrite Ht, Hgone in Hex.
  unfold tracked, meta_rows. simpl.
  rewrite meta_lookup_meta_update, Hrow. simpl.
  destruct (supabase_id change) as [remoteId |].
  - destruct (sb_delete out (table_name change) remoteId (ext w))
      as [[u | e] x'];
      injection Hex as Hr Hx; subst reply x'; simpl;
      (split; [repeat split | discriminate]).
  - injection Hex as Hr Hx; subst reply x; simpl.
    split; [repeat split | discriminate].
Qed.





Lemma upload_of_deleted_record_witness :
  exists w',
    (upload_change service tombstone (mkCounters 0 0) tombstone_world
     = (Returned (mkCounters 1 0), w') /\
     ext w'
     = mkServer [("projects", []); ("tasks", []); ("tags", [])]
                [CallDelete "projects" 7] true 1000 /\
     tracked "projects" 2 w' = Some (synced, Some 7)) /\
    option_map fst (tracked "projects" 2 w') <> Some pending.
Proof.
  exact (@upload_of_deleted_record Server service tombstone (mkCounters 0 0)
           [tombstone] [("id", false); ("name", true)]
           (mkTable [project 1 "Inbox"] 2) tombstone_world
           eq_refl eq_refl eq_refl eq_refl eq_refl).
Defined.

(** C3 as it is written fails when the remote delete fails: the change
    of tag 5 is processed, its local record is gone, it has remote id 9,
    the remote refuses the delete; the change is marked error, not
    synced, and is not counted as uploaded. *)
Lemma upload_of_deleted_record_can_fail :
  tracked "tags" 5 orphan_world = Some (pending, Some 9) /\
  fst (getLocalRecord service "tags" 5 orphan_world) = Returned None /\
  fst (uploadToSupabase service orphan_world) = Returned 0%nat /\
  calls (ext (snd (uploadToSupabase service orphan_world)))
  = [CallDelete "tags" 9] /\
  tracked "tags" 5 (snd (uploadToSupabase service orphan_world))
  = Some (error, Some 9).
Proof. repeat split; vm_compute; reflexivity. Qed.

(* ===================================================================== *)
(** ** Opening the database again *)
(* ===================================================================== *)

Lemma sql_insert_appends sch fields t t' id :
  sql_insert sch fields t = Some (t', id) ->
  exists row, rows t' = rows t ++ [row].
Proof.
  unfold sql_insert.
  destruct (negb (forallb (has_column sch) (keys fields))); [discriminate |].
  match goal with
  | |- match ?chosen with _ => _ end = _ -> _ => destruct chosen as [id0 |]
  end; [| discriminate].
  match goal with
  | |- (if ?b then _ else _) = _ -> _ => destruct b
  end; [discriminate |].
  intros H. inversion H; subst. simpl. eexists. reflexivity.
Qed.

Lemma projects_put_table_other n t f :
  String.eqb n "projects" = false -> projects (put_table n t f) = projects f.
Proof.
  intros Hn. unfold put_table. rewrite Hn.
  repeat match goal with
         | |- context [if ?b then _ else _] => destruct b
         end; reflexivity.
Qed.

Lemma existsb_length {A} (p : A -> bool) (l : list A) :
  existsb p l = true -> Nat.eqb (List.length l) 0 = false.
Proof. destruct l; [discriminate | reflexivity]. Qed.

Section Reopen.
Context {Ext : Type} (out : Outside Ext).

Lemma keeps_has_inbox_run_insert n fields :
  keeps (has_inbox (Ext := Ext)) (run_insert n fields).
Proof.
  intros w r w' HP H. unfold run_insert in H.
  destruct (table_with_id n (file w)) as [[sch t] |] eqn:Et;
    [| inversion H; subst; exact HP].
  destruct (sql_insert sch fields t) as [[t' id] |] eqn:Ei;
    [| inversion H; subst; exact HP].
  inversion H; subst. unfold has_inbox in *. simpl.
  destruct (String.eqb n "projects") eqn:En.
  - unfold table_with_id, schema_of, table_named in Et. rewrite En in Et.
    simpl in Et. inversion Et; subst.
    unfold put_table. rewrite En. simpl.
    destruct (sql_insert_appends _ _ _ Ei) as [row ->].
    rewrite existsb_app, HP. reflexivity.
  - rewrite projects_put_table_other by exact En. exact HP.
Qed.

Lemma keeps_has_inbox_run_insert_task_tag a b :
  keeps (has_inbox (Ext := Ext)) (run_insert_task_tag a b).
Proof.
  intros w r w' HP H. unfold run_insert_task_tag in H.
  destruct (sql_insert_task_tag a b (task_tags (file w)));
    inversion H; subst; exact HP.
Qed.

Ltac keeps_inbox_step :=
  first
    [ apply keeps_bind; [| intros ?]
    | apply keeps_try_catch; [| intros ?]
    | apply keeps_ret
    | apply keeps_throw
    | apply keeps_if
    | apply keeps_has_inbox_run_insert
    | apply keeps_has_inbox_run_insert_task_tag ].

(** However [addSampleData] ends, the Inbox project is in place. *)
Lemma addSampleData_has_inbox (w : World Ext) r w' :
  addSampleData w = (r, w') -> has_inbox w'.
Proof.
  unfold addSampleData, try_catch. unfold bind at 1.
  unfold run_insert at 1. simpl.
  match goal with
  | |- match ?rest ?w3 with _ => _ end = _ -> _ =>
      assert (Hkeep : keeps (has_inbox (Ext := Ext)) rest)
        by (repeat keeps_inbox_step);
      assert (H3 : has_inbox w3)
        by (unfold has_inbox; simpl; rewrite existsb_app; simpl;
            apply orb_true_r);
      destruct (rest w3) as [[a | e] w4] eqn:E
  end.
  - intros H. inversion H; subst. exact (Hkeep _ _ _ H3 E).
  - intros H. inversion H; subst. exact (Hkeep _ _ _ H3 E).
Qed.

Lemma create_sync_tables_returns (w : World Ext) :
  exists w', create_sync_tables out w = (Returned tt, w') /\
             db w' = db w /\ projects (file w') = projects (file w).
Proof.
  destruct (create_sync_tables out w) as [r w'] eqn:E.
  assert (Hr : r = Returned tt).
  { unfold create_sync_tables, try_catch in E.
    match type of E with
    | match ?m with _ => _ end = _ => destruct m as [[[] | e] w1]
    end; inversion E; reflexivity. }
  subst r. exists w'. split; [reflexivity |].
  refine (@keeps_create_sync_tables _ out
            (fun w' => db w' = db w /\ projects (file w') = projects (file w))
            _ _ _ w (Returned tt) w' (conj eq_refl eq_refl) E);
    intros; assumption.
Qed.

Hypothesis storage_opens : forall x, fst (sqlite_open out x) = true.






End Reopen.




(* ===================================================================== *)
(** ** The order of the export, for every configuration *)
(* ===================================================================== *)

Lemma map_fst_set_result k (v : TableReport) rs :
  ~ In k (map fst rs) -> map fst (set_result k v rs) = map fst rs ++ [k].
Proof.
  induction rs as [| [k0 v0] rs IH]; simpl; intros Hk; [reflexivity |].
  destruct (String.eqb k0 k) eqn:E.
  - apply String.eqb_eq in E. exfalso. apply Hk. left. exact E.
  - simpl. rewrite IH; [reflexivity |]. intros Hin. apply Hk. right. exact Hin.
Qed.

Section ExportOrder.
Context {Ext : Type} (out : Outside Ext).
Variable L : list string.

(** The shared array holds [L]. *)
Local Abbreviation holds := (fun w : World Ext => TABLES w = L).

Lemma holds_withRetry {A} (operation : Async Ext A) :
  keeps holds operation -> keeps holds (withRetry out operation).
Proof. apply keeps_withRetry; intros; assumption. Qed.

Lemma holds_outside {A} (call : Ext -> A * Ext) : keeps holds (outside call).
Proof. apply keeps_outside. intros; assumption. Qed.

Lemma holds_clear_tables ts : keeps holds (clear_tables out ts).
Proof.
  induction ts as [| t ts IH]; simpl; [apply keeps_ret |].
  apply keeps_bind; [| intros _; exact IH].
  unfold clear_table.
  apply keeps_try_catch; [| intros _; apply keeps_ret].
  apply keeps_bind; [apply holds_outside |].
  intros [u | e]; [apply keeps_ret | apply keeps_throw].
Qed.

Lemma holds_export_record t o total record r :
  keeps holds (export_record out t o total record r).
Proof.
  unfold export_record.
  apply keeps_bind;
    [apply keeps_if; [apply holds_outside | apply keeps_ret] |].
  intros [existing |]; [apply keeps_ret |].
  apply keeps_bind; [apply holds_outside | intros reply].
  apply keeps_bind; [| intros _; apply keeps_ret].
  apply keeps_if; [| apply keeps_ret].
  apply keeps_modify. intros w H. exact H.
Qed.

Lemma holds_export_batch t o total batch :
  forall r, keeps holds (export_batch out t o total batch r).
Proof.
  induction batch as [| record batch IH]; intros r; simpl;
    [apply keeps_ret |].
  apply keeps_bind; [apply holds_export_record | intros r'; apply IH].
Qed.

Lemma holds_export_batches t o total bs :
  forall r, keeps holds (export_batches out t o total bs r).
Proof.
  induction bs as [| batch bs IH]; intros r; simpl; [apply keeps_ret |].
  apply keeps_bind; [apply holds_export_batch | intros r'; apply IH].
Qed.

Lemma holds_export_table o t acc : keeps holds (export_table out o t acc).
Proof.
  unfold export_table.
  apply keeps_try_catch; [| intros e; apply keeps_ret].
  apply keeps_bind; [| intros r; apply keeps_ret].
  unfold exportTableToSupabase. apply holds_withRetry.
  apply keeps_bind; [apply keeps_getDb | intros _].
  apply keeps_bind.
  - intros w r w' H E. unfold run_select_all in E.
    destruct (table_named t (file w)); injection E as _ Hw; rewrite <- Hw;
      exact H.
  - intros localRecords.
    apply keeps_if; [apply keeps_ret | apply holds_export_batches].
Qed.

Lemma holds_export_tables o ts :
  forall acc, keeps holds (export_tables out o ts acc).
Proof.
  induction ts as [| t ts IH]; intros acc; simpl; [apply keeps_ret |].
  apply keeps_bind; [apply holds_export_table | intros acc'; apply IH].
Qed.

End ExportOrder.

Section ExportRuns.
Context {Ext : Type} (out : Outside Ext).

Lemma clear_tables_returns ts :
  forall w : World Ext, exists w', clear_tables out ts w = (Returned tt, w').
Proof.
  induction ts as [| t ts IH]; intros w; simpl; [exists w; reflexivity |].
  unfold bind at 1, clear_table, try_catch.
  match goal with
  | |- exists w', match (match ?m with _ => _ end) with _ => _ end = _ =>
      destruct m as [[[] | e] w1]
  end; apply IH.
Qed.

(** One table of the export: the loop body returns, and the report of
    the table is filed under its name. *)
Lemma export_table_returns o t acc (w : World Ext) :
  exists r w', export_table out o t acc w = (Returned r, w') /\
               exists report, results r = set_result t report (results acc).
Proof.
  unfold export_table, try_catch.
  match goal with
  | |- exists r w', match ?m with _ => _ end = _ /\ _ =>
      destruct m as [[r | e] w1] eqn:E
  end.
  - apply bind_returned_inv in E. destruct E as (rep & w2 & _ & E).
    inversion E; subst. do 2 eexists. split; [reflexivity |].
    eexists. reflexivity.
  - do 2 eexists. split; [reflexivity |]. eexists. reflexivity.
Qed.

(** The reports are filed in the order in which the tables are walked. *)
Lemma export_tables_order o ts :
  forall acc (w : World Ext),
    NoDup (map fst (results acc) ++ ts) ->
    exists r w', export_tables out o ts acc w = (Returned r, w') /\
                 map fst (results r) = map fst (results acc) ++ ts.
Proof.
  induction ts as [| t ts IH]; intros acc w Hnd; simpl.
  - exists acc, w. split; [reflexivity |]. rewrite app_nil_r. reflexivity.
  - destruct (export_table_returns o t acc w) as (r1 & w1 & E1 & rep & Hres).
    unfold bind. rewrite E1.
    assert (Hfst : map fst (results r1) = map fst (results acc) ++ [t]).
    { rewrite Hres. apply map_fst_set_result.
      apply NoDup_remove_2 in Hnd. intros Hin. apply Hnd.
      apply in_or_app. left. exact Hin. }
    destruct (IH r1 w1) as (r & w' & E & Hr).
    + rewrite Hfst, <- app_assoc. exact Hnd.
    + exists r, w'. split; [exact E |].
      rewrite Hr, Hfst, <- app_assoc. reflexivity.
Qed.

Lemma checkConnection_connected u x (w : World Ext) :
  isSupabaseConfigured out = true ->
  sb_ping out (ext w) = (Data u, x) ->
  checkConnection out w = (Returned true, set_isOnline true (set_ext x w)).
Proof.
  intros Hconf Hping. unfold checkConnection. rewrite Hconf. simpl.
  unfold try_catch, bind, outside. rewrite Hping. reflexivity.
Qed.

(** An export that clears the remote first walks the tables backwards,
    whatever the tables are, and leaves the shared array reversed. *)
Lemma exportAll_after_clear o u x (w : World Ext) :
  clearSupabaseFirst o = true ->
  isSupabaseConfigured out = true ->
  sb_ping out (ext w) = (Data u, x) ->
  NoDup (TABLES w) ->
  exists r w',
    exportAllDataToSupabase out o w = (Returned r, w') /\
    map fst (results r) = rev (TABLES w) /\
    TABLES w' = rev (TABLES w).
Proof.
  intros Hclear Hconf Hping Hnd.
  unfold exportAllDataToSupabase, try_catch.
  rewrite (bind_returned _ _ _ (checkConnection_connected _ Hconf Hping)).
  simpl negb. cbv iota. unfold bind at 1, ret at 1.
  rewrite Hclear. unfold bind at 1. unfold bind at 1, modify at 1.
  unfold bind at 1, gets at 1.
  match goal with
  | |- context [clear_tables out ?ts ?w1] =>
      destruct (clear_tables_returns ts w1) as (w2 & Ec);
      pose proof (@holds_clear_tables _ out (rev (TABLES w)) ts
                    w1 (Returned tt) w2 eq_refl Ec) as Ht2;
      rewrite Ec
  end.
  unfold bind at 1, gets at 1. rewrite Ht2.
  destruct (export_tables_order o (rev (TABLES w)) (mkExport true None 0 0 []) w2)
    as (r & w' & E & Hr).
  - simpl. apply NoDup_rev. exact Hnd.
  - rewrite E. exists r, w'. split; [reflexivity |]. split; [exact Hr |].
    exact (@holds_export_tables _ out (rev (TABLES w)) o (rev (TABLES w)) _
             w2 (Returned r) w' Ht2 E).
Qed.

End ExportRuns.

(* ===================================================================== *)
(** ** The batch of pending changes *)
(* ===================================================================== *)

Lemma insert_by_time_In m sorted x :
  In x (insert_by_time m sorted) <-> x = m \/ In x sorted.
Proof.
  induction sorted as [| y rest IH]; simpl.
  - intuition congruence.
  - destruct (last_modified m <? last_modified y); simpl.
    + intuition congruence.
    + rewrite IH. intuition congruence.
Qed.

Lemma insert_by_time_sorted m sorted :
  StronglySorted not_newer sorted ->
  StronglySorted not_newer (insert_by_time m sorted).
Proof.
  induction 1 as [| y rest Hrest IH Hall]; simpl.
  - constructor; constructor.
  - destruct (last_modified m <? last_modified y) eqn:E.
    + apply Z.ltb_lt in E. constructor.
      * constructor; assumption.
      * constructor; [unfold not_newer; lia |].
        eapply Forall_impl; [| exact Hall].
        intros a Ha. unfold not_newer in *. lia.
    + apply Z.ltb_ge in E. constructor; [exact IH |].
      apply Forall_forall. intros x Hx.
      apply insert_by_time_In in Hx. destruct Hx as [-> | Hx].
      * exact E.
      * rewrite Forall_forall in Hall. apply Hall, Hx.
Qed.

Lemma order_by_last_modified_spec ms :
  StronglySorted not_newer (order_by_last_modified ms) /\
  (forall x, In x (order_by_last_modified ms) <-> In x ms).
Proof.
  unfold order_by_last_modified.
  assert (H : forall acc,
             StronglySorted not_newer acc ->
             StronglySorted not_newer
               (fold_left (fun acc m => insert_by_time m acc) ms acc) /\
             (forall x, In x (fold_left (fun acc m => insert_by_time m acc) ms acc)
                        <-> In x acc \/ In x ms)).
  { induction ms as [| m ms IH]; intros acc Hacc; simpl.
    - split; [exact Hacc | intuition].
    - destruct (IH (insert_by_time m acc) (insert_by_time_sorted m Hacc))
        as [Hs Hin].
      split; [exact Hs |]. intros x. rewrite Hin, insert_by_time_In.
      intuition. }
  destruct (H [] (SSorted_nil _)) as [Hs Hin].
  split; [exact Hs |]. intros x. rewrite Hin. simpl. intuition.
Qed.

Lemma sorted_app_le {A} (R : A -> A -> Prop) l1 l2 :
  StronglySorted R (l1 ++ l2) ->
  forall a b, In a l1 -> In b l2 -> R a b.
Proof.
  induction l1 as [| x l1 IH]; simpl; intros Hs a b Ha Hb; [contradiction |].
  inversion Hs as [| ? ? Hrest Hall]; subst.
  destruct Ha as [-> | Ha].
  - rewrite Forall_forall in Hall. apply Hall, in_or_app. right. exact Hb.
  - exact (IH Hrest a b Ha Hb).
Qed.

Lemma sorted_app_l {A} (R : A -> A -> Prop) l1 l2 :
  StronglySorted R (l1 ++ l2) -> StronglySorted R l1.
Proof.
  induction l1 as [| x l1 IH]; simpl; intros Hs; [constructor |].
  inversion Hs as [| ? ? Hrest Hall]; subst.
  constructor; [exact (IH Hrest) |].
  apply Forall_app in Hall. exact (proj1 Hall).
Qed.

(** X1.  On an initialised database [getPendingChanges()] changes
    nothing and returns a batch of at most [BATCH_SIZE] rows of
    sync_metadata, none of them synced, oldest first by [last_modified];
    and it is the oldest that are taken: a pending or error row left out
    of the batch is not older than any row in it. *)
Theorem pending_batch_is_the_oldest :
  forall (Ext : Type) (out : Outside Ext) (w : World Ext),
    db w = true ->
    exists batch,
      getPendingChanges out w = (Returned batch, w) /\
      (List.length batch <= BATCH_SIZE out)%nat /\
      StronglySorted not_newer batch /\
      (forall m, In m batch ->
                 In m (meta_rows (file w)) /\ sync_status m <> synced) /\
      (forall m m', In m batch ->
                    In m' (meta_rows (file w)) -> sync_status m' <> synced ->
                    ~ In m' batch -> not_newer m m').
Proof.
  intros Ext out w Hdb.
  exists (meta_pending (BATCH_SIZE out) (meta_rows (file w))).
  split; [apply getPendingChanges_open; exact Hdb |].
  unfold meta_pending.
  set (waiting := filter (fun m => match sync_status m with
                                   | synced => false
                                   | _ => true
                                   end) (meta_rows (file w))).
  destruct (order_by_last_modified_spec waiting) as [Hs Hin].
  set (sorted := order_by_last_modified waiting) in *.
  assert (Hsplit : sorted = firstn (BATCH_SIZE out) sorted
                            ++ skipn (BATCH_SIZE out) sorted)
    by (symmetry; apply firstn_skipn).
  assert (Hwait : forall m, In m waiting <->
                            In m (meta_rows (file w)) /\ sync_status m <> synced).
  { intros m. unfold waiting. rewrite filter_In.
    destruct (sync_status m); intuition congruence. }
  split; [apply firstn_le_length |]. split; [| split].
  - rewrite Hsplit in Hs. eapply sorted_app_l. exact Hs.
  - intros m Hm. apply Hwait, Hin.
    rewrite Hsplit. apply in_or_app. left. exact Hm.
  - intros m m' Hm Hm' Hst Hout.
    assert (Hin' : In m' sorted) by (apply Hin, Hwait; split; assumption).
    rewrite Hsplit in Hin'. apply in_app_or in Hin'.
    destruct Hin' as [Hin' | Hin']; [contradiction |].
    rewrite Hsplit in Hs. eapply sorted_app_le; eassumption.
Qed.

Lemma pending_batch_is_the_oldest_witness :
  (exists batch,
     getPendingChanges small_batches backlog_world = (Returned batch, backlog_world) /\
     (List.length batch <= 2)%nat /\
     StronglySorted not_newer batch) /\
  fst (getPendingChanges small_batches backlog_world)
  = Returned [mkMeta "tags" 3 error None 10 10 11;
              mkMeta "projects" 4 pending None 20 20 20].
Proof.
  split.
  - destruct (pending_batch_is_the_oldest small_batches backlog_world eq_refl)
      as (batch & Hrun & Hlen & Hsorted & _).
    exists batch. repeat split; assumption.
  - vm_compute. reflexivity.
Defined.

(* ===================================================================== *)
(** ** Counting in the upload phase *)
(* ===================================================================== *)

Section UploadCounts.
Context {Ext : Type} (out : Outside Ext).

(** Whatever [withRetry] returns, its operation returned. *)
Lemma retry_returned {A} (operation : Async Ext A) (Q : A -> Prop) :
  (forall w a w', operation w = (Returned a, w') -> Q a) ->
  forall fuel lastError w a w',
    retry out operation fuel lastError w = (Returned a, w') -> Q a.
Proof.
  intros Hop. induction fuel as [| fuel IH]; intros lastError w a w' H; simpl in H.
  - discriminate H.
  - unfold try_catch in H.
    destruct ((initDatabase out ;;; operation) w) as [[a1 | e] w1] eqn:E.
    + inversion H; subst.
      apply bind_returned_inv in E. destruct E as (? & w2 & _ & E).
      exact (Hop _ _ _ E).
    + unfold bind at 1, modify in H. exact (IH _ _ _ _ H).
Qed.

(** The batch that is read is never longer than [BATCH_SIZE]. *)
Lemma getPendingChanges_bounded (w : World Ext) changes w' :
  getPendingChanges out w = (Returned changes, w') ->
  (List.length changes <= BATCH_SIZE out)%nat.
Proof.
  unfold getPendingChanges, withRetry. intros Hrun.
  refine (@retry_returned _ _
            (fun a => (List.length a <= BATCH_SIZE out)%nat) _ _ _ _ _ _ Hrun).
  clear. intros w a w' H.
  apply bind_returned_inv in H. destruct H as (_ & w1 & _ & H).
  unfold try_catch, bind, gets in H.
  destruct (sync_metadata (file w1)); inversion H; subst.
  - unfold meta_pending. apply firstn_le_length.
  - apply Nat.le_0_l.
Qed.

(** One change, when the loop body returns, moves exactly one counter
    by one. *)
Lemma upload_change_counts change c (w : World Ext) c' w' :
  upload_change out change c w = (Returned c', w') ->
  (c' = mkCounters (S (doneCount c)) (errorCount c) \/
   c' = mkCounters (doneCount c) (S (errorCount c))).
Proof.
  unfold upload_change, upload_attempt, try_catch. intros H.
  match type of H with
  | match ?body ?w0 with _ => _ end = _ =>
      destruct (body w0) as [[c1 | e] w1] eqn:E
  end.
  - inversion H; subst. left.
    apply bind_returned_inv in E. destruct E as ([record |] & w2 & _ & E).
    + apply bind_returned_inv in E. destruct E as ([data | e] & w3 & _ & E).
      * apply bind_returned_inv in E. destruct E as (_ & w4 & _ & E).
        inversion E. reflexivity.
      * discriminate E.
    + apply bind_returned_inv in E. destruct E as (_ & w3 & _ & E).
      apply bind_returned_inv in E. destruct E as (_ & w4 & _ & E).
      inversion E. reflexivity.
  - right. apply bind_returned_inv in H. destruct H as (_ & w2 & _ & H).
    inversion H. reflexivity.
Qed.

Lemma upload_changes_counts changes :
  forall c (w : World Ext) c' w',
    upload_changes out changes c w = (Returned c', w') ->
    (doneCount c' + errorCount c'
     = doneCount c + errorCount c + List.length changes)%nat /\
    (doneCount c <= doneCount c')%nat /\ (errorCount c <= errorCount c')%nat.
Proof.
  induction changes as [| change rest IH]; intros c w c' w' H; simpl in H.
  - inversion H; subst. simpl. lia.
  - apply bind_returned_inv in H. destruct H as (c1 & w1 & H1 & H).
    apply IH in H. apply upload_change_counts in H1.
    destruct H1 as [-> | ->]; simpl in *; lia.
Qed.

End UploadCounts.

(** X2.  The loop of the upload counts every change of the batch exactly
    once, as uploaded or as an error, and no counter goes down; on an
    initialised database with sync_metadata in place and changes of
    tables that have an id, the loop does come to the end of the
    batch. *)
Theorem upload_counts_every_change_once :
  forall (Ext : Type) (out : Outside Ext) (changes : list MetaRow)
         (c : Counters) (w : World Ext),
    (forall c' w',
        upload_changes out changes c w = (Returned c', w') ->
        (doneCount c' + errorCount c'
         = doneCount c + errorCount c + List.length changes)%nat /\
        (doneCount c <= doneCount c')%nat /\
        (errorCount c <= errorCount c')%nat) /\
    (db w = true ->
     sync_metadata (file w) <> None ->
     Forall (fun change => has_id (table_name change) = true) changes ->
     exists c' w',
       upload_changes out changes c w = (Returned c', w') /\
       (doneCount c' + errorCount c'
        = doneCount c + errorCount c + List.length changes)%nat).
Proof.
  intros Ext out changes c w. split.
  - intros c' w'. apply upload_changes_counts.
  - intros Hdb Hms Hall.
    destruct (@upload_changes_returns Ext out changes c w Hdb Hms Hall)
      as (c' & w' & E & _).
    exists c', w'. split; [exact E |].
    exact (proj1 (@upload_changes_counts Ext out changes c w c' w' E)).
Qed.

(** X3.  [uploadToSupabase()] never reports more uploads than
    [BATCH_SIZE], whatever the stores do; and with nothing pending on an
    initialised database it returns 0 and leaves everything, the remote
    included, as it was. *)
Theorem upload_is_bounded_by_the_batch_size :
  forall (Ext : Type) (out : Outside Ext) (w : World Ext),
    (forall n w', uploadToSupabase out w = (Returned n, w') ->
                  (n <= BATCH_SIZE out)%nat) /\
    (db w = true ->
     meta_pending (BATCH_SIZE out) (meta_rows (file w)) = [] ->
     uploadToSupabase out w = (Returned 0%nat, w)).
Proof.
  intros Ext out w. split.
  - intros n w' H. unfold uploadToSupabase in H.
    apply bind_returned_inv in H. destruct H as (changes & w1 & Hread & H).
    apply getPendingChanges_bounded in Hread.
    destruct (Nat.eqb (List.length changes) 0).
    + inversion H. apply Nat.le_0_l.
    + apply bind_returned_inv in H. destruct H as (c & w2 & Hloop & H).
      inversion H; subst. apply upload_changes_counts in Hloop.
      simpl in Hloop. lia.
  - intros Hdb Hnone. unfold uploadToSupabase.
    rewrite (bind_returned _ _ _ (getPendingChanges_open out w Hdb)).
    rewrite Hnone. reflexivity.
Qed.

Lemma upload_counts_every_change_once_witness :
  exists c' w',
    upload_changes service [new_tag; new_project] (mkCounters 0 0) mixed_world
    = (Returned c', w') /\
    (doneCount c' + errorCount c' = 2)%nat.
Proof.
  exact (proj2 (@upload_counts_every_change_once Server service
                  [new_tag; new_project] (mkCounters 0 0) mixed_world)
               eq_refl
               ltac:(discriminate)
               (Forall_cons new_tag
                  (eq_refl : has_id (table_name new_tag) = true)
                  (Forall_cons new_project
                     (eq_refl : has_id (table_name new_project) = true)
                     (Forall_nil _)))).
Defined.

Lemma upload_is_bounded_by_the_batch_size_witness :
  (forall n w', uploadToSupabase small_batches backlog_world = (Returned n, w') ->
                (n <= 2)%nat) /\
  uploadToSupabase service synced_world = (Returned 0%nat, synced_world).
Proof.
  split.
  - exact (proj1 (upload_is_bounded_by_the_batch_size small_batches backlog_world)).
  - exact (proj2 (upload_is_bounded_by_the_batch_size service synced_world)
             eq_refl eq_refl).
Defined.

(* ===================================================================== *)
(** ** Counting in the download phase *)
(* ===================================================================== *)

Section DownloadCounts.
Context {Ext : Type} (out : Outside Ext).

Lemma download_record_returns t record c (w : World Ext) :
  exists c' w',
    download_record out t record c w = (Returned c', w') /\
    (c' = mkCounters (S (doneCount c)) (errorCount c) \/
     c' = mkCounters (doneCount c) (S (errorCount c))).
Proof.
  unfold download_record, try_catch.
  match goal with
  | |- exists c' w', match ?body ?w0 with _ => _ end = _ /\ _ =>
      destruct (body w0) as [[c1 | e] w1] eqn:E
  end.
  - exists c1, w1. split; [reflexivity |]. left.
    apply bind_returned_inv in E. destruct E as (_ & w2 & _ & E).
    inversion E. reflexivity.
  - do 2 eexists. split; [reflexivity |]. right. reflexivity.
Qed.

Lemma download_records_returns t data :
  forall c (w : World Ext),
    exists c' w',
      download_records out t data c w = (Returned c', w') /\
      (doneCount c' + errorCount c'
       = doneCount c + errorCount c + List.length data)%nat /\
      (doneCount c' <= doneCount c + List.length data)%nat.
Proof.
  induction data as [| record rest IH]; intros c w; simpl.
  - exists c, w. split; [reflexivity | lia].
  - destruct (download_record_returns t record c w) as (c1 & w1 & E1 & Hc1).
    unfold bind. rewrite E1.
    destruct (IH c1 w1) as (c' & w' & E & Hsum & Hdone).
    exists c', w'. split; [exact E |].
    destruct Hc1 as [-> | ->]; simpl in *; lia.
Qed.

Lemma download_table_returns t c (w : World Ext) :
  exists c' w',
    download_table out t c w = (Returned c', w') /\
    (doneCount c' + errorCount c'
     = doneCount c + errorCount c
       + match fst (sb_select out t (ext w)) with
         | Data data => List.length data
         | Failed _ => 1
         end)%nat.
Proof.
  unfold download_table, try_catch, bind at 1, outside.
  destruct (sb_select out t (ext w)) as [[data | e] x]; simpl fst.
  - destruct (download_records_returns t data c (set_ext x w))
      as (c' & w' & E & Hsum & _).
    rewrite E. exists c', w'. split; [reflexivity | exact Hsum].
  - unfold throw. do 2 eexists. split; [reflexivity |]. simpl. lia.
Qed.

Lemma download_tables_returns tables :
  forall c (w : World Ext),
    exists c' w', download_tables out tables c w = (Returned c', w').
Proof.
  induction tables as [| t rest IH]; intros c w; simpl.
  - exists c, w. reflexivity.
  - destruct (download_table_returns t c w) as (c1 & w1 & E1 & _).
    unfold bind. rewrite E1. apply IH.
Qed.

End DownloadCounts.

(** X4.  [downloadFromSupabase()] never throws, whatever the remote and
    the local store do; a table whose remote read fails counts as one
    error, and of the rows read from a table every one is counted
    exactly once, as downloaded or as an error. *)
Theorem download_never_throws :
  forall (Ext : Type) (out : Outside Ext) (w : World Ext),
    (exists n w', downloadFromSupabase out w = (Returned n, w')) /\
    (forall t c,
       exists c' w',
         download_table out t c w = (Returned c', w') /\
         (doneCount c' + errorCount c'
          = doneCount c + errorCount c
            + match fst (sb_select out t (ext w)) with
              | Data data => List.length data
              | Failed _ => 1
              end)%nat).
Proof.
  intros Ext out w. split.
  - unfold downloadFromSupabase, bind at 1, gets.
    destruct (download_tables_returns out (TABLES w) (mkCounters 0 0) w)
      as (c & w' & E).
    unfold bind. rewrite E. do 2 eexists. reflexivity.
  - intros t c. apply download_table_returns.
Qed.

(* ===================================================================== *)
(** ** Creating and reading records *)
(* ===================================================================== *)

Lemma max_id_ge rs r z :
  In r rs -> row_id r = Some z -> z <= max_id rs.
Proof.
  induction rs as [| x rs IH]; simpl; [contradiction |].
  intros [-> | Hin] Hz.
  - rewrite Hz. lia.
  - specialize (IH Hin Hz). destruct (row_id x); lia.
Qed.

(** The rowid that AUTOINCREMENT hands out is the id of no row. *)
Lemma next_rowid_fresh t r :
  In r (rows t) -> sql_eq (field "id" r) (VInt (next_rowid t)) = false.
Proof.
  intros Hin. destruct (field "id" r) as [| z | s] eqn:E; try reflexivity.
  simpl. apply Z.eqb_neq.
  assert (Hz : row_id r = Some z) by (unfold row_id; rewrite E; reflexivity).
  pose proof (max_id_ge _ _ Hin Hz). unfold next_rowid. lia.
Qed.

Lemma find_app_miss {A} (p : A -> bool) l l' :
  (forall x, In x l -> p x = false) -> find p (l ++ l') = find p l'.
Proof.
  induction l as [| x l IH]; simpl; intros H; [reflexivity |].
  rewrite (H x (or_introl eq_refl)). apply IH. intros y Hy. apply H. right. exact Hy.
Qed.

Lemma max_id_nonneg rs : 0 <= max_id rs.
Proof.
  induction rs as [| r rs IH]; simpl; [lia |].
  destruct (row_id r); lia.
Qed.

Lemma next_rowid_positive t : 0 < next_rowid t.
Proof. unfold next_rowid. pose proof (max_id_nonneg (rows t)). lia. Qed.

(** Up to 2^53 the JS number is the integer. *)
Lemma js_number_safe z : - MAX_SAFE <= z <= MAX_SAFE -> js_number z = z.
Proof.
  intros Hz. unfold js_number.
  replace (Z.abs z <=? MAX_SAFE) with true; [reflexivity |].
  symmetry. apply Z.leb_le. lia.
Qed.

Lemma js_number_next_rowid t :
  next_rowid t <= MAX_SAFE -> js_number (next_rowid t) = next_rowid t.
Proof.
  intros H. apply js_number_safe. pose proof (next_rowid_positive t).
  unfold MAX_SAFE in *. lia.
Qed.

Section Create.
Context {Ext : Type} (out : Outside Ext).

Lemma createProject_open name (w : World Ext) :
  db w = true ->
  createProject out name w
  = (Returned (js_number (next_rowid (projects (file w))), name),
     let id := next_rowid (projects (file w)) in
     let f1 := set_projects
                 (mkTable (rows (projects (file w)) ++ [project id name])
                          (Z.max (seq (projects (file w))) id))
                 (file w) in
     match sync_metadata (file w) with
     | Some ms =>
         set_file (set_sync_metadata
                     (Some (meta_replace "projects" (js_number id) None
                                         (now out (ext w)) ms))
                     f1) w
     | None => set_file f1 w
     end).
Proof.
  intros Hdb. unfold createProject. apply withRetry_first; [exact Hdb |].
  rewrite (bind_returned _ _ _ (getDb_open _ Hdb)).
  unfold bind at 1. unfold run_insert at 1. simpl.
  unfold bind at 1. rewrite insertSyncMetadata_open by exact Hdb. simpl.
  destruct (sync_metadata (file w)); reflexivity.
Qed.

Lemma getProjectById_open id (w : World Ext) :
  db w = true ->
  getProjectById out id w
  = (Returned (sql_first_by_id (VInt id) (projects (file w))), w).
Proof.
  intros Hdb. unfold getProjectById. apply withRetry_first; [exact Hdb |].
  rewrite (bind_returned _ _ _ (getDb_open _ Hdb)). reflexivity.
Qed.

End Create.

(** X5.  On an initialised database whose next project id is at most
    2^53, so that [lastInsertRowId] is that id exactly,
    [createProject(name)] returns a project whose id is the id of no
    project that was there, appends it to the table and changes no
    other row; [getProjectById] of that id then reads back [{id, name}];
    and the project is tracked as pending with no remote id (when
    sync_metadata exists). *)
Theorem created_project_reads_back :
  forall (Ext : Type) (out : Outside Ext) (name : string) (w : World Ext),
    db w = true ->
    next_rowid (projects (file w)) <= MAX_SAFE ->
    exists id w',
      createProject out name w = (Returned (id, name), w') /\
      (forall r, In r (rows (projects (file w))) -> row_id r <> Some id) /\
      rows (projects (file w')) = rows (projects (file w)) ++ [project id name] /\
      getProjectById out id w' = (Returned (Some (project id name)), w') /\
      (sync_metadata (file w) <> None ->
       tracked "projects" id w' = Some (pending, None)).
Proof.
  intros Ext out name w Hdb Hsafe.
  rewrite (createProject_open out name w Hdb).
  cbv zeta. rewrite (js_number_next_rowid _ Hsafe).
  set (id := next_rowid (projects (file w))).
  match goal with
  | |- exists i w', (Returned _, ?W) = _ /\ _ => set (w1 := W)
  end.
  assert (Hp : rows (projects (file w1))
               = rows (projects (file w)) ++ [project id name])
    by (subst w1; destruct (sync_metadata (file w)); reflexivity).
  assert (Hdb1 : db w1 = true)
    by (subst w1; destruct (sync_metadata (file w)); exact Hdb).
  assert (Hm : sync_metadata (file w) <> None ->
               tracked "projects" id w1 = Some (pending, None)).
  { intros Hsome. subst w1. unfold tracked, meta_rows.
    destruct (sync_metadata (file w)) as [ms |]; [| congruence]. simpl.
    rewrite meta_lookup_meta_replace. reflexivity. }
  clearbody w1. exists id, w1. split; [reflexivity |].
  assert (Hfresh : forall r, In r (rows (projects (file w))) ->
                             sql_eq (field "id" r) (VInt id) = false)
    by (intros r; apply next_rowid_fresh).
  split; [| split; [| split]].
  - intros r Hin Hid. specialize (Hfresh r Hin).
    unfold row_id in Hid. destruct (field "id" r); try discriminate Hid.
    injection Hid as ->. simpl in Hfresh. rewrite Z.eqb_refl in Hfresh.
    discriminate Hfresh.
  - exact Hp.
  - rewrite (getProjectById_open out id w1 Hdb1).
    f_equal. f_equal. unfold sql_first_by_id. rewrite Hp.
    rewrite find_app_miss by exact Hfresh.
    simpl. rewrite Z.eqb_refl. reflexivity.
  - exact Hm.
Qed.

Lemma created_project_reads_back_witness :
  exists w',
    createProject service "Garden" synced_world = (Returned (3, "Garden"), w') /\
    getProjectById service 3 w' = (Returned (Some (project 3 "Garden")), w') /\
    tracked "projects" 3 w' = Some (pending, None).
Proof.
  destruct (@created_project_reads_back Server service "Garden" synced_world
              eq_refl ltac:(vm_compute; discriminate))
    as (id & w' & Hrun & _ & _ & Hread & Htracked).
  assert (Hid : id = 3).
  { assert (H : fst (createProject service "Garden" synced_world)
                = Returned (id, "Garden")) by (rewrite Hrun; reflexivity).
    vm_compute in H. inversion H. reflexivity. }
  subst id. exists w'. split; [exact Hrun |]. split; [exact Hread |].
  apply Htracked. discriminate.
Defined.

(* ===================================================================== *)
(** ** Deleting tasks and projects *)
(* ===================================================================== *)

Lemma filter_filter_none {A} (p q : A -> bool) (l : list A) :
  (forall x, q x = true -> p x = false) -> filter p (filter q l) = [].
Proof.
  intros H. induction l as [| x l IH]; simpl; [reflexivity |].
  destruct (q x) eqn:E; [| exact IH].
  simpl. rewrite (H x E). exact IH.
Qed.

Lemma find_filter_none {A} (p : A -> bool) (l : list A) :
  find p (filter (fun x => negb (p x)) l) = None.
Proof.
  induction l as [| x l IH]; simpl; [reflexivity |].
  destruct (p x) eqn:E; simpl; [exact IH |]. rewrite E. exact IH.
Qed.

Lemma flat_map_nil {A B} (f : A -> list B) (l : list A) :
  (forall x, f x = []) -> flat_map f l = [].
Proof.
  intros H. induction l as [| x l IH]; simpl; [reflexivity |].
  rewrite H, IH. reflexivity.
Qed.

Section Delete.
Context {Ext : Type} (out : Outside Ext).

Lemma deleteTask_open id (w : World Ext) :
  db w = true ->
  existsb (fun r => sql_eq (field "id" r) (VInt id)) (rows (tasks (file w)))
  = true ->
  deleteTask out id w
  = (Returned id,
     let f2 := set_tasks
                 (fst (sql_delete_where "id" (VInt id) (tasks (file w))))
                 (set_task_tags
                    (fst (sql_delete_where "task_id" (VInt id)
                            (task_tags (file w))))
                    (file w)) in
     match sync_metadata (file w) with
     | Some ms =>
         set_file (set_sync_metadata
                     (Some (meta_replace "tasks" id None (now out (ext w)) ms))
                     f2) w
     | None => set_file f2 w
     end).
Proof.
  intros Hdb Hfound. unfold deleteTask. apply withRetry_first; [exact Hdb |].
  rewrite (bind_returned _ _ _ (getDb_open _ Hdb)).
  unfold bind at 1. unfold run_delete_where at 1. simpl.
  unfold bind at 1. unfold run_delete_where at 1. simpl.
  rewrite (filter_hit_length _ _ Hfound). simpl.
  unfold bind at 1. unfold ret at 1.
  unfold bind at 1. rewrite insertSyncMetadata_open by exact Hdb. simpl.
  destruct (sync_metadata (file w)); reflexivity.
Qed.

Lemma deleteProject_open id (w : World Ext) :
  db w = true ->
  existsb (fun r => sql_eq (field "id" r) (VInt id)) (rows (projects (file w)))
  = true ->
  deleteProject out id w
  = (Returned id,
     let f2 := set_projects
                 (fst (sql_delete_where "id" (VInt id) (projects (file w))))
                 (set_tasks
                    (fst (sql_delete_where "project_id" (VInt id)
                            (tasks (file w))))
                    (file w)) in
     match sync_metadata (file w) with
     | Some ms =>
         set_file (set_sync_metadata
                     (Some (meta_replace "projects" id None (now out (ext w)) ms))
                     f2) w
     | None => set_file f2 w
     end).
Proof.
  intros Hdb Hfound. unfold deleteProject. apply withRetry_first; [exact Hdb |].
  rewrite (bind_returned _ _ _ (getDb_open _ Hdb)).
  unfold bind at 1. unfold run_delete_where at 1. simpl.
  unfold bind at 1. unfold run_delete_where at 1. simpl.
  rewrite (filter_hit_length _ _ Hfound). simpl.
  unfold bind at 1. unfold ret at 1.
  unfold bind at 1. rewrite insertSyncMetadata_open by exact Hdb. simpl.
  destruct (sync_metadata (file w)); reflexivity.
Qed.

Lemma getTaskTags_open taskId (w : World Ext) :
  db w = true ->
  getTaskTags out taskId w
  = (Returned
       (flat_map
          (fun t =>
             map (fun _ => t)
                 (filter (fun tt => sql_eq (field "id" t) (field "tag_id" tt)
                                    && sql_eq (field "task_id" tt) (VInt taskId))
                         (rows (task_tags (file w)))))
          (rows (tags (file w)))),
     w).
Proof.
  intros Hdb. unfold getTaskTags. apply withRetry_first; [exact Hdb |].
  rewrite (bind_returned _ _ _ (getDb_open _ Hdb)). reflexivity.
Qed.

Lemma getTasksByProjectId_open projectId (w : World Ext) :
  db w = true ->
  getTasksByProjectId out projectId w
  = (Returned
       (order_by_id
          (filter (fun r => sql_eq (field "project_id" r) (VInt projectId))
                  (rows (tasks (file w))))),
     w).
Proof.
  intros Hdb. unfold getTasksByProjectId. apply withRetry_first; [exact Hdb |].
  rewrite (bind_returned _ _ _ (getDb_open _ Hdb)). reflexivity.
Qed.

End Delete.

(** X6.  On an initialised database that holds the task,
    [deleteTask(id)] removes the task and every task_tags row of the
    task, keeps the other tasks and junction rows, leaves projects and
    tags alone, and marks (tasks, id) pending; [getTaskTags(id)] then
    returns no tag. *)
Theorem deleteTask_removes_its_tags :
  forall (Ext : Type) (out : Outside Ext) (id : Z) (w : World Ext),
    db w = true ->
    existsb (fun r => sql_eq (field "id" r) (VInt id)) (rows (tasks (file w)))
    = true ->
    exists w',
      deleteTask out id w = (Returned id, w') /\
      rows (tasks (file w'))
      = filter (fun r => negb (sql_eq (field "id" r) (VInt id)))
               (rows (tasks (file w))) /\
      rows (task_tags (file w'))
      = filter (fun r => negb (sql_eq (field "task_id" r) (VInt id)))
               (rows (task_tags (file w))) /\
      projects (file w') = projects (file w) /\
      tags (file w') = tags (file w) /\
      getTaskTags out id w' = (Returned [], w') /\
      (sync_metadata (file w) <> None ->
       tracked "tasks" id w' = Some (pending, None)).
Proof.
  intros Ext out id w Hdb Hfound.
  rewrite (deleteTask_open out id w Hdb Hfound).
  eexists. split; [reflexivity |].
  repeat split.
  - destruct (sync_metadata (file w)); reflexivity.
  - destruct (sync_metadata (file w)); reflexivity.
  - destruct (sync_metadata (file w)); reflexivity.
  - destruct (sync_metadata (file w)); reflexivity.
  - rewrite getTaskTags_open
      by (destruct (sync_metadata (file w)); exact Hdb).
    f_equal. f_equal.
    apply flat_map_nil. intros t.
    assert (Hrows :
              rows (task_tags
                      (file
                         (let f2 := set_tasks
                                      (fst (sql_delete_where "id" (VInt id)
                                              (tasks (file w))))
                                      (set_task_tags
                                         (fst (sql_delete_where "task_id"
                                                 (VInt id)
                                                 (task_tags (file w))))
                                         (file w)) in
                          match sync_metadata (file w) with
                          | Some ms =>
                              set_file
                                (set_sync_metadata
                                   (Some (meta_replace "tasks" id None
                                            (now out (ext w)) ms)) f2) w
                          | None => set_file f2 w
                          end)))
              = filter (fun r => negb (sql_eq (field "task_id" r) (VInt id)))
                       (rows (task_tags (file w))))
      by (destruct (sync_metadata (file w)); reflexivity).
    rewrite Hrows, filter_filter_none; [reflexivity |].
    intros tt Htt. apply negb_true_iff in Htt. rewrite Htt.
    apply andb_false_r.
  - intros Hsome. unfold tracked, meta_rows.
    destruct (sync_metadata (file w)) as [ms |]; [| congruence]. simpl.
    rewrite meta_lookup_meta_replace. reflexivity.
Qed.

(** X7.  On an initialised database that holds the project,
    [deleteProject(id)] removes the project and its tasks:
    [getProjectById(id)] then finds nothing and
    [getTasksByProjectId(id)] returns no task.  It never touches
    task_tags nor tags: the junction rows of the deleted tasks stay in
    place. *)
Theorem deleteProject_keeps_junction_rows :
  forall (Ext : Type) (out : Outside Ext) (id : Z) (w : World Ext),
    db w = true ->
    existsb (fun r => sql_eq (field "id" r) (VInt id))
            (rows (projects (file w))) = true ->
    exists w',
      deleteProject out id w = (Returned id, w') /\
      getProjectById out id w' = (Returned None, w') /\
      getTasksByProjectId out id w' = (Returned [], w') /\
      task_tags (file w') = task_tags (file w) /\
      tags (file w') = tags (file w).
Proof.
  intros Ext out id w Hdb Hfound.
  rewrite (deleteProject_open out id w Hdb Hfound).
  eexists. split; [reflexivity |].
  split; [| split; [| split]].
  - rewrite getProjectById_open
      by (destruct (sync_metadata (file w)); exact Hdb).
    f_equal. f_equal.
    destruct (sync_metadata (file w)); simpl;
      unfold sql_first_by_id; simpl; apply find_filter_none.
  - rewrite getTasksByProjectId_open
      by (destruct (sync_metadata (file w)); exact Hdb).
    f_equal. f_equal.
    destruct (sync_metadata (file w)); simpl;
      rewrite filter_filter_none; try reflexivity;
      intros r Hr; apply negb_true_iff in Hr; exact Hr.
  - destruct (sync_metadata (file w)); reflexivity.
  - destruct (sync_metadata (file w)); reflexivity.
Qed.

Lemma deleteTask_removes_its_tags_witness :
  fst (getTaskTags service 2 tagged_world) = Returned [tag 1 "UI"] /\
  exists w',
    deleteTask service 2 tagged_world = (Returned 2, w') /\
    rows (task_tags (file w')) = [] /\
    getTaskTags service 2 w' = (Returned [], w') /\
    tracked "tasks" 2 w' = Some (pending, None).
Proof.
  split; [vm_compute; reflexivity |].
  destruct (deleteTask_removes_its_tags service 2 tagged_world eq_refl eq_refl)
    as (w' & Hrun & _ & Htt & _ & _ & Hread & Htracked).
  exists w'. split; [exact Hrun |]. split; [exact Htt |].
  split; [exact Hread |]. apply Htracked. discriminate.
Defined.

Lemma deleteProject_keeps_junction_rows_witness :
  exists w',
    deleteProject service 2 tagged_world = (Returned 2, w') /\
    getTasksByProjectId service 2 w' = (Returned [], w') /\
    rows (task_tags (file w')) = [[("task_id", VInt 2); ("tag_id", VInt 1)]].
Proof.
  destruct (deleteProject_keeps_junction_rows service 2 tagged_world
              eq_refl eq_refl)
    as (w' & Hrun & _ & Hread & Htt & _).
  exists w'. split; [exact Hrun |]. split; [exact Hread |].
  rewrite Htt. reflexivity.
Defined.

(* ===================================================================== *)
(** ** Assigning tags *)
(* ===================================================================== *)

Lemma tagged_after_insert a b t :
  tagged a b (sql_insert_or_ignore_task_tag a b t) = true.
Proof.
  unfold sql_insert_or_ignore_task_tag.
  destruct (tagged a b t) eqn:E; [exact E |].
  unfold tagged. simpl. rewrite existsb_app. simpl.
  rewrite !Z.eqb_refl. simpl. apply orb_true_r.
Qed.

Lemma tagged_after_delete a b t :
  tagged a b (sql_delete_task_tag a b t) = false.
Proof.
  unfold tagged, sql_delete_task_tag. simpl.
  induction (rows t) as [| r rs IH]; simpl; [reflexivity |].
  destruct (sql_eq (field "task_id" r) (VInt a)
            && sql_eq (field "tag_id" r) (VInt b)) eqn:E; simpl.
  - exact IH.
  - rewrite E. exact IH.
Qed.

Lemma filter_all {A} (p : A -> bool) (l : list A) :
  existsb (fun x => negb (p x)) l = false -> filter p l = l.
Proof.
  induction l as [| x l IH]; simpl; [reflexivity |].
  destruct (p x); simpl; [intros H; rewrite IH by exact H; reflexivity |].
  discriminate.
Qed.

(** DELETE after INSERT OR IGNORE of a pair that was not there gives the
    table back. *)
Lemma delete_after_insert a b t :
  tagged a b t = false ->
  sql_delete_task_tag a b (sql_insert_or_ignore_task_tag a b t) = t.
Proof.
  intros Hnot. unfold sql_insert_or_ignore_task_tag. rewrite Hnot.
  unfold sql_delete_task_tag. simpl. rewrite filter_app. simpl.
  rewrite !Z.eqb_refl. simpl. rewrite app_nil_r.
  rewrite filter_all.
  - destruct t; reflexivity.
  - unfold tagged in Hnot. revert Hnot.
    induction (rows t) as [| r rs IH]; simpl; [reflexivity |].
    rewrite negb_involutive. intros H.
    apply orb_false_iff in H. destruct H as [-> H]. exact (IH H).
Qed.

Section Tagging.
Context {Ext : Type} (out : Outside Ext).

Lemma addTagToTask_open a b (w : World Ext) :
  db w = true ->
  addTagToTask out a b w
  = (Returned (a, b),
     set_file (set_task_tags
                 (sql_insert_or_ignore_task_tag a b (task_tags (file w)))
                 (file w)) w).
Proof.
  intros Hdb. unfold addTagToTask. apply withRetry_first; [exact Hdb |].
  rewrite (bind_returned _ _ _ (getDb_open _ Hdb)). reflexivity.
Qed.

Lemma removeTagFromTask_open a b (w : World Ext) :
  db w = true ->
  removeTagFromTask out a b w
  = (Returned (a, b),
     set_file (set_task_tags (sql_delete_task_tag a b (task_tags (file w)))
                             (file w)) w).
Proof.
  intros Hdb. unfold removeTagFromTask. apply withRetry_first; [exact Hdb |].
  rewrite (bind_returned _ _ _ (getDb_open _ Hdb)). reflexivity.
Qed.

End Tagging.

(** X8.  On an initialised database: after [addTagToTask(a, b)] the
    pair is in task_tags, and adding it a second time changes nothing
    (INSERT OR IGNORE); after [removeTagFromTask(a, b)] the pair is not
    in task_tags; and removing a pair right after adding it, when it was
    not there before, gives the task_tags table back as it was. *)
Theorem tag_assignment_round_trip :
  forall (Ext : Type) (out : Outside Ext) (a b : Z) (w : World Ext),
    db w = true ->
    let added := snd (addTagToTask out a b w) in
    let removed := snd (removeTagFromTask out a b added) in
    tagged a b (task_tags (file added)) = true /\
    addTagToTask out a b added = (Returned (a, b), added) /\
    tagged a b (task_tags (file removed)) = false /\
    tagged a b (task_tags (file (snd (removeTagFromTask out a b w)))) = false /\
    (tagged a b (task_tags (file w)) = false ->
     task_tags (file removed) = task_tags (file w)).
Proof.
  intros Ext out a b w Hdb added removed. subst removed added.
  rewrite (addTagToTask_open out a b w Hdb). simpl snd.
  rewrite (removeTagFromTask_open out a b w Hdb).
  match goal with
  | |- context [removeTagFromTask out a b ?w1] =>
      rewrite (removeTagFromTask_open out a b w1 Hdb);
      rewrite (addTagToTask_open out a b w1 Hdb)
  end.
  simpl.
  split; [apply tagged_after_insert |]. split.
  - unfold sql_insert_or_ignore_task_tag at 1.
    rewrite tagged_after_insert. reflexivity.
  - split; [apply tagged_after_delete |].
    split; [apply tagged_after_delete |].
    apply delete_after_insert.
Qed.

Lemma tag_assignment_round_trip_witness :
  tagged 1 1 (task_tags (file (snd (addTagToTask service 1 1 tagged_world))))
  = true /\
  addTagToTask service 1 1 (snd (addTagToTask service 1 1 tagged_world))
  = (Returned (1, 1), snd (addTagToTask service 1 1 tagged_world)) /\
  task_tags (file (snd (removeTagFromTask service 1 1
                          (snd (addTagToTask service 1 1 tagged_world)))))
  = task_tags (file tagged_world).
Proof.
  pose proof (tag_assignment_round_trip service 1 1 tagged_world eq_refl) as H.
  cbv zeta in H. destruct H as (Hin & Hidem & _ & _ & Hundo).
  split; [exact Hin |]. split; [exact Hidem |]. apply Hundo. reflexivity.
Defined.

(* ===================================================================== *)
(** ** The history and the reset *)
(* ===================================================================== *)

Lemma insert_by_start_In l sorted x :
  In x (insert_by_start l sorted) <-> x = l \/ In x sorted.
Proof.
  induction sorted as [| y rest IH]; simpl.
  - intuition congruence.
  - destruct (started_at y <? started_at l); simpl.
    + intuition congruence.
    + rewrite IH. intuition congruence.
Qed.

Lemma insert_by_start_sorted l sorted :
  StronglySorted not_older sorted ->
  StronglySorted not_older (insert_by_start l sorted).
Proof.
  induction 1 as [| y rest Hrest IH Hall]; simpl.
  - constructor; constructor.
  - destruct (started_at y <? started_at l) eqn:E.
    + apply Z.ltb_lt in E. constructor.
      * constructor; assumption.
      * constructor; [unfold not_older; lia |].
        eapply Forall_impl; [| exact Hall].
        intros a Ha. unfold not_older in *. lia.
    + apply Z.ltb_ge in E. constructor; [exact IH |].
      apply Forall_forall. intros x Hx.
      apply insert_by_start_In in Hx. destruct Hx as [-> | Hx].
      * exact E.
      * rewrite Forall_forall in Hall. apply Hall, Hx.
Qed.

Lemma order_by_started_at_desc_spec ls :
  StronglySorted not_older (order_by_started_at_desc ls) /\
  (forall x, In x (order_by_started_at_desc ls) <-> In x ls).
Proof.
  unfold order_by_started_at_desc.
  assert (H : forall acc,
             StronglySorted not_older acc ->
             StronglySorted not_older
               (fold_left (fun acc l => insert_by_start l acc) ls acc) /\
             (forall x, In x (fold_left (fun acc l => insert_by_start l acc) ls acc)
                        <-> In x acc \/ In x ls)).
  { induction ls as [| l ls IH]; intros acc Hacc; simpl.
    - split; [exact Hacc | intuition].
    - destruct (IH (insert_by_start l acc) (insert_by_start_sorted l Hacc))
        as [Hs Hin].
      split; [exact Hs |]. intros x. rewrite Hin, insert_by_start_In.
      intuition. }
  destruct (H [] (SSorted_nil _)) as [Hs Hin].
  split; [exact Hs |]. intros x. rewrite Hin. simpl. intuition.
Qed.

Section History.
Context {Ext : Type} (out : Outside Ext).

Lemma getSyncHistory_open limit ls (w : World Ext) :
  db w = true ->
  sync_log (file w) = Some ls ->
  getSyncHistory out limit w
  = (Returned (firstn limit (order_by_started_at_desc ls)), w).
Proof.
  intros Hdb Hlog. unfold getSyncHistory. apply withRetry_first; [exact Hdb |].
  rewrite (bind_returned _ _ _ (getDb_open _ Hdb)).
  unfold bind, gets. rewrite Hlog. reflexivity.
Qed.

Lemma clearSyncMetadata_open ms ls (w : World Ext) :
  db w = true ->
  sync_metadata (file w) = Some ms ->
  sync_log (file w) = Some ls ->
  clearSyncMetadata out w
  = (Returned tt,
     set_file (set_sync_log (Some []) (set_sync_metadata (Some []) (file w))) w).
Proof.
  intros Hdb Hms Hlog. unfold clearSyncMetadata.
  apply withRetry_first; [exact Hdb |].
  rewrite (bind_returned _ _ _ (getDb_open _ Hdb)).
  unfold bind, gets, modify. rewrite Hms. simpl. rewrite Hlog. reflexivity.
Qed.

End History.

(** X9.  On an initialised database with a history table,
    [getSyncHistory(limit)] changes nothing and returns at most [limit]
    entries of sync_log, newest first by [started_at]; an entry it
    leaves out did not start later than any it returns. *)
Theorem history_is_newest_first :
  forall (Ext : Type) (out : Outside Ext) (limit : nat) (ls : list LogRow)
         (w : World Ext),
    db w = true ->
    sync_log (file w) = Some ls ->
    exists page,
      getSyncHistory out limit w = (Returned page, w) /\
      (List.length page <= limit)%nat /\
      StronglySorted not_older page /\
      (forall l, In l page -> In l ls) /\
      (forall l l', In l page -> In l' ls -> ~ In l' page -> not_older l l').
Proof.
  intros Ext out limit ls w Hdb Hlog.
  rewrite (getSyncHistory_open out limit w Hdb Hlog).
  eexists. split; [reflexivity |].
  destruct (order_by_started_at_desc_spec ls) as [Hs Hin].
  set (sorted := order_by_started_at_desc ls) in *.
  assert (Hsplit : sorted = firstn limit sorted ++ skipn limit sorted)
    by (symmetry; apply firstn_skipn).
  split; [apply firstn_le_length |]. split; [| split].
  - rewrite Hsplit in Hs. eapply sorted_app_l. exact Hs.
  - intros l Hl. apply Hin. rewrite Hsplit. apply in_or_app. left. exact Hl.
  - intros l l' Hl Hl' Hout.
    apply Hin in Hl'. rewrite Hsplit in Hl'. apply in_app_or in Hl'.
    destruct Hl' as [Hl' | Hl']; [contradiction |].
    rewrite Hsplit in Hs. eapply sorted_app_le; eassumption.
Qed.

(** X10.  On an initialised database with both sync tables,
    [clearSyncMetadata()] empties sync_metadata and sync_log and leaves
    the four business tables as they are; after it no record is tracked,
    nothing is pending, an upload returns 0 without asking anything of
    the remote, and the history is empty. *)
Theorem reset_forgets_tracking_and_history :
  forall (Ext : Type) (out : Outside Ext) (ms : list MetaRow)
         (ls : list LogRow) (w : World Ext),
    db w = true ->
    sync_metadata (file w) = Some ms ->
    sync_log (file w) = Some ls ->
    exists w',
      clearSyncMetadata out w = (Returned tt, w') /\
      projects (file w') = projects (file w) /\
      tasks (file w') = tasks (file w) /\
      tags (file w') = tags (file w) /\
      task_tags (file w') = task_tags (file w) /\
      (forall t r, tracked t r w' = None) /\
      getPendingChanges out w' = (Returned [], w') /\
      uploadToSupabase out w' = (Returned 0%nat, w') /\
      (forall limit, getSyncHistory out limit w' = (Returned [], w')).
Proof.
  intros Ext out ms ls w Hdb Hms Hlog.
  rewrite (clearSyncMetadata_open out w Hdb Hms Hlog).
  eexists. split; [reflexivity |].
  assert (Hread :
            getPendingChanges out
              (set_file (set_sync_log (Some [])
                           (set_sync_metadata (Some []) (file w))) w)
            = (Returned [],
               set_file (set_sync_log (Some [])
                           (set_sync_metadata (Some []) (file w))) w)).
  { rewrite getPendingChanges_open by exact Hdb.
    unfold meta_pending, meta_rows. simpl. rewrite firstn_nil. reflexivity. }
  repeat split.
  - exact Hread.
  - unfold uploadToSupabase. rewrite (bind_returned _ _ _ Hread). reflexivity.
  - intros limit.
    assert (Hlog' :
              sync_log (file (set_file
                                (set_sync_log (Some [])
                                   (set_sync_metadata (Some []) (file w))) w))
              = Some []) by reflexivity.
    rewrite (@getSyncHistory_open _ out limit []
               (set_file (set_sync_log (Some [])
                            (set_sync_metadata (Some []) (file w))) w)
               Hdb Hlog').
    simpl. rewrite firstn_nil. reflexivity.
Qed.

Lemma history_is_newest_first_witness :
  exists page,
    getSyncHistory service 2 history_world = (Returned page, history_world) /\
    (List.length page <= 2)%nat /\
    map message page = ["second"; "third"].
Proof.
  destruct (history_is_newest_first service 2 history_world eq_refl eq_refl)
    as (page & Hrun & Hlen & _).
  exists page. split; [exact Hrun |]. split; [exact Hlen |].
  assert (H : fst (getSyncHistory service 2 history_world) = Returned page)
    by (rewrite Hrun; reflexivity).
  vm_compute in H. inversion H. reflexivity.
Defined.

Lemma reset_forgets_tracking_and_history_witness :
  exists w',
    clearSyncMetadata service history_world = (Returned tt, w') /\
    tracked "projects" 1 w' = None /\
    uploadToSupabase service w' = (Returned 0%nat, w') /\
    getSyncHistory service 10 w' = (Returned [], w').
Proof.
  destruct (reset_forgets_tracking_and_history service history_world
              eq_refl eq_refl eq_refl)
    as (w' & Hrun & _ & _ & _ & _ & Hnone & _ & Hup & Hhist).
  exists w'. split; [exact Hrun |]. split; [apply Hnone |].
  split; [exact Hup | apply Hhist].
Defined.

(* ===================================================================== *)
(** ** The bulk export counts every row *)
(* ===================================================================== *)

Lemma batches_concat size :
  (0 < size)%nat ->
  forall fuel records,
    (List.length records <= fuel)%nat ->
    List.concat (batches fuel size records) = records.
Proof.
  intros Hsize. induction fuel as [| fuel IH]; intros records Hlen.
  - destruct records; [reflexivity | simpl in Hlen; lia].
  - destruct records as [| r rest]; [reflexivity |].
    change (batches (S fuel) size (r :: rest))
      with (firstn size (r :: rest)
            :: batches fuel size (skipn size (r :: rest))).
    simpl List.concat. rewrite IH.
    + apply firstn_skipn.
    + rewrite length_skipn. cbn [List.length] in *. lia.
Qed.

Section ExportCounts.
Context {Ext : Type} (out : Outside Ext).
Variables (t : string) (o : ExportOptions).

(** One record of the export ends in exactly one of the three counters;
    progress is reported for an insert, not for a skip. *)
Lemma export_record_counts total record r (w : World Ext) :
  exists r' w',
    export_record out t o total record r w = (Returned r', w') /\
    (exported r' + skipped r' + errors r'
     = S (exported r + skipped r + errors r))%nat /\
    (skipExisting o = false -> skipped r' = skipped r) /\
    file w' = file w /\ db w' = db w /\
    (List.length (reported w')
     + (if onProgress o then exported r + errors r else 0)
     = List.length (reported w)
       + (if onProgress o then exported r' + errors r' else 0))%nat.
Proof.
  unfold export_record.
  assert (Hinsert :
            forall w0 : World Ext,
              file w0 = file w -> db w0 = db w -> reported w0 = reported w ->
              exists r' w',
                (reply <- outside (sb_insert out t record) ;;
                 let r' := match reply with
                           | Failed _ =>
                               mkReport (exported r) (skipped r) (S (errors r))
                                        None
                           | Data _ =>
                               mkReport (S (exported r)) (skipped r) (errors r)
                                        None
                           end in
                 (if onProgress o
                  then modify (fun w =>
                         set_reported
                           (reported w
                            ++ [mkProgress t
                                  (exported r' + errors r' + skipped r')%nat
                                  total (errors r')]) w)
                  else ret tt) ;;;
                 ret r') w0 = (Returned r', w') /\
                (exported r' + skipped r' + errors r'
                 = S (exported r + skipped r + errors r))%nat /\
                skipped r' = skipped r /\
                file w' = file w /\ db w' = db w /\
                (List.length (reported w')
                 + (if onProgress o then exported r + errors r else 0)
                 = List.length (reported w)
                   + (if onProgress o then exported r' + errors r' else 0))%nat).
  { intros w0 Hf Hd Hr. unfold bind, outside, modify, ret.
    destruct (sb_insert out t record (ext w0)) as [[d | e] x];
      destruct (onProgress o); do 2 eexists;
      (split; [reflexivity |]); simpl;
      rewrite ?length_app, ?Hr; simpl; repeat split; try assumption; lia. }
  destruct (skipExisting o).
  - unfold bind at 1, outside at 1.
    destruct (sb_find out t (field "id" record) (ext w)) as [[existing |] x].
    + do 2 eexists. split; [reflexivity |]. simpl.
      repeat split; try discriminate; lia.
    + destruct (Hinsert (set_ext x w) eq_refl eq_refl eq_refl)
        as (r' & w' & E & Hc & Hs & Hrest).
      exists r', w'. split; [exact E |]. split; [exact Hc |].
      split; [intros _; exact Hs | exact Hrest].
  - unfold bind at 1, ret at 1.
    destruct (Hinsert w eq_refl eq_refl eq_refl)
      as (r' & w' & E & Hc & Hs & Hrest).
    exists r', w'. split; [exact E |]. split; [exact Hc |].
    split; [intros _; exact Hs | exact Hrest].
Qed.

Lemma export_batch_counts total batch :
  forall r (w : World Ext),
  exists r' w',
    export_batch out t o total batch r w = (Returned r', w') /\
    (exported r' + skipped r' + errors r'
     = List.length batch + (exported r + skipped r + errors r))%nat /\
    (skipExisting o = false -> skipped r' = skipped r) /\
    file w' = file w /\ db w' = db w /\
    (List.length (reported w')
     + (if onProgress o then exported r + errors r else 0)
     = List.length (reported w)
       + (if onProgress o then exported r' + errors r' else 0))%nat.
Proof.
  induction batch as [| record batch IH]; intros r w; simpl.
  - exists r, w. repeat split; lia.
  - destruct (export_record_counts total record r w)
      as (r1 & w1 & E1 & Hc1 & Hs1 & Hf1 & Hd1 & Hp1).
    unfold bind. rewrite E1.
    destruct (IH r1 w1) as (r' & w' & E & Hc & Hs & Hf & Hd & Hp).
    exists r', w'. split; [exact E |].
    split; [lia |]. split; [intros H; rewrite (Hs H); exact (Hs1 H) |].
    split; [congruence |]. split; [congruence |].
    destruct (onProgress o); lia.
Qed.

Lemma export_batches_counts total bs :
  forall r (w : World Ext),
  exists r' w',
    export_batches out t o total bs r w = (Returned r', w') /\
    (exported r' + skipped r' + errors r'
     = List.length (List.concat bs) + (exported r + skipped r + errors r))%nat /\
    (skipExisting o = false -> skipped r' = skipped r) /\
    file w' = file w /\ db w' = db w /\
    (List.length (reported w')
     + (if onProgress o then exported r + errors r else 0)
     = List.length (reported w)
       + (if onProgress o then exported r' + errors r' else 0))%nat.
Proof.
  induction bs as [| batch bs IH]; intros r w; simpl.
  - exists r, w. repeat split; lia.
  - destruct (export_batch_counts total batch r w)
      as (r1 & w1 & E1 & Hc1 & Hs1 & Hf1 & Hd1 & Hp1).
    unfold bind. rewrite E1.
    destruct (IH r1 w1) as (r' & w' & E & Hc & Hs & Hf & Hd & Hp).
    exists r', w'. split; [exact E |].
    split; [rewrite length_app; lia |].
    split; [intros H; rewrite (Hs H); exact (Hs1 H) |].
    split; [congruence |]. split; [congruence |].
    destruct (onProgress o); lia.
Qed.

Lemma exportTableToSupabase_open tbl (w : World Ext) :
  db w = true ->
  table_named t (file w) = Some tbl ->
  exists r w',
    exportTableToSupabase out t o w = (Returned r, w') /\
    (exported r + skipped r + errors r = List.length (rows tbl))%nat /\
    (skipExisting o = false -> skipped r = 0%nat) /\
    file w' = file w /\ db w' = true /\
    List.length (reported w')
    = (List.length (reported w)
       + (if onProgress o then exported r + errors r else 0))%nat.
Proof.
  intros Hdb Ht.
  assert (Hbody :
            exists r w',
              (localRecords <- run_select_all t ;;
               if Nat.eqb (List.length localRecords) 0
               then ret (mkReport 0 0 0 None)
               else
                 export_batches out t o (List.length localRecords)
                   (batches (List.length localRecords)
                            (Pos.to_nat (batchSize o)) localRecords)
                   (mkReport 0 0 0 None)) w = (Returned r, w') /\
              (exported r + skipped r + errors r = List.length (rows tbl))%nat /\
              (skipExisting o = false -> skipped r = 0%nat) /\
              file w' = file w /\ db w' = true /\
              List.length (reported w')
              = (List.length (reported w)
                 + (if onProgress o then exported r + errors r else 0))%nat).
  { unfold bind at 1, run_select_all. rewrite Ht.
    destruct (Nat.eqb (List.length (rows tbl)) 0) eqn:En.
    - apply Nat.eqb_eq in En. do 2 eexists. split; [reflexivity |].
      simpl. rewrite En. repeat split; try assumption.
      destruct (onProgress o); lia.
    - destruct (export_batches_counts (List.length (rows tbl))
                  (batches (List.length (rows tbl))
                           (Pos.to_nat (batchSize o)) (rows tbl))
                  (mkReport 0 0 0 None) w)
        as (r & w' & E & Hc & Hs & Hf & Hd & Hp).
      rewrite batches_concat in Hc; [| apply Pos2Nat.is_pos | apply le_n].
      exists r, w'. split; [exact E |]. simpl in Hc, Hp, Hs.
      split; [lia |]. split; [exact Hs |]. split; [exact Hf |].
      split; [congruence |]. destruct (onProgress o); lia. }
  destruct Hbody as (r & w' & E & Hrest).
  exists r, w'. split; [| exact Hrest].
  unfold exportTableToSupabase. apply withRetry_first; [exact Hdb |].
  rewrite (bind_returned _ _ _ (getDb_open _ Hdb)). exact E.
Qed.

End ExportCounts.

(** X11.  On an initialised database, [exportTableToSupabase] of one of
    the local tables returns a report that accounts for every local row
    exactly once: exported + skipped + errors is the number of rows.
    Nothing is skipped when [skipExisting] is false, the local database
    is left as it was, and [onProgress], when given, is called once for
    each row that was sent (exported or refused), not for a skipped
    one. *)
Theorem export_accounts_for_every_row :
  forall (Ext : Type) (out : Outside Ext) (t : string) (o : ExportOptions)
         (tbl : Table) (w : World Ext),
    db w = true ->
    table_named t (file w) = Some tbl ->
    exists r w',
      exportTableToSupabase out t o w = (Returned r, w') /\
      (exported r + skipped r + errors r = List.length (rows tbl))%nat /\
      (skipExisting o = false -> skipped r = 0%nat) /\
      file w' = file w /\
      List.length (reported w')
      = (List.length (reported w)
         + (if onProgress o then exported r + errors r else 0))%nat.
Proof.
  intros Ext out t o tbl w Hdb Ht.
  destruct (exportTableToSupabase_open out t o w Hdb Ht)
    as (r & w' & E & Hc & Hs & Hf & _ & Hp).
  exists r, w'. repeat split; assumption.
Qed.

Lemma export_accounts_for_every_row_witness :
  exists r w',
    exportTableToSupabase service "projects" (mkOptions false true 10 true)
                          remote_ahead_world = (Returned r, w') /\
    (exported r + skipped r + errors r = 1)%nat /\
    file w' = file remote_ahead_world.
Proof.
  destruct (@export_accounts_for_every_row Server service "projects"
              (mkOptions false true 10 true)
              (projects (file remote_ahead_world)) remote_ahead_world
              eq_refl eq_refl)
    as (r & w' & E & Hc & _ & Hf & _).
  exists r, w'. split; [exact E |]. split; [exact Hc | exact Hf].
Defined.

(* ===================================================================== *)
(** ** The totals of the bulk export *)
(* ===================================================================== *)

Lemma set_result_fresh t rep rs :
  ~ In t (map fst rs) -> set_result t rep rs = rs ++ [(t, rep)].
Proof.
  induction rs as [| [k v] rs IH]; simpl; intros Hin; [reflexivity |].
  destruct (String.eqb k t) eqn:E.
  - apply String.eqb_eq in E. exfalso. apply Hin. left. exact E.
  - rewrite IH; [reflexivity |]. intros H. apply Hin. right. exact H.
Qed.

Section ExportTotals.
Context {Ext : Type} (out : Outside Ext).

(** One table of the export adds the counters of its report to the
    totals. *)
Lemma export_table_adds o t acc (w : World Ext) :
  exists rep r w',
    export_table out o t acc w = (Returned r, w') /\
    results r = set_result t rep (results acc) /\
    totalExported r = (totalExported acc + exported rep)%nat /\
    totalErrors r = (totalErrors acc + errors rep)%nat /\
    export_success r = true /\ export_error r = None.
Proof.
  unfold export_table, try_catch.
  match goal with
  | |- exists rep r w', match ?m with _ => _ end = _ /\ _ =>
      destruct m as [[r | e] w1] eqn:E
  end.
  - apply bind_returned_inv in E. destruct E as (rep & w2 & _ & E).
    inversion E; subst. exists rep. do 2 eexists.
    split; [reflexivity |]. repeat split.
  - exists (mkReport 0 0 1 (Some e)). do 2 eexists.
    split; [reflexivity |]. simpl. repeat split; lia.
Qed.

Lemma export_tables_totals o ts :
  forall acc (w : World Ext),
    NoDup (map fst (results acc) ++ ts) ->
    totalExported acc
    = list_sum (map (fun p => exported (snd p)) (results acc)) ->
    totalErrors acc = list_sum (map (fun p => errors (snd p)) (results acc)) ->
    export_success acc = true -> export_error acc = None ->
    exists r w',
      export_tables out o ts acc w = (Returned r, w') /\
      map fst (results r) = map fst (results acc) ++ ts /\
      totalExported r = list_sum (map (fun p => exported (snd p)) (results r)) /\
      totalErrors r = list_sum (map (fun p => errors (snd p)) (results r)) /\
      export_success r = true /\ export_error r = None.
Proof.
  induction ts as [| t ts IH]; intros acc w Hnd He Hr Hs Hn; simpl.
  - exists acc, w. split; [reflexivity |]. rewrite app_nil_r.
    repeat split; assumption.
  - destruct (export_table_adds o t acc w)
      as (rep & r1 & w1 & E1 & Hres & He1 & Hr1 & Hs1 & Hn1).
    unfold bind. rewrite E1.
    assert (Hfresh : ~ In t (map fst (results acc))).
    { apply NoDup_remove_2 in Hnd. intros Hin. apply Hnd.
      apply in_or_app. left. exact Hin. }
    rewrite (@set_result_fresh t rep (results acc) Hfresh) in Hres.
    destruct (IH r1 w1) as (r & w' & E & Hf & Hrest).
    + rewrite Hres, map_app, <- app_assoc. exact Hnd.
    + rewrite Hres, map_app, list_sum_app, He1, He. simpl. lia.
    + rewrite Hres, map_app, list_sum_app, Hr1, Hr. simpl. lia.
    + exact Hs1.
    + exact Hn1.
    + exists r, w'. split; [exact E |]. split; [| exact Hrest].
      rewrite Hf, Hres, map_app, <- app_assoc. reflexivity.
Qed.

End ExportTotals.

(** X12.  With the remote reachable and no table listed twice in
    [SYNC_CONFIG.TABLES], [exportAllDataToSupabase] returns
    [success: true] whatever happens to the single tables, with one
    report per table, in the order in which the tables were walked
    (reversed after [clearSupabaseFirst]); [totalExported] and
    [totalErrors] are the sums of the [exported] and [errors] of these
    reports. *)
Theorem export_totals_match_the_reports :
  forall (Ext : Type) (out : Outside Ext) (o : ExportOptions) (u : unit)
         (x : Ext) (w : World Ext),
    isSupabaseConfigured out = true ->
    sb_ping out (ext w) = (Data u, x) ->
    NoDup (TABLES w) ->
    exists r w',
      exportAllDataToSupabase out o w = (Returned r, w') /\
      export_success r = true /\ export_error r = None /\
      map fst (results r)
      = (if clearSupabaseFirst o then rev (TABLES w) else TABLES w) /\
      totalExported r = list_sum (map (fun p => exported (snd p)) (results r)) /\
      totalErrors r = list_sum (map (fun p => errors (snd p)) (results r)).
Proof.
  intros Ext out o u x w Hconf Hping Hnd.
  unfold exportAllDataToSupabase, try_catch.
  rewrite (bind_returned _ _ _ (@checkConnection_connected _ out u x w Hconf Hping)).
  simpl negb. cbv iota. unfold bind at 1, ret at 1.
  destruct (clearSupabaseFirst o).
  - unfold bind at 1. unfold bind at 1, modify at 1.
    unfold bind at 1, gets at 1.
    match goal with
    | |- context [clear_tables out ?ts ?w1] =>
        destruct (@clear_tables_returns _ out ts w1) as (w2 & Ec);
        pose proof (@holds_clear_tables _ out (rev (TABLES w)) ts
                      w1 (Returned tt) w2 eq_refl Ec) as Ht2;
        rewrite Ec
    end.
    unfold bind at 1, gets at 1. rewrite Ht2.
    destruct (@export_tables_totals _ out o (rev (TABLES w))
                (mkExport true None 0 0 []) w2)
      as (r & w' & E & Hf & He & Hr & Hs & Hn);
      try reflexivity; [simpl; apply NoDup_rev; exact Hnd |].
    rewrite E. exists r, w'. repeat split; assumption.
  - unfold bind at 1, ret at 1. unfold bind at 1, gets at 1.
    destruct (@export_tables_totals _ out o (TABLES w)
                (mkExport true None 0 0 [])
                (set_isOnline true (set_ext x w)))
      as (r & w' & E & Hf & He & Hr & Hs & Hn);
      try reflexivity; [exact Hnd |].
    simpl TABLES. rewrite E. exists r, w'. repeat split; assumption.
Qed.

Lemma export_totals_match_the_reports_witness :
  exists r w',
    exportAllDataToSupabase service (mkOptions false true 10 false)
                            remote_ahead_world = (Returned r, w') /\
    export_success r = true /\
    map fst (results r) = ["projects"; "tasks"; "tags"] /\
    totalExported r = list_sum (map (fun p => exported (snd p)) (results r)).
Proof.
  destruct (@export_totals_match_the_reports Server service
              (mkOptions false true 10 false) tt
              (snd (sb_ping service (ext remote_ahead_world)))
              remote_ahead_world eq_refl eq_refl)
    as (r & w' & E & Hs & _ & Hf & He & _).
  - repeat (constructor; [simpl; intuition discriminate |]). constructor.
  - exists r, w'. split; [exact E |]. split; [exact Hs |].
    split; [exact Hf | exact He].
Defined.

(* ===================================================================== *)
(** ** When every attempt fails *)
(* ===================================================================== *)

Section Attempts.
Context {Ext : Type} (out : Outside Ext).

(** The loop of [withRetry] throws only after its last attempt threw,
    and drops the handle after every failed attempt. *)
Lemma retry_thrown {A} (operation : Async Ext A) fuel :
  forall lastError (w : World Ext) e w',
    retry out operation fuel lastError w = (Thrown e, w') ->
    (fuel = 0%nat /\ e = lastError /\ w' = w) \/
    (exists w3 w3',
        (initDatabase out ;;; operation) w3 = (Thrown e, w3') /\
        w' = set_db false w3').
Proof.
  induction fuel as [| fuel IH]; intros lastError w e w' H; simpl in H.
  - left. inversion H; subst. repeat split.
  - right. unfold try_catch in H.
    destruct ((initDatabase out ;;; operation) w) as [[a | e1] w1] eqn:E1;
      [discriminate |].
    unfold bind at 1, modify at 1 in H.
    destruct (IH _ _ _ _ H) as [(_ & -> & ->) | Hlater].
    + exists w, w1. split; [exact E1 | reflexivity].
    + exact Hlater.
Qed.

End Attempts.

(** X13.  When a call wrapped in [withRetry] throws, the error is the
    one its last attempt threw ([initDatabase] followed by the
    operation), never the initial [undefined]; the handle is left
    dropped, so a [getDb()] that follows throws until the database is
    initialised again. *)
Theorem withRetry_failure_drops_the_handle :
  forall (Ext A : Type) (out : Outside Ext) (operation : Async Ext A)
         (w : World Ext) (e : Error) (w' : World Ext),
    withRetry out operation w = (Thrown e, w') ->
    db w' = false /\
    @getDb Ext w'
    = (Thrown "Database not initialized. Call initDatabase() first.", w') /\
    exists w3 w3',
      (initDatabase out ;;; operation) w3 = (Thrown e, w3') /\
      w' = set_db false w3'.
Proof.
  intros Ext A out operation w e w' H. unfold withRetry in H.
  destruct (retry_thrown out operation 3 _ _ H)
    as [(Hfuel & _) | (w3 & w3' & E & ->)]; [discriminate |].
  split; [reflexivity |]. split; [reflexivity |].
  exists w3, w3'. split; [exact E | reflexivity].
Qed.

Lemma withRetry_failure_drops_the_handle_witness :
  fst (updateProject service 99 "Ghost" synced_world)
  = Thrown "Project not found" /\
  db (snd (updateProject service 99 "Ghost" synced_world)) = false.
Proof.
  split; [vm_compute; reflexivity |].
  unfold updateProject.
  match goal with
  | |- db (snd (withRetry _ ?op _)) = false =>
      assert (H : withRetry service op synced_world
                  = (Thrown "Project not found",
                     snd (withRetry service op synced_world)))
        by (vm_compute; reflexivity);
      exact (proj1 (@withRetry_failure_drops_the_handle Server (Z * string)
                      service op synced_world "Project not found"
                      (snd (withRetry service op synced_world)) H))
  end.
Defined.

(* ===================================================================== *)
(** ** Opening the database provides the Inbox *)
(* ===================================================================== *)

Section Opening.
Context {Ext : Type} (out : Outside Ext).

Lemma keeps_grows_run_insert base n fields :
  keeps (fun w : World Ext =>
           exists added, rows (projects (file w)) = base ++ added)
        (run_insert n fields).
Proof.
  intros w r w' HP H. unfold run_insert in H.
  destruct (table_with_id n (file w)) as [[sch t] |] eqn:Et;
    [| inversion H; subst; exact HP].
  destruct (sql_insert sch fields t) as [[t' id] |] eqn:Ei;
    [| inversion H; subst; exact HP].
  inversion H; subst. simpl.
  destruct (String.eqb n "projects") eqn:En.
  - unfold table_with_id, schema_of, table_named in Et. rewrite En in Et.
    simpl in Et. inversion Et; subst.
    unfold put_table. rewrite En. simpl.
    destruct (sql_insert_appends _ _ _ Ei) as [row ->].
    destruct HP as [added ->]. exists (added ++ [row]).
    rewrite app_assoc. reflexivity.
  - rewrite projects_put_table_other by exact En. exact HP.
Qed.

Lemma keeps_grows_run_insert_task_tag base a b :
  keeps (fun w : World Ext =>
           exists added, rows (projects (file w)) = base ++ added)
        (run_insert_task_tag a b).
Proof.
  intros w r w' HP H. unfold run_insert_task_tag in H.
  destruct (sql_insert_task_tag a b (task_tags (file w)));
    inversion H; subst; exact HP.
Qed.

Lemma keeps_grows_addSampleData base :
  keeps (fun w : World Ext =>
           exists added, rows (projects (file w)) = base ++ added)
        (addSampleData (Ext := Ext)).
Proof.
  unfold addSampleData.
  repeat first
    [ apply keeps_bind; [| intros ?]
    | apply keeps_try_catch; [| intros ?]
    | apply keeps_ret
    | apply keeps_throw
    | apply keeps_if
    | apply keeps_grows_run_insert
    | apply keeps_grows_run_insert_task_tag ].
Qed.

Lemma create_sync_tables_keeps_tables (w : World Ext) :
  exists w', create_sync_tables out w = (Returned tt, w') /\
             db w' = db w /\
             projects (file w') = projects (file w) /\
             tasks (file w') = tasks (file w) /\
             tags (file w') = tags (file w) /\
             task_tags (file w') = task_tags (file w).
Proof.
  destruct (create_sync_tables_returns out w) as (w' & E & _).
  exists w'. split; [exact E |].
  refine (@keeps_create_sync_tables _ out
            (fun w' => db w' = db w /\
                       projects (file w') = projects (file w) /\
                       tasks (file w') = tasks (file w) /\
                       tags (file w') = tags (file w) /\
                       task_tags (file w') = task_tags (file w))
            _ _ _ w (Returned tt) w'
            (conj eq_refl (conj eq_refl (conj eq_refl (conj eq_refl eq_refl))))
            E);
    intros; assumption.
Qed.

Lemma initDatabase_closed (w : World Ext) :
  db w = false -> initDatabase out w = _initDatabase out w.
Proof.
  intros Hdb. unfold initDatabase, bind, gets. rewrite Hdb. reflexivity.
Qed.

End Opening.

(** X14.  [initDatabase()] on a dropped handle: when the file cannot be
    opened it throws what [openDatabaseAsync] rejected with and changes
    nothing.  When the file opens and the projects table has a rowid
    left, then however the call ends the projects table holds a project
    named Inbox and every project row that was there is still there, in
    place; the handle is set exactly when the call returns; and if an
    Inbox was there already the call returns and the four business
    tables are as they were. *)
Theorem opening_provides_the_inbox :
  forall (Ext : Type) (out : Outside Ext) (w : World Ext),
    db w = false ->
    exists r w',
      initDatabase out w = (r, w') /\
      (fst (sqlite_open out (ext w)) = false ->
       r = Thrown (sqlite_error out (snd (sqlite_open out (ext w)))) /\
       file w' = file w /\ db w' = false) /\
      (fst (sqlite_open out (ext w)) = true ->
       next_rowid (projects (file w)) <= MAX_ROWID ->
       has_inbox w' /\
       (exists added,
           rows (projects (file w')) = rows (projects (file w)) ++ added) /\
       (db w' = true <-> r = Returned tt) /\
       (has_inbox w ->
        r = Returned tt /\
        projects (file w') = projects (file w) /\
        tasks (file w') = tasks (file w) /\
        tags (file w') = tags (file w) /\
        task_tags (file w') = task_tags (file w))).
Proof.
  intros Ext out w Hdb.
  rewrite (initDatabase_closed out w Hdb).
  destruct (_initDatabase out w) as [r w'] eqn:E.
  exists r, w'. split; [reflexivity |].
  unfold _initDatabase, try_catch in E.
  unfold bind at 1, modify at 1 in E.
  unfold bind at 1, outside in E.
  change (ext (set_db false w)) with (ext w) in E.
  destruct (sqlite_open out (ext w)) as [opened x]. simpl fst. simpl snd.
  destruct opened.
  - split; [discriminate |]. intros _ _.
    unfold bind at 1, modify at 1 in E. unfold bind at 1 in E.
    match type of E with
    | context [create_sync_tables out ?w1] =>
        destruct (create_sync_tables_keeps_tables out w1)
          as (w2 & Ec & Hdb2 & Hp2 & Hk2 & Hg2 & Hj2);
        rewrite Ec in E
    end.
    simpl in Hdb2, Hp2, Hk2, Hg2, Hj2.
    unfold bind at 1, gets at 1 in E.
    assert (Hbase : exists added,
               rows (projects (file w2)) = rows (projects (file w)) ++ added)
      by (exists []; rewrite Hp2, app_nil_r; reflexivity).
    destruct (Nat.eqb (List.length (rows (projects (file w2)))) 0) eqn:Ecount.
    + assert (Hnone : ~ has_inbox w).
      { unfold has_inbox. rewrite <- Hp2.
        apply Nat.eqb_eq in Ecount.
        destruct (rows (projects (file w2))); [discriminate | discriminate]. }
      destruct (addSampleData w2) as [[[] | e] w3] eqn:Es;
        inversion E; subst.
      * split; [exact (addSampleData_has_inbox _ Es) |].
        split; [exact (@keeps_grows_addSampleData _ _ _ _ _ Hbase Es) |].
        split; [| intros H; contradiction].
        split; [reflexivity |]. intros _.
        refine (@keeps_addSampleData _ (fun w' => db w' = true) _
                  w2 (Returned tt) w' Hdb2 Es).
        intros; assumption.
      * split; [exact (addSampleData_has_inbox _ Es) |].
        split; [exact (@keeps_grows_addSampleData _ _ _ _ _ Hbase Es) |].
        split; [| intros H; contradiction].
        split; [discriminate | discriminate].
    + unfold bind at 1, gets at 1 in E.
      destruct (Nat.eqb (List.length
                           (filter (fun r => sql_eq (field "name" r)
                                                    (VText "Inbox"))
                                   (rows (projects (file w2))))) 0) eqn:Einbox.
      * assert (Hnone : ~ has_inbox w).
        { unfold has_inbox. rewrite <- Hp2. intros Hin.
          rewrite (filter_hit_length _ _ Hin) in Einbox. discriminate. }
        unfold bind at 1 in E.
        destruct (run_insert "projects" [("name", VText "Inbox")] w2)
          as [[id | e] w3] eqn:Ei.
        -- inversion E; subst.
           pose proof (@keeps_grows_run_insert _ _ _ _ _ _ _ Hbase Ei) as Hgrow.
           unfold run_insert in Ei. simpl in Ei. inversion Ei; subst.
           split.
           { unfold has_inbox. simpl. rewrite existsb_app. simpl.
             apply orb_true_r. }
           split; [exact Hgrow |].
           split; [| intros H; contradiction].
           split; [reflexivity |]. intros _. exact Hdb2.
        -- unfold run_insert in Ei. simpl in Ei. discriminate.
      * inversion E; subst.
        assert (Hin : has_inbox w').
        { unfold has_inbox.
          destruct (existsb (fun r => sql_eq (field "name" r) (VText "Inbox"))
                            (rows (projects (file w')))) eqn:Hex;
            [reflexivity |].
          exfalso. clear - Einbox Hex.
          induction (rows (projects (file w'))) as [| y l IH];
            [discriminate |].
          simpl in *. destruct (sql_eq (field "name" y) (VText "Inbox"));
            [discriminate | exact (IH Einbox Hex)]. }
        split; [exact Hin |]. split; [exact Hbase |].
        split; [split; [reflexivity | intros _; exact Hdb2] |].
        intros _. repeat split; assumption.
  - split; [| discriminate]. intros _.
    unfold bind, gets, throw, modify in E. simpl in E.
    inversion E; subst. repeat split.
Qed.

Lemma opening_provides_the_inbox_witness :
  exists r w',
    initDatabase service closed_world = (r, w') /\
    has_inbox w' /\ r = Returned tt /\
    projects (file w') = projects (file closed_world).
Proof.
  destruct (@opening_provides_the_inbox Server service closed_world eq_refl)
    as (r & w' & E & _ & Hopen).
  assert (Hroom : next_rowid (projects (file closed_world)) <= MAX_ROWID)
    by (vm_compute; discriminate).
  destruct (Hopen eq_refl Hroom) as (Hin & _ & _ & Hkeep).
  destruct (Hkeep eq_refl) as (Hr & Hp & _).
  exists r, w'. repeat split; assumption.
Defined.

(* ===================================================================== *)
(** ** Sending everything at once *)
(* ===================================================================== *)

Lemma rows_of_set_rows_same t data rs :
  rows_of t (set_rows t data rs) = Some data.
Proof.
  induction rs as [| [k v] rs IH]; simpl.
  - rewrite String.eqb_refl. reflexivity.
  - destruct (String.eqb k t) eqn:E; simpl; rewrite E; [reflexivity | exact IH].
Qed.

Lemma rows_of_set_rows_other t t' data rs :
  String.eqb t' t = false ->
  rows_of t (set_rows t' data rs) = rows_of t rs.
Proof.
  intros Hne. induction rs as [| [k v] rs IH]; simpl.
  - rewrite Hne. reflexivity.
  - destruct (String.eqb k t') eqn:E; simpl.
    + apply String.eqb_eq in E. subst k. rewrite Hne. reflexivity.
    + destruct (String.eqb k t); [reflexivity | exact IH].
Qed.

Lemma existsb_eqb_In t l : existsb (String.eqb t) l = true <-> In t l.
Proof.
  rewrite existsb_exists. split.
  - intros (x & Hx & E). apply String.eqb_eq in E. subst x. exact Hx.
  - intros H. exists t. split; [exact H | apply String.eqb_refl].
Qed.

Section Send.
Context {Ext : Type} (out : Outside Ext).

(** What [debugLocalData] reads of a table of the list, on a database
    it leaves alone. *)
Lemma local_rows_spec tables :
  forall acc (w : World Ext),
  exists res,
    local_rows tables acc w = (Returned res, w) /\
    forall t,
      rows_of t res
      = if existsb (String.eqb t) tables
        then Some match table_named t (file w) with
                  | Some tbl => rows tbl
                  | None => []
                  end
        else rows_of t acc.
Proof.
  induction tables as [| a rest IH]; intros acc w; simpl.
  - exists acc. split; reflexivity.
  - assert (Hread :
              try_catch (run_select_all a) (fun _ => ret []) w
              = (Returned match table_named a (file w) with
                          | Some tbl => rows tbl
                          | None => []
                          end, w)).
    { unfold try_catch, run_select_all.
      destruct (table_named a (file w)); reflexivity. }
    rewrite (bind_returned _ _ _ Hread).
    match goal with
    | |- exists res, local_rows rest ?acc1 w = _ /\ _ =>
        destruct (IH acc1 w) as (res & E & Hres)
    end.
    exists res. split; [exact E |]. intros t. rewrite Hres.
    destruct (existsb (String.eqb t) rest);
      [rewrite orb_true_r; reflexivity |].
    rewrite orb_false_r. destruct (String.eqb t a) eqn:Eta.
    + apply String.eqb_eq in Eta. subst a. apply rows_of_set_rows_same.
    + apply rows_of_set_rows_other. rewrite String.eqb_sym. exact Eta.
Qed.

Lemma debugLocalData_open (w : World Ext) :
  db w = true ->
  exists localData,
    debugLocalData out w = (Returned localData, w) /\
    forall t,
      rows_of t (local_tables localData)
      = if existsb (String.eqb t) (TABLES w)
        then Some match table_named t (file w) with
                  | Some tbl => rows tbl
                  | None => []
                  end
        else None.
Proof.
  intros Hdb.
  destruct (local_rows_spec (TABLES w) [] w) as (res & E & Hres).
  assert (Hmeta :
            exists ms,
              try_catch
                (meta <- gets (fun w : World Ext => sync_metadata (file w)) ;;
                 match meta with
                 | Some ms => ret ms
                 | None => throw "no such table: sync_metadata"
                 end)
                (fun _ => ret []) w = (Returned ms, w)).
  { unfold try_catch, bind, gets.
    destruct (sync_metadata (file w)); eexists; reflexivity. }
  destruct Hmeta as (ms & Em).
  exists (mkLocal res ms). split; [| exact Hres].
  unfold debugLocalData. apply withRetry_first; [exact Hdb |].
  rewrite (bind_returned _ _ _ (getDb_open _ Hdb)).
  unfold bind at 1, gets at 1.
  rewrite (bind_returned _ _ _ E), (bind_returned _ _ _ Em). reflexivity.
Qed.

(** One loop of the send: the outcome filed is that of the last insert
    and its count is the number of local rows. *)
Lemma send_rows_outcome t columns count records :
  forall result (w : World Ext),
  exists res w',
    send_rows out t columns count records result w = (Returned res, w') /\
    file w' = file w /\
    (records = [] -> res = result) /\
    (records <> [] ->
     (exists e, res = Some (SendError e)) \/ res = Some (SendOk count)) /\
    (records <> [] ->
     (forall n rec x, exists e, fst (sb_insert out n rec x) = Failed e) ->
     exists e, res = Some (SendError e)).
Proof.
  induction records as [| record rest IH]; intros result w; simpl.
  - exists result, w. repeat split; congruence.
  - unfold bind, outside.
    destruct (sb_insert out t (map (fun c => (c, field c record)) columns)
                        (ext w)) as [reply x] eqn:Ei.
    match goal with
    | |- exists res w', send_rows out t columns count rest ?r1 ?w1 = _ /\ _ =>
        destruct (IH r1 w1) as (res & w' & E & Hf & Hnil & Hcons & Hall)
    end.
    exists res, w'. split; [exact E |]. split; [exact Hf |].
    split; [discriminate |].
    destruct rest as [| next rest'].
    + rewrite (Hnil eq_refl). split; intros _.
      * destruct reply; [right | left; eexists]; reflexivity.
      * intros Hrefuse.
        destruct (Hrefuse t (map (fun c => (c, field c record)) columns)
                          (ext w)) as [e He].
        rewrite Ei in He. simpl in He. subst reply. eexists. reflexivity.
    + split; intros _.
      * apply Hcons. discriminate.
      * apply Hall. discriminate.
Qed.

Lemma send_table_outcome t columns localData tbl (w0 w : World Ext) :
  rows_of t (local_tables localData)
  = (if existsb (String.eqb t) (TABLES w0)
     then Some (rows tbl) else None) ->
  exists res w',
    send_table out t columns localData w = (Returned res, w') /\
    file w' = file w /\
    (~ In t (TABLES w0) \/ rows tbl = [] -> res = None) /\
    (In t (TABLES w0) -> rows tbl <> [] ->
     ((exists e, res = Some (SendError e)) \/
      res = Some (SendOk (List.length (rows tbl)))) /\
     ((forall n rec x, exists e, fst (sb_insert out n rec x) = Failed e) ->
      exists e, res = Some (SendError e))).
Proof.
  intros Hrows. unfold send_table. rewrite Hrows.
  destruct (existsb (String.eqb t) (TABLES w0)) eqn:Ein.
  - apply existsb_eqb_In in Ein.
    destruct (rows tbl) as [| r rs] eqn:Er.
    + exists None, w. repeat split; congruence.
    + destruct (send_rows_outcome t columns (List.length (r :: rs)) (r :: rs)
                                  None w)
        as (res & w' & E & Hf & _ & Hcons & Hall).
      exists res, w'. split; [exact E |]. split; [exact Hf |].
      split.
      * intros [Hno | Hno]; [contradiction | discriminate].
      * intros _ _. split; [apply Hcons; discriminate |].
        apply Hall. discriminate.
  - assert (Hno : ~ In t (TABLES w0)).
    { intros H. apply existsb_eqb_In in H. congruence. }
    exists None, w. repeat split; try reflexivity; intros; contradiction.
Qed.

End Send.

(** X15.  On an initialised database with the remote reachable,
    [sendAllDataToSupabase] returns [success: true] and leaves the local
    database alone, whatever the remote answers to the inserts.  For
    each of projects, tasks and tags nothing is filed when the table is
    not in [SYNC_CONFIG.TABLES] or is empty; otherwise an error or
    [{success: true, count}] is filed, with [count] the number of local
    rows of the table; an error is filed when the remote refuses every
    insert, and the call still returns [success: true]. *)
Theorem send_reports_success_whatever_the_remote_answers :
  forall (Ext : Type) (out : Outside Ext) (u : unit) (x : Ext) (w : World Ext),
    db w = true ->
    isSupabaseConfigured out = true ->
    sb_ping out (ext w) = (Data u, x) ->
    exists r w',
      sendAllDataToSupabase out w = (Returned r, w') /\
      send_success r = true /\ send_error r = None /\
      file w' = file w /\
      forall t tbl,
        In t ["projects"; "tasks"; "tags"] ->
        table_named t (file w) = Some tbl ->
        (~ In t (TABLES w) \/ rows tbl = [] -> sent t r = None) /\
        (In t (TABLES w) -> rows tbl <> [] ->
         ((exists e, sent t r = Some (SendError e)) \/
          sent t r = Some (SendOk (List.length (rows tbl)))) /\
         ((forall n rec x, exists e, fst (sb_insert out n rec x) = Failed e) ->
          exists e, sent t r = Some (SendError e))).
Proof.
  intros Ext out u x w Hdb Hconf Hping.
  destruct (debugLocalData_open out w Hdb) as (localData & El & Hrows).
  unfold sendAllDataToSupabase, try_catch.
  rewrite (bind_returned _ _ _ El).
  rewrite (bind_returned _ _ _
             (@checkConnection_connected _ out u x w Hconf Hping)).
  simpl negb. cbv iota. unfold bind at 1, ret at 1.
  assert (Hp : rows_of "projects" (local_tables localData)
               = if existsb (String.eqb "projects") (TABLES w)
                 then Some (rows (projects (file w))) else None)
    by exact (Hrows "projects").
  assert (Hk : rows_of "tasks" (local_tables localData)
               = if existsb (String.eqb "tasks") (TABLES w)
                 then Some (rows (tasks (file w))) else None)
    by exact (Hrows "tasks").
  assert (Hg : rows_of "tags" (local_tables localData)
               = if existsb (String.eqb "tags") (TABLES w)
                 then Some (rows (tags (file w))) else None)
    by exact (Hrows "tags").
  destruct (@send_table_outcome _ out "projects" ["id"; "name"] localData
              (projects (file w)) w (set_isOnline true (set_ext x w)) Hp)
    as (ps & w1 & E1 & Hf1 & Hps).
  rewrite (bind_returned _ _ _ E1).
  destruct (@send_table_outcome _ out "tasks"
              ["id"; "project_id"; "title"; "description"] localData
              (tasks (file w)) w w1 Hk)
    as (ts & w2 & E2 & Hf2 & Hts).
  rewrite (bind_returned _ _ _ E2).
  destruct (@send_table_outcome _ out "tags" ["id"; "name"] localData
              (tags (file w)) w w2 Hg)
    as (gs & w3 & E3 & Hf3 & Hgs).
  rewrite (bind_returned _ _ _ E3).
  do 2 eexists. split; [reflexivity |].
  split; [reflexivity |]. split; [reflexivity |].
  split; [simpl; rewrite Hf3, Hf2, Hf1; reflexivity |].
  intros t tbl Hin Ht.
  destruct Hin as [<- | [<- | [<- | []]]];
    vm_compute in Ht; inversion Ht; subst tbl;
    unfold sent; simpl; assumption.
Qed.

Lemma send_reports_success_whatever_the_remote_answers_witness :
  exists r w',
    sendAllDataToSupabase service resend_world = (Returned r, w') /\
    send_success r = true /\
    sent "projects" r = Some (SendOk 2) /\
    sent "tasks" r = None /\
    relation "projects" (relations (ext w'))
    = Some [project 1 "Inbox"; project 2 "Work"].
Proof.
  destruct (@send_reports_success_whatever_the_remote_answers Server service tt
              (snd (sb_ping service (ext resend_world))) resend_world
              eq_refl eq_refl eq_refl)
    as (r & w' & E & Hs & _ & _ & Hsent).
  exists r, w'. split; [exact E |]. split; [exact Hs |].
  assert (Hr : fst (sendAllDataToSupabase service resend_world) = Returned r)
    by (rewrite E; reflexivity).
  assert (Hw : snd (sendAllDataToSupabase service resend_world) = w')
    by (rewrite E; reflexivity).
  vm_compute in Hr. inversion Hr. subst w'.
  repeat split; vm_compute; reflexivity.
Defined.

(* ===================================================================== *)
(** ** What a sync pass leaves alone *)
(* ===================================================================== *)

Section Frame.
Context {Ext : Type} (out : Outside Ext).
Variable P : World Ext -> Prop.

(** [P] does not look at the handle, the outside, the online flag or
    the business tables, survives the creation of an empty sync table,
    and survives the UPDATE of sync_metadata. *)
Hypothesis P_db : forall b w, P w -> P (set_db b w).
Hypothesis P_ext : forall x w, P w -> P (set_ext x w).
Hypothesis P_isOnline : forall b w, P w -> P (set_isOnline b w).
Hypothesis P_table : forall n t w, P w -> P (set_file (put_table n t (file w)) w).
Hypothesis P_new_metadata :
  forall w, sync_metadata (file w) = None ->
            P w -> P (set_file (set_sync_metadata (Some []) (file w)) w).
Hypothesis P_update :
  forall n id u t ms w,
    sync_metadata (file w) = Some ms ->
    P w ->
    P (set_file (set_sync_metadata (Some (meta_update n id u t ms)) (file w)) w).
Hypothesis P_new_log :
  forall w, sync_log (file w) = None ->
            P w -> P (set_file (set_sync_log (Some []) (file w)) w).

Ltac framed :=
  solve [ intros; first [ apply P_db | apply P_ext | apply P_isOnline
                        | apply P_table | apply P_new_metadata
                        | apply P_new_log ]; assumption ].

Lemma framed_withRetry {A} (operation : Async Ext A) :
  keeps P operation -> keeps P (withRetry out operation).
Proof.
  apply keeps_withRetry; framed.
Qed.

Lemma framed_outside {A} (call : Ext -> A * Ext) : keeps P (outside call).
Proof. apply keeps_outside. framed. Qed.

Lemma framed_updateSyncMetadata n id u :
  keeps P (updateSyncMetadata out n id u).
Proof.
  unfold updateSyncMetadata. apply framed_withRetry.
  intros w r w' HP H. unfold bind, getDb, clock, gets, modify, throw in H.
  destruct (db w); [| inversion H; subst; exact HP].
  destruct (sync_metadata (file w)) as [ms |] eqn:Hms;
    inversion H; subst; [| exact HP].
  apply P_update; assumption.
Qed.

Lemma framed_getLocalRecord n id : keeps P (getLocalRecord out n id).
Proof.
  unfold getLocalRecord. apply framed_withRetry.
  apply keeps_bind; [apply keeps_getDb | intros _].
  apply keeps_run_first_by_id.
Qed.

Lemma framed_getPendingChanges : keeps P (getPendingChanges out).
Proof.
  unfold getPendingChanges. apply framed_withRetry.
  apply keeps_bind; [apply keeps_getDb | intros _].
  apply keeps_try_catch; [| intros _; apply keeps_ret].
  apply keeps_bind; [apply keeps_gets | intros meta].
  destruct meta; [apply keeps_ret | apply keeps_throw].
Qed.

Lemma framed_getLocalTableColumns n : keeps P (getLocalTableColumns out n).
Proof.
  unfold getLocalTableColumns. apply framed_withRetry.
  apply keeps_bind; [apply keeps_getDb | intros _; apply keeps_ret].
Qed.

Lemma framed_checkConnection : keeps P (checkConnection out).
Proof.
  unfold checkConnection. apply keeps_if; [apply keeps_throw |].
  apply keeps_try_catch.
  - apply keeps_bind; [apply framed_outside |].
    intros [u | e]; [| apply keeps_throw].
    apply keeps_bind; [| intros _; apply keeps_ret].
    apply keeps_modify. intros w HP. apply P_isOnline, HP.
  - intros _. apply keeps_bind; [| intros _; apply keeps_ret].
    apply keeps_modify. intros w HP. apply P_isOnline, HP.
Qed.

Lemma framed_upload_attempt change c : keeps P (upload_attempt out change c).
Proof.
  unfold upload_attempt.
  apply keeps_bind; [apply framed_getLocalRecord |].
  intros [record |].
  - apply keeps_bind.
    + destruct (supabase_id change); apply framed_outside.
    + intros [data | e]; [| apply keeps_throw].
      apply keeps_bind; [apply framed_updateSyncMetadata |].
      intros _. apply keeps_ret.
  - apply keeps_bind.
    + destruct (supabase_id change); [| apply keeps_ret].
      apply keeps_bind; [apply framed_outside |].
      intros [u | e]; [apply keeps_ret | apply keeps_throw].
    + intros _. apply keeps_bind; [apply framed_updateSyncMetadata |].
      intros _. apply keeps_ret.
Qed.

Lemma framed_upload_change change c : keeps P (upload_change out change c).
Proof.
  unfold upload_change. apply keeps_try_catch; [apply framed_upload_attempt |].
  intros _. apply keeps_bind; [apply framed_updateSyncMetadata |].
  intros _. apply keeps_ret.
Qed.

Lemma framed_upload_changes changes :
  forall c, keeps P (upload_changes out changes c).
Proof.
  induction changes as [| change rest IH]; intros c; simpl;
    [apply keeps_ret |].
  apply keeps_bind; [apply framed_upload_change | intros c'; apply IH].
Qed.

Lemma framed_uploadToSupabase : keeps P (uploadToSupabase out).
Proof.
  unfold uploadToSupabase.
  apply keeps_bind; [apply framed_getPendingChanges | intros changes].
  apply keeps_if; [apply keeps_ret |].
  apply keeps_bind; [apply framed_upload_changes | intros c; apply keeps_ret].
Qed.

Lemma framed_store_record n record : keeps P (store_record out n record).
Proof.
  unfold store_record.
  apply keeps_bind; [apply keeps_getDb | intros _].
  apply keeps_bind; [apply keeps_run_first_by_id | intros existing].
  apply keeps_bind; [| intros _; apply framed_updateSyncMetadata].
  destruct existing;
    (apply keeps_bind; [apply framed_getLocalTableColumns | intros cols];
     apply keeps_if; [| apply keeps_ret];
     apply keeps_bind; [| intros _; apply keeps_ret]).
  - apply keeps_run_update; framed.
  - apply keeps_run_insert; framed.
Qed.

Lemma framed_download_records n data :
  forall c, keeps P (download_records out n data c).
Proof.
  induction data as [| record rest IH]; intros c; simpl;
    [apply keeps_ret |].
  apply keeps_bind; [| intros c'; apply IH].
  unfold download_record.
  apply keeps_try_catch; [| intros _; apply keeps_ret].
  apply keeps_bind; [| intros _; apply keeps_ret].
  apply framed_withRetry. apply framed_store_record.
Qed.

Lemma framed_download_tables tables :
  forall c, keeps P (download_tables out tables c).
Proof.
  induction tables as [| n rest IH]; intros c; simpl; [apply keeps_ret |].
  apply keeps_bind; [| intros c'; apply IH].
  unfold download_table.
  apply keeps_try_catch; [| intros _; apply keeps_ret].
  apply keeps_bind; [apply framed_outside |].
  intros [data | e]; [apply framed_download_records | apply keeps_throw].
Qed.

Lemma framed_downloadFromSupabase : keeps P (downloadFromSupabase out).
Proof.
  unfold downloadFromSupabase.
  apply keeps_bind; [apply keeps_gets | intros tables].
  apply keeps_bind; [apply framed_download_tables | intros c; apply keeps_ret].
Qed.


(** [P] does not look at the listeners, the lock, the time of the last
    sync or sync_log either. *)
Hypothesis P_heard : forall h w, P w -> P (set_heard h w).
Hypothesis P_syncInProgress : forall b w, P w -> P (set_syncInProgress b w).
Hypothesis P_lastSyncTime : forall t w, P w -> P (set_lastSyncTime t w).
Hypothesis P_log :
  forall l w, P w -> P (set_file (set_sync_log l (file w)) w).

Lemma framed_logSyncOperation ty st msg k details :
  keeps P (logSyncOperation out ty st msg k details).
Proof.
  unfold logSyncOperation, clock. apply framed_withRetry.
  apply keeps_bind; [apply keeps_getDb | intros _].
  apply keeps_try_catch; [| intros _; apply keeps_ret].
  apply keeps_bind; [apply keeps_gets | intros t].
  apply keeps_bind; [apply keeps_gets | intros log].
  destruct log; [| apply keeps_throw].
  apply keeps_modify. intros w HP. apply P_log, HP.
Qed.

Lemma framed_notifyListeners st msg :
  keeps P (notifyListeners (Ext := Ext) st msg).
Proof. apply keeps_modify. intros w HP. apply P_heard, HP. Qed.

Lemma framed_sync force : keeps P (sync out force).
Proof.
  unfold sync, clock.
  apply keeps_bind; [apply keeps_gets | intros t0].
  apply keeps_bind; [apply keeps_gets | intros busy].
  apply keeps_if; [apply keeps_ret |].
  apply keeps_bind;
    [apply keeps_modify; intros w HP; apply P_syncInProgress, HP | intros _].
  apply keeps_bind; [apply framed_notifyListeners | intros _].
  intros w r w' HP H. unfold try_finally in H.
  match type of H with
  | (let (_, _) := ?m w in _) = _ => destruct (m w) as [r1 w1] eqn:E
  end.
  inversion H; subst. apply P_syncInProgress.
  assert (Hpass : keeps P (try_catch (sync_pass out t0) (sync_failed out t0))).
  { apply keeps_try_catch.
    - unfold sync_pass, clock.
      apply keeps_bind; [apply framed_checkConnection | intros connected].
      apply keeps_bind;
        [apply keeps_if; [apply keeps_throw | apply keeps_ret] | intros _].
      apply keeps_bind; [apply framed_notifyListeners | intros _].
      apply keeps_bind; [apply framed_uploadToSupabase | intros u].
      apply keeps_bind; [apply framed_notifyListeners | intros _].
      apply keeps_bind; [apply framed_downloadFromSupabase | intros d].
      apply keeps_bind; [apply keeps_gets | intros t].
      apply keeps_bind;
        [apply keeps_modify; intros w2 H2; apply P_lastSyncTime, H2
        | intros _].
      apply keeps_bind; [apply keeps_gets | intros t'].
      apply keeps_bind; [apply framed_logSyncOperation | intros _].
      apply keeps_bind; [apply framed_notifyListeners | intros _].
      apply keeps_bind; [apply keeps_gets | intros syncTime].
      apply keeps_ret.
    - intros e. unfold sync_failed, clock.
      apply keeps_bind; [apply keeps_gets | intros t].
      apply keeps_bind; [apply framed_logSyncOperation | intros _].
      apply keeps_bind; [apply framed_notifyListeners | intros _].
      apply keeps_ret. }
  exact (Hpass _ _ _ HP E).
Qed.

End Frame.


Section Pass.
Context {Ext : Type} (out : Outside Ext).

Hypothesis storage_opens : forall x, fst (sqlite_open out x) = true.




End Pass.



(* ===================================================================== *)
(** ** Which records are tracked *)
(* ===================================================================== *)

Lemma tracked_keys_meta_update n id u t ms :
  map (fun m => (table_name m, record_id m)) (meta_update n id u t ms)
  = map (fun m => (table_name m, record_id m)) ms.
Proof.
  unfold meta_update. rewrite map_map. apply map_ext. intros m.
  destruct (same_key n id m); reflexivity.
Qed.

(** X22.  A sync never starts or stops tracking a record: the records
    that have a row in sync_metadata are the same, in the same order,
    after [uploadToSupabase()], [downloadFromSupabase()] and
    [sync(force)] as before, however the call ends.  In particular a
    record that the download stores and that had no metadata row has
    none afterwards. *)
Theorem sync_tracks_the_same_records :
  forall (Ext : Type) (out : Outside Ext) (force : bool) (w : World Ext),
    tracked_keys (file (snd (uploadToSupabase out w)))
    = tracked_keys (file w) /\
    tracked_keys (file (snd (downloadFromSupabase out w)))
    = tracked_keys (file w) /\
    tracked_keys (file (snd (sync out force w))) = tracked_keys (file w).
Proof.
  intros Ext out force w.
  set (P := fun w' : World Ext =>
              tracked_keys (file w') = tracked_keys (file w)).
  assert (Pdb : forall b w0, P w0 -> P (set_db b w0))
    by (intros b w0 H; exact H).
  assert (Pext : forall x w0, P w0 -> P (set_ext x w0))
    by (intros x w0 H; exact H).
  assert (Ponline : forall b w0, P w0 -> P (set_isOnline b w0))
    by (intros b w0 H; exact H).
  assert (Ptable : forall n t w0,
             P w0 -> P (set_file (put_table n t (file w0)) w0)).
  { intros n t w0 H. unfold P, tracked_keys in *. simpl.
    rewrite meta_rows_put_table. exact H. }
  assert (Pnew : forall w0, sync_metadata (file w0) = None ->
                            P w0 ->
                            P (set_file (set_sync_metadata (Some []) (file w0))
                                        w0)).
  { intros w0 Hnone H. unfold P, tracked_keys, meta_rows in *. simpl.
    rewrite Hnone in H. exact H. }
  assert (Pupdate : forall n id u t ms w0,
             sync_metadata (file w0) = Some ms ->
             P w0 ->
             P (set_file (set_sync_metadata
                            (Some (meta_update n id u t ms)) (file w0)) w0)).
  { intros n id u t ms w0 Hms H. unfold P, tracked_keys, meta_rows in *.
    simpl. rewrite Hms in H. rewrite tracked_keys_meta_update. exact H. }
  assert (Pnewlog : forall w0, sync_log (file w0) = None ->
                               P w0 ->
                               P (set_file (set_sync_log (Some []) (file w0))
                                           w0))
    by (intros w0 _ H; exact H).
  split; [| split].
  - destruct (uploadToSupabase out w) as [r w'] eqn:E.
    exact (@framed_uploadToSupabase Ext out P Pdb Pext Ptable Pnew Pupdate
             Pnewlog w r w' eq_refl E).
  - destruct (downloadFromSupabase out w) as [r w'] eqn:E.
    exact (@framed_downloadFromSupabase Ext out P Pdb Pext Ptable Pnew Pupdate
             Pnewlog w r w' eq_refl E).
  - destruct (sync out force w) as [r w'] eqn:E.
    refine (@framed_sync Ext out P Pdb Pext Ponline Ptable Pnew Pupdate
              Pnewlog _ _ _ _ force w r w' eq_refl E);
      intros ? w0 H; exact H.
Qed.

(* ===================================================================== *)
(** ** Deleting a tag *)
(* ===================================================================== *)

Lemma filter_miss_length {A} (p : A -> bool) (l : list A) :
  existsb p l = false -> List.length (filter p l) = 0%nat.
Proof.
  induction l as [| x l IH]; simpl; [reflexivity |].
  destruct (p x); simpl; [discriminate | exact IH].
Qed.

Lemma filter_negb_miss {A} (p : A -> bool) (l : list A) :
  existsb p l = false -> filter (fun x => negb (p x)) l = l.
Proof.
  induction l as [| x l IH]; simpl; [reflexivity |].
  destruct (p x); simpl; [discriminate |].
  intros H. rewrite (IH H). reflexivity.
Qed.

Section DeleteTag.
Context {Ext : Type} (out : Outside Ext).

(** When every attempt fails with the same error, so does [withRetry],
    and what each failed attempt establishes holds at the end. *)
Lemma retry_all_fail {A} (operation : Async Ext A) e
      (Inv Post : World Ext -> Prop) :
  (forall w0, Inv w0 ->
              exists w1, (initDatabase out ;;; operation) w0 = (Thrown e, w1) /\
                         Post w1) ->
  (forall w1, Post w1 -> Inv (set_db false w1)) ->
  (forall w1, Post w1 -> Post (set_db false w1)) ->
  forall fuel lastError w0,
    Inv w0 ->
    exists w', retry out operation (S fuel) lastError w0 = (Thrown e, w') /\
               Post w' /\ db w' = false.
Proof.
  intros Hattempt Hnext Hdrop.
  induction fuel as [| fuel IH]; intros lastError w0 Hinv;
    destruct (Hattempt w0 Hinv) as (w1 & E1 & Hpost).
  - simpl. unfold try_catch. rewrite E1.
    unfold bind, modify, throw.
    exists (set_db false w1). split; [reflexivity |].
    split; [apply Hdrop, Hpost | reflexivity].
  - change (retry out operation (S (S fuel)) lastError w0)
      with (try_catch (initDatabase out ;;; operation)
              (fun e0 => modify (set_db false) ;;;
                         retry out operation (S fuel) e0) w0).
    unfold try_catch. rewrite E1.
    unfold bind at 1, modify at 1.
    exact (IH e (set_db false w1) (Hnext w1 Hpost)).
Qed.

Lemma deleteTag_open id (w : World Ext) :
  db w = true ->
  existsb (fun r => sql_eq (field "id" r) (VInt id)) (rows (tags (file w)))
  = true ->
  deleteTag out id w
  = (Returned id,
     let f2 := set_tags
                 (fst (sql_delete_where "id" (VInt id) (tags (file w))))
                 (set_task_tags
                    (fst (sql_delete_where "tag_id" (VInt id)
                            (task_tags (file w))))
                    (file w)) in
     match sync_metadata (file w) with
     | Some ms =>
         set_file (set_sync_metadata
                     (Some (meta_replace "tags" id None (now out (ext w)) ms))
                     f2) w
     | None => set_file f2 w
     end).
Proof.
  intros Hdb Hfound. unfold deleteTag. apply withRetry_first; [exact Hdb |].
  rewrite (bind_returned _ _ _ (getDb_open _ Hdb)).
  unfold bind at 1. unfold run_delete_where at 1. simpl.
  unfold bind at 1. unfold run_delete_where at 1. simpl.
  rewrite (filter_hit_length _ _ Hfound). simpl.
  unfold bind at 1. unfold ret at 1.
  unfold bind at 1. rewrite insertSyncMetadata_open by exact Hdb. simpl.
  destruct (sync_metadata (file w)); reflexivity.
Qed.

(** One attempt at deleting a tag that is not there, on an open
    database: the junction rows go before the tag is missed. *)
Lemma deleteTag_attempt_misses id (w : World Ext) :
  db w = true ->
  existsb (fun r => sql_eq (field "id" r) (VInt id)) (rows (tags (file w)))
  = false ->
  exists w',
    (getDb ;;;
     run_delete_where "task_tags" "tag_id" (VInt id) ;;;
     changes <- run_delete_where "tags" "id" (VInt id) ;;
     (if Nat.eqb changes 0 then throw "Tag not found" else ret tt) ;;;
     insertSyncMetadata out "tags" id None ;;;
     ret id) w = (Thrown "Tag not found", w') /\
    rows (task_tags (file w'))
    = filter (fun r => negb (sql_eq (field "tag_id" r) (VInt id)))
             (rows (task_tags (file w))) /\
    rows (tags (file w')) = rows (tags (file w)) /\
    tasks (file w') = tasks (file w) /\
    projects (file w') = projects (file w) /\
    meta_rows (file w') = meta_rows (file w).
Proof.
  intros Hdb Hmiss.
  rewrite (bind_returned _ _ _ (getDb_open _ Hdb)).
  unfold bind at 1. unfold run_delete_where at 1. simpl.
  unfold bind at 1. unfold run_delete_where at 1. simpl.
  rewrite (filter_miss_length _ _ Hmiss). simpl.
  unfold bind at 1, throw at 1.
  eexists. split; [reflexivity |]. simpl.
  rewrite (filter_negb_miss _ _ Hmiss). repeat split.
Qed.

Hypothesis storage_opens : forall x, fst (sqlite_open out x) = true.

(** With the Inbox in place, opening the database again changes no
    business table and no metadata row. *)
Lemma initDatabase_reopens (w : World Ext) :
  has_inbox w ->
  exists w',
    initDatabase out w = (Returned tt, w') /\ db w' = true /\
    projects (file w') = projects (file w) /\
    tasks (file w') = tasks (file w) /\
    tags (file w') = tags (file w) /\
    task_tags (file w') = task_tags (file w) /\
    meta_rows (file w') = meta_rows (file w).
Proof.
  intros Hin. unfold initDatabase, bind at 1, gets.
  destruct (db w) eqn:Hdb; [exists w; repeat split; exact Hdb |].
  unfold _initDatabase, try_catch, bind at 1, modify at 1.
  unfold bind at 1, outside.
  pose proof (storage_opens (ext (set_db false w))) as Hopen.
  destruct (sqlite_open out (ext (set_db false w))) as [opened x].
  simpl in Hopen. subst opened.
  unfold bind at 1, modify at 1. unfold bind at 1.
  match goal with
  | |- context [create_sync_tables out ?w1] =>
      destruct (create_sync_tables_keeps_tables out w1)
        as (w2 & Ec & Hdb2 & Hp2 & Hk2 & Hg2 & Hj2);
      assert (Hm2 : meta_rows (file w2) = meta_rows (file w1));
      [ refine (@keeps_create_sync_tables _ out
                  (fun w' => meta_rows (file w') = meta_rows (file w1))
                  _ _ _ w1 (Returned tt) w2 eq_refl Ec)
      | rewrite Ec ]
  end.
  - intros x0 w0 H. exact H.
  - intros w0 Hnone H. unfold meta_rows in *. simpl.
    rewrite Hnone in H. exact H.
  - intros w0 _ H. exact H.
  - simpl in Hdb2, Hp2, Hk2, Hg2, Hj2, Hm2.
    unfold bind at 1, gets at 1. rewrite Hp2.
    unfold has_inbox in Hin. rewrite (existsb_length _ _ Hin).
    unfold bind at 1, gets at 1. rewrite Hp2.
    rewrite (filter_hit_length _ _ Hin).
    exists w2. repeat split; assumption.
Qed.

End DeleteTag.

(** X17.  On an initialised database that holds the tag,
    [deleteTag(id)] removes the tag and every task_tags row of the tag,
    keeps the other tags and junction rows, leaves projects and tasks
    alone, and marks (tags, id) pending; afterwards [getTaskTags] lists
    the tag for no task. *)
Theorem deleteTag_unlinks_every_task :
  forall (Ext : Type) (out : Outside Ext) (id : Z) (w : World Ext),
    db w = true ->
    existsb (fun r => sql_eq (field "id" r) (VInt id)) (rows (tags (file w)))
    = true ->
    exists w',
      deleteTag out id w = (Returned id, w') /\
      rows (tags (file w'))
      = filter (fun r => negb (sql_eq (field "id" r) (VInt id)))
               (rows (tags (file w))) /\
      rows (task_tags (file w'))
      = filter (fun r => negb (sql_eq (field "tag_id" r) (VInt id)))
               (rows (task_tags (file w))) /\
      projects (file w') = projects (file w) /\
      tasks (file w') = tasks (file w) /\
      (forall taskId,
        exists listed,
          getTaskTags out taskId w' = (Returned listed, w') /\
          Forall (fun t => sql_eq (field "id" t) (VInt id) = false) listed) /\
      (sync_metadata (file w) <> None ->
       tracked "tags" id w' = Some (pending, None)).
Proof.
  intros Ext out id w Hdb Hfound.
  rewrite (deleteTag_open out id w Hdb Hfound).
  eexists. split; [reflexivity |].
  assert (Htags :
            forall w1 : World Ext,
              rows (tags (file w1))
              = filter (fun r => negb (sql_eq (field "id" r) (VInt id)))
                       (rows (tags (file w))) ->
              db w1 = true ->
              forall taskId,
              exists listed,
                getTaskTags out taskId w1 = (Returned listed, w1) /\
                Forall (fun t => sql_eq (field "id" t) (VInt id) = false)
                       listed).
  { intros w1 Hrows Hdb1 taskId.
    rewrite (getTaskTags_open out taskId w1 Hdb1).
    eexists. split; [reflexivity |].
    apply Forall_forall. intros t Ht.
    apply in_flat_map in Ht. destruct Ht as (t0 & Hin0 & Ht).
    apply in_map_iff in Ht. destruct Ht as (_ & <- & _).
    rewrite Hrows in Hin0. apply filter_In in Hin0.
    destruct Hin0 as [_ Hneg]. apply negb_true_iff in Hneg. exact Hneg. }
  repeat split.
  - destruct (sync_metadata (file w)); reflexivity.
  - destruct (sync_metadata (file w)); reflexivity.
  - destruct (sync_metadata (file w)); reflexivity.
  - destruct (sync_metadata (file w)); reflexivity.
  - apply Htags; destruct (sync_metadata (file w)); first [reflexivity | exact Hdb].
  - intros Hsome. unfold tracked, meta_rows.
    destruct (sync_metadata (file w)) as [ms |]; [| congruence]. simpl.
    rewrite meta_lookup_meta_replace. reflexivity.
Qed.

Lemma deleteTag_unlinks_every_task_witness :
  exists w',
    deleteTag service 1 tagged_world = (Returned 1, w') /\
    rows (task_tags (file w')) = [] /\
    tasks (file w') = tasks (file tagged_world) /\
    tracked "tags" 1 w' = Some (pending, None).
Proof.
  destruct (@deleteTag_unlinks_every_task Server service 1 tagged_world
              eq_refl eq_refl)
    as (w' & E & _ & Hj & _ & Hk & _ & Htrack).
  exists w'. split; [exact E |]. split; [exact Hj |]. split; [exact Hk |].
  apply Htrack. discriminate.
Defined.

(** X18.  [deleteTag(id)] of a tag that is not there, on an initialised
    database with the Inbox in place and a file that opens: the call
    throws [Tag not found] after its three attempts and leaves the
    handle dropped, but the rows of task_tags that named the tag are
    gone all the same: the first DELETE is not undone.  Tags, tasks,
    projects and the metadata rows are as they were. *)
Theorem failed_deleteTag_still_unlinks :
  forall (Ext : Type) (out : Outside Ext) (id : Z) (w : World Ext),
    (forall x, fst (sqlite_open out x) = true) ->
    db w = true ->
    has_inbox w ->
    existsb (fun r => sql_eq (field "id" r) (VInt id)) (rows (tags (file w)))
    = false ->
    exists w',
      deleteTag out id w = (Thrown "Tag not found", w') /\
      db w' = false /\
      rows (task_tags (file w'))
      = filter (fun r => negb (sql_eq (field "tag_id" r) (VInt id)))
               (rows (task_tags (file w))) /\
      rows (tags (file w')) = rows (tags (file w)) /\
      tasks (file w') = tasks (file w) /\
      projects (file w') = projects (file w) /\
      meta_rows (file w') = meta_rows (file w).
Proof.
  intros Ext out id w Hopen Hdb Hin Hmiss.
  set (F := fun r : Row => negb (sql_eq (field "tag_id" r) (VInt id))).
  set (Inv := fun w0 : World Ext =>
                has_inbox w0 /\
                rows (tags (file w0)) = rows (tags (file w)) /\
                tasks (file w0) = tasks (file w) /\
                projects (file w0) = projects (file w) /\
                meta_rows (file w0) = meta_rows (file w) /\
                filter F (rows (task_tags (file w0)))
                = filter F (rows (task_tags (file w)))).
  set (Post := fun w1 : World Ext =>
                 Inv w1 /\
                 rows (task_tags (file w1))
                 = filter F (rows (task_tags (file w)))).
  unfold deleteTag, withRetry.
  match goal with
  | |- exists w', retry out ?op 3 ?last w = _ /\ _ =>
      destruct (@retry_all_fail Ext out Z op "Tag not found" Inv Post)
        with (fuel := 2%nat) (lastError := last) (w0 := w)
        as (w' & E & ((_ & Ht & Hk & Hp & Hm & _) & Hj) & Hdb')
  end.
  - intros w0 (Hin0 & Ht0 & Hk0 & Hp0 & Hm0 & Hj0).
    destruct (@initDatabase_reopens Ext out Hopen w0 Hin0)
      as (w1 & E1 & Hdb1 & Hp1 & Hk1 & Ht1 & Hj1 & Hm1).
    rewrite (bind_returned _ _ _ E1).
    destruct (@deleteTag_attempt_misses Ext out id w1 Hdb1)
      as (w2 & E2 & Hj2 & Ht2 & Hk2 & Hp2 & Hm2).
    { rewrite Ht1, Ht0. exact Hmiss. }
    exists w2. split; [exact E2 |].
    assert (Hrows : rows (task_tags (file w2))
                    = filter F (rows (task_tags (file w))))
      by (rewrite Hj2, Hj1; exact Hj0).
    split; [| exact Hrows].
    unfold Inv. split; [unfold has_inbox in *; rewrite Hp2, Hp1; exact Hin0 |].
    split; [rewrite Ht2, Ht1; exact Ht0 |].
    split; [rewrite Hk2, Hk1; exact Hk0 |].
    split; [rewrite Hp2, Hp1; exact Hp0 |].
    split; [rewrite Hm2, Hm1; exact Hm0 |].
    rewrite Hrows. apply filter_twice.
  - intros w1 (H & _). exact H.
  - intros w1 H. exact H.
  - unfold Inv. repeat split; try reflexivity. exact Hin.
  - exists w'. repeat split; assumption.
Qed.

Lemma failed_deleteTag_still_unlinks_witness :
  exists w',
    deleteTag service 7 dangling_world = (Thrown "Tag not found", w') /\
    db w' = false /\
    rows (task_tags (file w')) = [[("task_id", VInt 2); ("tag_id", VInt 1)]].
Proof.
  destruct (@failed_deleteTag_still_unlinks Server service 7 dangling_world
              (fun _ => eq_refl) eq_refl eq_refl eq_refl)
    as (w' & E & Hdb & Hj & _).
  exists w'. split; [exact E |]. split; [exact Hdb | exact Hj].
Defined.

(* ===================================================================== *)
(** ** Listing in id order *)
(* ===================================================================== *)

Lemma insert_by_id_In r sorted x :
  In x (insert_by_id r sorted) <-> x = r \/ In x sorted.
Proof.
  induction sorted as [| y rest IH]; simpl.
  - intuition congruence.
  - destruct (sql_lt (field "id" r) (field "id" y)); simpl.
    + intuition congruence.
    + rewrite IH. intuition congruence.
Qed.

Lemma insert_by_id_length r sorted :
  List.length (insert_by_id r sorted) = S (List.length sorted).
Proof.
  induction sorted as [| y rest IH]; simpl; [reflexivity |].
  destruct (sql_lt (field "id" r) (field "id" y)); simpl;
    [reflexivity | rewrite IH; reflexivity].
Qed.

Lemma insert_by_id_sorted r sorted :
  has_integer_id r ->
  Forall has_integer_id sorted ->
  StronglySorted id_not_above sorted ->
  StronglySorted id_not_above (insert_by_id r sorted).
Proof.
  intros [z Hz] Hint Hs.
  induction Hs as [| y rest Hrest IH Hall]; simpl.
  - constructor; constructor.
  - inversion Hint as [| ? ? [zy Hzy] Hint']; subst.
    destruct (sql_lt (field "id" r) (field "id" y)) eqn:E.
    + rewrite Hz, Hzy in E. simpl in E. apply Z.ltb_lt in E.
      constructor; [constructor; assumption |].
      constructor.
      * unfold id_not_above. rewrite Hz, Hzy. simpl. apply Z.ltb_ge. lia.
      * rewrite Forall_forall in Hall, Hint'. apply Forall_forall.
        intros x Hx. destruct (Hint' x Hx) as [zx Hzx].
        specialize (Hall x Hx). unfold id_not_above in *.
        rewrite Hzx, Hzy in Hall. rewrite Hzx, Hz. simpl in *.
        apply Z.ltb_ge in Hall. apply Z.ltb_ge. lia.
    + constructor; [exact (IH Hint') |].
      apply Forall_forall. intros x Hx.
      apply insert_by_id_In in Hx. destruct Hx as [-> | Hx].
      * unfold id_not_above. exact E.
      * rewrite Forall_forall in Hall. apply Hall, Hx.
Qed.

Lemma order_by_id_spec rs :
  (forall x, In x (order_by_id rs) <-> In x rs) /\
  List.length (order_by_id rs) = List.length rs /\
  (Forall has_integer_id rs -> StronglySorted id_not_above (order_by_id rs)).
Proof.
  unfold order_by_id.
  assert (H : forall acc,
             (forall x, In x (fold_left (fun acc r => insert_by_id r acc) rs acc)
                        <-> In x acc \/ In x rs) /\
             List.length (fold_left (fun acc r => insert_by_id r acc) rs acc)
             = (List.length acc + List.length rs)%nat /\
             (Forall has_integer_id rs -> Forall has_integer_id acc ->
              StronglySorted id_not_above acc ->
              StronglySorted id_not_above
                (fold_left (fun acc r => insert_by_id r acc) rs acc))).
  { induction rs as [| r rs IH]; intros acc; simpl.
    - split; [intuition | split; [lia | auto]].
    - destruct (IH (insert_by_id r acc)) as (Hin & Hlen & Hs).
      split; [| split].
      + intros x. rewrite Hin, insert_by_id_In. intuition.
      + rewrite Hlen, insert_by_id_length. lia.
      + intros Hint Hacc Hsorted.
        inversion Hint as [| ? ? Hr Hrs]; subst.
        apply Hs; [exact Hrs | | apply insert_by_id_sorted; assumption].
        apply Forall_forall. intros x Hx. apply insert_by_id_In in Hx.
        destruct Hx as [-> | Hx]; [exact Hr |].
        rewrite Forall_forall in Hacc. apply Hacc, Hx. }
  destruct (H []) as (Hin & Hlen & Hs).
  split; [| split].
  - intros x. rewrite Hin. simpl. intuition.
  - exact Hlen.
  - intros Hint. apply Hs; [exact Hint | constructor | constructor].
Qed.

Section Listing.
Context {Ext : Type} (out : Outside Ext).

Lemma getAllProjects_open (w : World Ext) :
  db w = true ->
  getAllProjects out w
  = (Returned (order_by_id (rows (projects (file w)))), w).
Proof.
  intros Hdb. unfold getAllProjects. apply withRetry_first; [exact Hdb |].
  rewrite (bind_returned _ _ _ (getDb_open _ Hdb)). reflexivity.
Qed.

Lemma createTask_open projectId title description (w : World Ext) :
  db w = true ->
  createTask out projectId title description w
  = (Returned (js_number (next_rowid (tasks (file w)))),
     let id := next_rowid (tasks (file w)) in
     let f1 := set_tasks
                 (mkTable (rows (tasks (file w))
                           ++ [[("id", VInt id); ("project_id", VInt projectId);
                                ("title", VText title);
                                ("description",
                                 match description with
                                 | Some d => VText d
                                 | None => VNull
                                 end)]])
                          (Z.max (seq (tasks (file w))) id))
                 (file w) in
     match sync_metadata (file w) with
     | Some ms =>
         set_file (set_sync_metadata
                     (Some (meta_replace "tasks" (js_number id) None
                                         (now out (ext w)) ms))
                     f1) w
     | None => set_file f1 w
     end).
Proof.
  intros Hdb. unfold createTask. apply withRetry_first; [exact Hdb |].
  rewrite (bind_returned _ _ _ (getDb_open _ Hdb)).
  unfold bind at 1. unfold run_insert at 1.
  destruct description; simpl;
    (unfold bind at 1; rewrite insertSyncMetadata_open by exact Hdb; simpl;
     destruct (sync_metadata (file w)); reflexivity).
Qed.

End Listing.

(** X19.  On an initialised database [getAllProjects()] returns every
    project row exactly as often as the table holds it, and
    [getTasksByProjectId(p)] returns the task rows whose [project_id]
    is [p] and no other; neither changes anything, and when the ids are
    integers both lists are in ascending id order. *)
Theorem listings_are_complete_and_in_id_order :
  forall (Ext : Type) (out : Outside Ext) (p : Z) (w : World Ext),
    db w = true ->
    exists allProjects tasksOfP,
      getAllProjects out w = (Returned allProjects, w) /\
      getTasksByProjectId out p w = (Returned tasksOfP, w) /\
      (forall r, In r allProjects <-> In r (rows (projects (file w)))) /\
      List.length allProjects = List.length (rows (projects (file w))) /\
      (forall r, In r tasksOfP <->
                 In r (rows (tasks (file w))) /\
                 sql_eq (field "project_id" r) (VInt p) = true) /\
      (Forall has_integer_id (rows (projects (file w))) ->
       StronglySorted id_not_above allProjects) /\
      (Forall has_integer_id (rows (tasks (file w))) ->
       StronglySorted id_not_above tasksOfP).
Proof.
  intros Ext out p w Hdb.
  rewrite (getAllProjects_open out w Hdb).
  rewrite (getTasksByProjectId_open out p w Hdb).
  do 2 eexists. split; [reflexivity |]. split; [reflexivity |].
  destruct (order_by_id_spec (rows (projects (file w)))) as (Hin & Hlen & Hs).
  destruct (order_by_id_spec
              (filter (fun r => sql_eq (field "project_id" r) (VInt p))
                      (rows (tasks (file w))))) as (Hin' & _ & Hs').
  split; [exact Hin |]. split; [exact Hlen |].
  split; [intros r; rewrite Hin', filter_In; reflexivity |].
  split; [exact Hs |].
  intros Hint. apply Hs'. apply Forall_forall. intros r Hr.
  apply filter_In in Hr. rewrite Forall_forall in Hint. apply Hint, Hr.
Qed.

Lemma listings_are_complete_and_in_id_order_witness :
  getAllProjects service shuffled_world
  = (Returned [project 1 "Inbox"; project 3 "Work"; project 5 "Late"],
     shuffled_world) /\
  getTasksByProjectId service 3 shuffled_world
  = (Returned [task 4 3 "Plan"; task 9 3 "Ship"], shuffled_world).
Proof.
  destruct (@listings_are_complete_and_in_id_order Server service 3
              shuffled_world eq_refl)
    as (ps & ts & Ep & Et & _).
  rewrite Ep, Et.
  assert (Hp : fst (getAllProjects service shuffled_world) = Returned ps)
    by (rewrite Ep; reflexivity).
  assert (Ht : fst (getTasksByProjectId service 3 shuffled_world) = Returned ts)
    by (rewrite Et; reflexivity).
  vm_compute in Hp. vm_compute in Ht. inversion Hp. inversion Ht.
  split; reflexivity.
Defined.

(** X20.  On an initialised database whose next task id is at most
    2^53, so that [lastInsertRowId] is that id exactly,
    [createTask(projectId, title, description)] returns an id that no
    task had, appends the task and changes no other row; [getTasksByProjectId(projectId)] then lists
    the new task, the list of every other project is what it was, and
    the task is tracked as pending with no remote id (when
    sync_metadata exists). *)
Theorem created_task_is_listed_under_its_project :
  forall (Ext : Type) (out : Outside Ext) (projectId : Z) (title : string)
         (description : option string) (w : World Ext),
    db w = true ->
    next_rowid (tasks (file w)) <= MAX_SAFE ->
    exists id w',
      createTask out projectId title description w = (Returned id, w') /\
      (forall r, In r (rows (tasks (file w))) -> row_id r <> Some id) /\
      (exists row,
          rows (tasks (file w')) = rows (tasks (file w)) ++ [row] /\
          field "id" row = VInt id /\
          field "project_id" row = VInt projectId /\
          field "title" row = VText title /\
          exists listed,
            getTasksByProjectId out projectId w' = (Returned listed, w') /\
            In row listed) /\
      (forall q, q <> projectId ->
                 fst (getTasksByProjectId out q w')
                 = fst (getTasksByProjectId out q w)) /\
      projects (file w') = projects (file w) /\
      (sync_metadata (file w) <> None ->
       tracked "tasks" id w' = Some (pending, None)).
Proof.
  intros Ext out projectId title description w Hdb Hsafe.
  rewrite (createTask_open out projectId title description w Hdb).
  cbv zeta. rewrite (js_number_next_rowid _ Hsafe).
  set (id := next_rowid (tasks (file w))).
  set (row := [("id", VInt id); ("project_id", VInt projectId);
               ("title", VText title);
               ("description", match description with
                               | Some d => VText d
                               | None => VNull
                               end)]).
  match goal with
  | |- exists i w', (Returned _, ?W) = _ /\ _ => set (w1 := W)
  end.
  assert (Ht : rows (tasks (file w1)) = rows (tasks (file w)) ++ [row])
    by (subst w1; destruct (sync_metadata (file w)); reflexivity).
  assert (Hp : projects (file w1) = projects (file w))
    by (subst w1; destruct (sync_metadata (file w)); reflexivity).
  assert (Hdb1 : db w1 = true)
    by (subst w1; destruct (sync_metadata (file w)); exact Hdb).
  assert (Hm : sync_metadata (file w) <> None ->
               tracked "tasks" id w1 = Some (pending, None)).
  { intros Hsome. subst w1. unfold tracked, meta_rows.
    destruct (sync_metadata (file w)) as [ms |]; [| congruence]. simpl.
    rewrite meta_lookup_meta_replace. reflexivity. }
  clearbody w1. exists id, w1. split; [reflexivity |].
  split; [| split; [| split; [| split]]].
  - intros r Hin Hid. pose proof (next_rowid_fresh _ _ Hin) as Hfresh.
    unfold row_id in Hid. destruct (field "id" r); try discriminate Hid.
    injection Hid as ->. simpl in Hfresh. fold id in Hfresh.
    rewrite Z.eqb_refl in Hfresh. discriminate Hfresh.
  - exists row. split; [exact Ht |]. repeat split.
    rewrite (getTasksByProjectId_open out projectId _ Hdb1).
    eexists. split; [reflexivity |].
    apply (proj1 (order_by_id_spec _)). rewrite Ht. apply filter_In.
    split; [apply in_or_app; right; left; reflexivity |].
    simpl. apply Z.eqb_refl.
  - intros q Hq.
    rewrite (getTasksByProjectId_open out q _ Hdb1).
    rewrite (getTasksByProjectId_open out q w Hdb).
    simpl fst. rewrite Ht, filter_app. simpl filter.
    replace (projectId =? q) with false
      by (symmetry; apply Z.eqb_neq; congruence).
    rewrite app_nil_r. reflexivity.
  - exact Hp.
  - exact Hm.
Qed.

Lemma created_task_is_listed_under_its_project_witness :
  exists w',
    createTask service 2 "Water" None tagged_world = (Returned 3, w') /\
    fst (getTasksByProjectId service 2 w')
    = Returned [task 2 2 "Design UI";
                [("id", VInt 3); ("project_id", VInt 2);
                 ("title", VText "Water"); ("description", VNull)]] /\
    tracked "tasks" 3 w' = Some (pending, None).
Proof.
  destruct (@created_task_is_listed_under_its_project Server service 2 "Water"
              None tagged_world eq_refl ltac:(vm_compute; discriminate))
    as (id & w' & Hrun & _ & _ & _ & _ & Htracked).
  assert (Hid : id = 3 /\ w' = snd (createTask service 2 "Water" None
                                               tagged_world)).
  { rewrite Hrun. split; [| reflexivity].
    assert (H : fst (createTask service 2 "Water" None tagged_world)
                = Returned id) by (rewrite Hrun; reflexivity).
    vm_compute in H. inversion H. reflexivity. }
  destruct Hid as [-> Hw]. exists w'. split; [exact Hrun |].
  split; [rewrite Hw; vm_compute; reflexivity |].
  apply Htracked. discriminate.
Defined.

(* ===================================================================== *)
(** ** Rows that stay *)
(* ===================================================================== *)

Lemma field_assign_other sets k r :
  includes (keys sets) k = false -> field k (assign sets r) = field k r.
Proof.
  intros Hk. unfold assign.
  induction r as [| [k0 v] r IH]; simpl; [reflexivity |].
  destruct (String.eqb k k0) eqn:E.
  - apply String.eqb_eq in E. subst k0. rewrite Hk. simpl.
    rewrite String.eqb_refl. reflexivity.
  - destruct (includes (keys sets) k0); simpl; rewrite E; exact IH.
Qed.

Lemma existsb_map_same {A} (p : A -> bool) (f : A -> A) (l : list A) :
  (forall x, p (f x) = p x) -> existsb p (map f l) = existsb p l.
Proof.
  intros H. induction l as [| x l IH]; simpl; [reflexivity |].
  rewrite H, IH. reflexivity.
Qed.

(** UPDATE with no [id] among the columns it sets keeps every id. *)
Lemma sql_update_keeps_ids sch sets idv t t' c id :
  includes (keys sets) "id" = false ->
  sql_update_by_id sch sets idv t = Some (t', c) ->
  existsb (fun r => sql_eq (field "id" r) (VInt id)) (rows t')
  = existsb (fun r => sql_eq (field "id" r) (VInt id)) (rows t).
Proof.
  intros Hid. unfold sql_update_by_id.
  destruct (negb (forallb (has_column sch) (keys sets))); [discriminate |].
  match goal with
  | |- (if ?b then _ else _) = _ -> _ => destruct b
  end; [discriminate |].
  intros H. inversion H; subst. simpl.
  apply existsb_map_same. intros r.
  destruct (sql_eq (field "id" r) idv); [| reflexivity].
  rewrite field_assign_other by exact Hid. reflexivity.
Qed.

(** The keys a download sets in a row it finds do not include [id]. *)
Lemma update_keys_exclude_id cols (record : Row) :
  includes
    (keys (map (fun key => (key, field key record))
               (filter (fun key => negb (String.eqb key "id")
                                   && includes cols key)
                       (keys record))))
    "id" = false.
Proof.
  unfold includes, keys. apply not_true_is_false. intros H.
  apply existsb_exists in H. destruct H as (k & Hin & Hk).
  apply String.eqb_eq in Hk. subst k.
  rewrite map_map in Hin. apply in_map_iff in Hin.
  destruct Hin as (k & Hk & Hin). simpl in Hk. subst k.
  apply filter_In in Hin. destruct Hin as [_ Hf].
  rewrite String.eqb_refl in Hf. discriminate Hf.
Qed.

Section Staying.
Context {Ext : Type} (out : Outside Ext).
Variables (n : string) (id : Z).

Local Abbreviation stays := (row_present (Ext := Ext) n id).

Lemma stays_put_table n' t t' (w : World Ext) :
  table_named n' (file w) = Some t ->
  (existsb (fun r => sql_eq (field "id" r) (VInt id)) (rows t) = true ->
   existsb (fun r => sql_eq (field "id" r) (VInt id)) (rows t') = true) ->
  stays w -> stays (set_file (put_table n' t' (file w)) w).
Proof.
  intros Ht Hmono (tb & Hn & Hex).
  unfold row_present, table_named, put_table in *. simpl.
  destruct (String.eqb n' "projects");
    [| destruct (String.eqb n' "tasks");
       [| destruct (String.eqb n' "tags");
          [| destruct (String.eqb n' "task_tags"); [| discriminate]]]];
    injection Ht as <-; simpl;
    (destruct (String.eqb n "projects");
     [| destruct (String.eqb n "tasks");
        [| destruct (String.eqb n "tags");
           [| destruct (String.eqb n "task_tags"); [| discriminate]]]]);
    injection Hn as <-;
    (eexists; split; [reflexivity | first [exact Hex | exact (Hmono Hex)]]).
Qed.

Lemma stays_run_insert n' fields : keeps stays (run_insert n' fields).
Proof.
  intros w r w' HP H. unfold run_insert in H.
  destruct (table_with_id n' (file w)) as [[sch t] |] eqn:Et;
    [| inversion H; subst; exact HP].
  destruct (sql_insert sch fields t) as [[t' i] |] eqn:Ei;
    inversion H; subst; [| exact HP].
  apply stays_put_table with (t := t); [| | exact HP].
  - unfold table_with_id in Et.
    destruct (schema_of n'); [| discriminate].
    destruct (table_named n' (file w)); [| discriminate].
    destruct (has_column s "id"); inversion Et; reflexivity.
  - destruct (sql_insert_appends _ _ _ Ei) as [row ->].
    intros Hex. rewrite existsb_app, Hex. reflexivity.
Qed.

Lemma stays_run_update n' sets idv :
  includes (keys sets) "id" = false ->
  keeps stays (run_update n' sets idv).
Proof.
  intros Hid w r w' HP H. unfold run_update in H.
  destruct (table_with_id n' (file w)) as [[sch t] |] eqn:Et;
    [| inversion H; subst; exact HP].
  destruct (sql_update_by_id sch sets idv t) as [[t' c] |] eqn:Eu;
    inversion H; subst; [| exact HP].
  apply stays_put_table with (t := t); [| | exact HP].
  - unfold table_with_id in Et.
    destruct (schema_of n'); [| discriminate].
    destruct (table_named n' (file w)); [| discriminate].
    destruct (has_column s "id"); inversion Et; reflexivity.
  - rewrite (sql_update_keeps_ids _ _ _ _ id Hid Eu). exact (fun H0 => H0).
Qed.

Lemma stays_run_insert_task_tag a b : keeps stays (run_insert_task_tag a b).
Proof.
  intros w r w' HP H. unfold run_insert_task_tag in H.
  destruct (sql_insert_task_tag a b (task_tags (file w))) as [t' |] eqn:Ei;
    inversion H; subst; [| exact HP].
  apply (@stays_put_table "task_tags" (task_tags (file w)) t' w);
    [reflexivity | | exact HP].
  unfold sql_insert_task_tag, sql_insert_or_ignore_task_tag in Ei.
  destruct (tagged a b (task_tags (file w))); [discriminate |].
  inversion Ei; subst. simpl. intros Hex. rewrite existsb_app, Hex.
  reflexivity.
Qed.

Lemma stays_outside {A} (call : Ext -> A * Ext) : keeps stays (outside call).
Proof.
  intros w r w' HP H. unfold outside in H.
  destruct (call (ext w)) as [a x]. inversion H; subst. exact HP.
Qed.

Lemma stays_getDb : keeps stays (getDb (Ext := Ext)).
Proof.
  intros w r w' HP H. unfold getDb in H.
  destruct (db w); inversion H; subst; exact HP.
Qed.

Lemma stays_run_first_by_id n' idv : keeps stays (run_first_by_id n' idv).
Proof.
  intros w r w' HP H. unfold run_first_by_id in H.
  destruct (table_with_id n' (file w)) as [[sch t] |];
    inversion H; subst; exact HP.
Qed.

Lemma stays_addSampleData : keeps stays (addSampleData (Ext := Ext)).
Proof.
  unfold addSampleData.
  repeat first
    [ apply keeps_bind; [| intros ?]
    | apply keeps_try_catch; [| intros ?]
    | apply keeps_ret
    | apply keeps_throw
    | apply keeps_if
    | apply stays_run_insert
    | apply stays_run_insert_task_tag ].
Qed.

Lemma stays_initDatabase : keeps stays (initDatabase out).
Proof.
  unfold initDatabase. apply keeps_bind; [apply keeps_gets |].
  intros opened. apply keeps_if; [apply keeps_ret |].
  unfold _initDatabase.
  apply keeps_try_catch.
  - apply keeps_bind; [apply keeps_modify; intros w H; exact H |]. intros _.
    apply keeps_bind; [apply stays_outside |]. intros opened'.
    apply keeps_if;
      [| apply keeps_bind; [apply keeps_gets | intros e; apply keeps_throw]].
    apply keeps_bind; [apply keeps_modify; intros w H; exact H |]. intros _.
    apply keeps_bind.
    { apply keeps_create_sync_tables.
      - intros x w H. exact H.
      - intros w _ H. exact H.
      - intros w _ H. exact H. }
    intros _.
    apply keeps_bind; [apply keeps_gets |]. intros count.
    apply keeps_if; [apply stays_addSampleData |].
    apply keeps_bind; [apply keeps_gets |]. intros inboxExists.
    apply keeps_if; [| apply keeps_ret].
    apply keeps_bind; [apply stays_run_insert | intros _; apply keeps_ret].
  - intros e. apply keeps_bind; [apply keeps_modify; intros w H; exact H |].
    intros _. apply keeps_throw.
Qed.

Lemma stays_withRetry {A} (operation : Async Ext A) :
  keeps stays operation -> keeps stays (withRetry out operation).
Proof.
  intros Hop. unfold withRetry. generalize "undefined" as lastError.
  generalize 3%nat as fuel.
  induction fuel as [| fuel IH]; intros lastError; simpl.
  - apply keeps_throw.
  - apply keeps_try_catch.
    + apply keeps_bind; [apply stays_initDatabase | intros _; exact Hop].
    + intros e. apply keeps_bind; [apply keeps_modify; intros w H; exact H |].
      intros _. apply IH.
Qed.

Lemma stays_updateSyncMetadata t idv u :
  keeps stays (updateSyncMetadata out t idv u).
Proof.
  unfold updateSyncMetadata, clock. apply stays_withRetry.
  apply keeps_bind; [apply stays_getDb | intros _].
  apply keeps_bind; [apply keeps_gets | intros t0].
  apply keeps_bind; [apply keeps_gets | intros meta].
  destruct meta; [| apply keeps_throw].
  apply keeps_modify. intros w H. exact H.
Qed.

Lemma stays_getLocalTableColumns t :
  keeps stays (getLocalTableColumns out t).
Proof.
  unfold getLocalTableColumns. apply stays_withRetry.
  apply keeps_bind; [apply stays_getDb | intros _; apply keeps_ret].
Qed.

Lemma stays_checkConnection : keeps stays (checkConnection out).
Proof.
  unfold checkConnection. apply keeps_if; [apply keeps_throw |].
  apply keeps_try_catch.
  - apply keeps_bind; [apply stays_outside |].
    intros [u | e]; [| apply keeps_throw].
    apply keeps_bind; [| intros _; apply keeps_ret].
    apply keeps_modify. intros w H. exact H.
  - intros _. apply keeps_bind; [| intros _; apply keeps_ret].
    apply keeps_modify. intros w H. exact H.
Qed.

Lemma stays_uploadToSupabase : keeps stays (uploadToSupabase out).
Proof.
  assert (Hchange : forall change c, keeps stays (upload_change out change c)).
  { intros change c. unfold upload_change, upload_attempt.
    apply keeps_try_catch.
    - apply keeps_bind.
      { unfold getLocalRecord. apply stays_withRetry.
        apply keeps_bind; [apply stays_getDb | intros _].
        apply stays_run_first_by_id. }
      intros [record |].
      + apply keeps_bind.
        * destruct (supabase_id change); apply stays_outside.
        * intros [data | e]; [| apply keeps_throw].
          apply keeps_bind; [apply stays_updateSyncMetadata |].
          intros _. apply keeps_ret.
      + apply keeps_bind.
        * destruct (supabase_id change); [| apply keeps_ret].
          apply keeps_bind; [apply stays_outside |].
          intros [u | e]; [apply keeps_ret | apply keeps_throw].
        * intros _. apply keeps_bind; [apply stays_updateSyncMetadata |].
          intros _. apply keeps_ret.
    - intros _. apply keeps_bind; [apply stays_updateSyncMetadata |].
      intros _. apply keeps_ret. }
  assert (Hchanges : forall changes c,
             keeps stays (upload_changes out changes c)).
  { induction changes as [| change rest IH]; intros c; simpl;
      [apply keeps_ret |].
    apply keeps_bind; [apply Hchange | intros c'; apply IH]. }
  unfold uploadToSupabase. apply keeps_bind.
  - unfold getPendingChanges. apply stays_withRetry.
    apply keeps_bind; [apply stays_getDb | intros _].
    apply keeps_try_catch; [| intros _; apply keeps_ret].
    apply keeps_bind; [apply keeps_gets | intros meta].
    destruct meta; [apply keeps_ret | apply keeps_throw].
  - intros changes. apply keeps_if; [apply keeps_ret |].
    apply keeps_bind; [apply Hchanges | intros c; apply keeps_ret].
Qed.

Lemma stays_store_record t record : keeps stays (store_record out t record).
Proof.
  unfold store_record.
  apply keeps_bind; [apply stays_getDb | intros _].
  apply keeps_bind; [apply stays_run_first_by_id | intros existing].
  apply keeps_bind; [| intros _; apply stays_updateSyncMetadata].
  destruct existing;
    (apply keeps_bind; [apply stays_getLocalTableColumns | intros cols];
     apply keeps_if; [| apply keeps_ret];
     apply keeps_bind; [| intros _; apply keeps_ret]).
  - apply stays_run_update. apply update_keys_exclude_id.
  - apply stays_run_insert.
Qed.

Lemma stays_downloadFromSupabase : keeps stays (downloadFromSupabase out).
Proof.
  assert (Hrecords : forall t data c,
             keeps stays (download_records out t data c)).
  { intros t. induction data as [| record rest IH]; intros c; simpl;
      [apply keeps_ret |].
    apply keeps_bind; [| intros c'; apply IH].
    unfold download_record.
    apply keeps_try_catch; [| intros _; apply keeps_ret].
    apply keeps_bind; [| intros _; apply keeps_ret].
    apply stays_withRetry. apply stays_store_record. }
  assert (Htables : forall tables c,
             keeps stays (download_tables out tables c)).
  { induction tables as [| t rest IH]; intros c; simpl; [apply keeps_ret |].
    apply keeps_bind; [| intros c'; apply IH].
    unfold download_table.
    apply keeps_try_catch; [| intros _; apply keeps_ret].
    apply keeps_bind; [apply stays_outside |].
    intros [data | e]; [apply Hrecords | apply keeps_throw]. }
  unfold downloadFromSupabase.
  apply keeps_bind; [apply keeps_gets | intros tables].
  apply keeps_bind; [apply Htables | intros c; apply keeps_ret].
Qed.

Lemma stays_logSyncOperation ty st msg k details :
  keeps stays (logSyncOperation out ty st msg k details).
Proof.
  unfold logSyncOperation, clock. apply stays_withRetry.
  apply keeps_bind; [apply stays_getDb | intros _].
  apply keeps_try_catch; [| intros _; apply keeps_ret].
  apply keeps_bind; [apply keeps_gets | intros t].
  apply keeps_bind; [apply keeps_gets | intros log].
  destruct log; [| apply keeps_throw].
  apply keeps_modify. intros w H. exact H.
Qed.

Lemma stays_notifyListeners st msg :
  keeps stays (notifyListeners (Ext := Ext) st msg).
Proof. apply keeps_modify. intros w H. exact H. Qed.

Lemma stays_sync force : keeps stays (sync out force).
Proof.
  unfold sync, clock.
  apply keeps_bind; [apply keeps_gets | intros t0].
  apply keeps_bind; [apply keeps_gets | intros busy].
  apply keeps_if; [apply keeps_ret |].
  apply keeps_bind; [apply keeps_modify; intros w H; exact H | intros _].
  apply keeps_bind; [apply stays_notifyListeners | intros _].
  intros w r w' HP H. unfold try_finally in H.
  match type of H with
  | (let (_, _) := ?m w in _) = _ => destruct (m w) as [r1 w1] eqn:E
  end.
  inversion H; subst.
  assert (Hpass : keeps stays (try_catch (sync_pass out t0)
                                         (sync_failed out t0))).
  { apply keeps_try_catch.
    - unfold sync_pass, clock.
      apply keeps_bind; [apply stays_checkConnection | intros connected].
      apply keeps_bind;
        [apply keeps_if; [apply keeps_throw | apply keeps_ret] | intros _].
      apply keeps_bind; [apply stays_notifyListeners | intros _].
      apply keeps_bind; [apply stays_uploadToSupabase | intros u].
      apply keeps_bind; [apply stays_notifyListeners | intros _].
      apply keeps_bind; [apply stays_downloadFromSupabase | intros d].
      apply keeps_bind; [apply keeps_gets | intros t].
      apply keeps_bind; [apply keeps_modify; intros w2 H2; exact H2 | intros _].
      apply keeps_bind; [apply keeps_gets | intros t'].
      apply keeps_bind; [apply stays_logSyncOperation | intros _].
      apply keeps_bind; [apply stays_notifyListeners | intros _].
      apply keeps_bind; [apply keeps_gets | intros syncTime].
      apply keeps_ret.
    - intros e. unfold sync_failed, clock.
      apply keeps_bind; [apply keeps_gets | intros t].
      apply keeps_bind; [apply stays_logSyncOperation | intros _].
      apply keeps_bind; [apply stays_notifyListeners | intros _].
      apply keeps_ret. }
  exact (Hpass _ _ _ HP E).
Qed.

End Staying.

(** X21.  No sync removes a local row: a row of a business table that
    is there before [uploadToSupabase()], [downloadFromSupabase()] or
    [sync(force)] is called is there, under the same id, when the call
    has ended, however it ends and whatever the remote holds; a record
    deleted on the remote stays in the local table. *)
Theorem sync_never_removes_a_local_row :
  forall (Ext : Type) (out : Outside Ext) (force : bool) (tableName : string)
         (id : Z) (w : World Ext),
    row_present tableName id w ->
    row_present tableName id (snd (uploadToSupabase out w)) /\
    row_present tableName id (snd (downloadFromSupabase out w)) /\
    row_present tableName id (snd (sync out force w)).
Proof.
  intros Ext out force tableName id w H. split; [| split].
  - destruct (uploadToSupabase out w) as [r w'] eqn:E.
    exact (@stays_uploadToSupabase Ext out tableName id w r w' H E).
  - destruct (downloadFromSupabase out w) as [r w'] eqn:E.
    exact (@stays_downloadFromSupabase Ext out tableName id w r w' H E).
  - destruct (sync out force w) as [r w'] eqn:E.
    exact (@stays_sync Ext out tableName id force w r w' H E).
Qed.

Lemma sync_never_removes_a_local_row_witness :
  row_present "projects" 2 remote_deleted_world /\
  row_present "projects" 2 (snd (sync service false remote_deleted_world)) /\
  fst (sync service false remote_deleted_world)
  = Returned (SyncDone 0 2 (Some 1000) 0) /\
  relation "projects"
           (relations (ext (snd (sync service false remote_deleted_world))))
  = Some [project 1 "Inbox"; project 9 "Shared"].
Proof.
  assert (H : row_present "projects" 2 remote_deleted_world)
    by (eexists; split; reflexivity).
  split; [exact H |].
  split; [exact (proj2 (proj2 (@sync_never_removes_a_local_row
                                 Server service false "projects" 2
                                 remote_deleted_world H))) |].
  split; vm_compute; reflexivity.
Defined.

(* ===================================================================== *)
(** ** Renaming a project *)
(* ===================================================================== *)

Lemma field_assign_hit sets k r :
  includes (keys r) k = true ->
  includes (keys sets) k = true ->
  field k (assign sets r) = field k sets.
Proof.
  intros Hr Hs. unfold assign.
  induction r as [| [k0 v] r IH]; simpl in *; [discriminate |].
  destruct (String.eqb k k0) eqn:E.
  - apply String.eqb_eq in E. subst k0. rewrite Hs. simpl.
    rewrite String.eqb_refl. reflexivity.
  - simpl in Hr.
    destruct (includes (keys sets) k0); simpl; rewrite E; exact (IH Hr).
Qed.

Lemma find_map_same {A} (p : A -> bool) (f : A -> A) (l : list A) :
  (forall x, p (f x) = p x) -> find p (map f l) = option_map f (find p l).
Proof.
  intros H. induction l as [| x l IH]; simpl; [reflexivity |].
  rewrite H. destruct (p x); [reflexivity | exact IH].
Qed.

Lemma sql_eq_int v z : sql_eq v (VInt z) = true -> v = VInt z.
Proof.
  destruct v as [| x | s]; simpl; try discriminate.
  intros H. apply Z.eqb_eq in H. subst. reflexivity.
Qed.

Section Rename.
Context {Ext : Type} (out : Outside Ext).

Lemma updateProject_open id name (w : World Ext) :
  db w = true ->
  existsb (fun r => sql_eq (field "id" r) (VInt id)) (rows (projects (file w)))
  = true ->
  updateProject out id name w
  = (Returned (id, name),
     let f1 := set_projects
                 (mkTable
                    (map (fun r => if sql_eq (field "id" r) (VInt id)
                                   then assign [("name", VText name)] r
                                   else r)
                         (rows (projects (file w))))
                    (seq (projects (file w))))
                 (file w) in
     match sync_metadata (file w) with
     | Some ms =>
         set_file (set_sync_metadata
                     (Some (meta_replace "projects" id None (now out (ext w)) ms))
                     f1) w
     | None => set_file f1 w
     end).
Proof.
  intros Hdb Hfound. unfold updateProject. apply withRetry_first; [exact Hdb |].
  rewrite (bind_returned _ _ _ (getDb_open _ Hdb)).
  unfold bind at 1. unfold run_update at 1. simpl.
  unfold sql_update_by_id. simpl. rewrite andb_false_r.
  rewrite (filter_hit_length _ _ Hfound). simpl.
  unfold bind at 1. unfold ret at 1.
  unfold bind at 1. rewrite insertSyncMetadata_open by exact Hdb. simpl.
  destruct (sync_metadata (file w)); reflexivity.
Qed.

End Rename.

(** X23.  On an initialised database that holds the project,
    [updateProject(id, name)] keeps the number of projects, leaves every
    project of another id and the other three tables as they are, and
    [getProjectById(id)] then reads a row of this id that carries the
    new name (in a table whose rows have a name column).  Whatever the
    project was tracked as before, it is tracked as pending with no
    remote id afterwards (when sync_metadata exists). *)
Theorem updateProject_renames_and_retracks :
  forall (Ext : Type) (out : Outside Ext) (id : Z) (name : string)
         (w : World Ext),
    db w = true ->
    existsb (fun r => sql_eq (field "id" r) (VInt id))
            (rows (projects (file w))) = true ->
    exists w',
      updateProject out id name w = (Returned (id, name), w') /\
      List.length (rows (projects (file w')))
      = List.length (rows (projects (file w))) /\
      filter (fun r => negb (sql_eq (field "id" r) (VInt id)))
             (rows (projects (file w')))
      = filter (fun r => negb (sql_eq (field "id" r) (VInt id)))
               (rows (projects (file w))) /\
      (exists r',
          getProjectById out id w' = (Returned (Some r'), w') /\
          field "id" r' = VInt id /\
          (Forall (fun r => includes (keys r) "name" = true)
                  (rows (projects (file w))) ->
           field "name" r' = VText name)) /\
      tasks (file w') = tasks (file w) /\
      tags (file w') = tags (file w) /\
      task_tags (file w') = task_tags (file w) /\
      (sync_metadata (file w) <> None ->
       tracked "projects" id w' = Some (pending, None)).
Proof.
  intros Ext out id name w Hdb Hfound.
  rewrite (updateProject_open out id name w Hdb Hfound).
  set (hit := fun r : Row => sql_eq (field "id" r) (VInt id)).
  set (f := fun r : Row => if hit r then assign [("name", VText name)] r else r).
  match goal with
  | |- exists w', (Returned _, ?W) = _ /\ _ => set (w1 := W)
  end.
  assert (Hp : rows (projects (file w1)) = map f (rows (projects (file w))))
    by (subst w1; destruct (sync_metadata (file w)); reflexivity).
  assert (Hk : tasks (file w1) = tasks (file w))
    by (subst w1; destruct (sync_metadata (file w)); reflexivity).
  assert (Hg : tags (file w1) = tags (file w))
    by (subst w1; destruct (sync_metadata (file w)); reflexivity).
  assert (Hj : task_tags (file w1) = task_tags (file w))
    by (subst w1; destruct (sync_metadata (file w)); reflexivity).
  assert (Hdb1 : db w1 = true)
    by (subst w1; destruct (sync_metadata (file w)); exact Hdb).
  assert (Hm : sync_metadata (file w) <> None ->
               tracked "projects" id w1 = Some (pending, None)).
  { intros Hsome. subst w1. unfold tracked, meta_rows.
    destruct (sync_metadata (file w)) as [ms |]; [| congruence]. simpl.
    rewrite meta_lookup_meta_replace. reflexivity. }
  clearbody w1.
  assert (Hsame : forall r, hit (f r) = hit r).
  { intros r. unfold f. destruct (hit r) eqn:E; [| exact E].
    unfold hit in *. rewrite field_assign_other by reflexivity. exact E. }
  exists w1. split; [reflexivity |].
  split; [rewrite Hp; apply length_map |].
  split.
  { rewrite Hp. clear Hp Hfound.
    induction (rows (projects (file w))) as [| r rs IH]; simpl;
      [reflexivity |].
    fold (hit (f r)). fold (hit r). rewrite Hsame.
    destruct (hit r) eqn:E; simpl; [exact IH |].
    unfold f at 1. rewrite E. rewrite IH. reflexivity. }
  split.
  { rewrite (getProjectById_open out id w1 Hdb1).
    unfold sql_first_by_id. fold hit. rewrite Hp.
    rewrite (find_map_same hit f _ Hsame).
    destruct (find hit (rows (projects (file w)))) as [r0 |] eqn:Ef.
    - exists (f r0). split; [reflexivity |].
      destruct (find_some _ _ Ef) as [Hin0 Hhit0].
      split.
      + apply sql_eq_int. fold (hit (f r0)). rewrite Hsame. exact Hhit0.
      + intros Hcols. rewrite Forall_forall in Hcols.
        unfold f. rewrite Hhit0.
        rewrite field_assign_hit; [reflexivity | exact (Hcols r0 Hin0) |].
        reflexivity.
    - exfalso. apply existsb_exists in Hfound.
      destruct Hfound as (r & Hin & Hr).
      pose proof (find_none _ _ Ef r Hin) as Hno. unfold hit in Hno.
      congruence. }
  repeat split; assumption.
Qed.

Lemma updateProject_renames_and_retracks_witness :
  exists w',
    updateProject service 2 "Renamed" synced_world
    = (Returned (2, "Renamed"), w') /\
    getProjectById service 2 w' = (Returned (Some (project 2 "Renamed")), w') /\
    tracked "projects" 2 synced_world = Some (synced, Some 7) /\
    tracked "projects" 2 w' = Some (pending, None).
Proof.
  destruct (@updateProject_renames_and_retracks Server service 2 "Renamed"
              synced_world eq_refl eq_refl)
    as (w' & E & _ & _ & (r' & Er & _) & _ & _ & _ & Ht).
  exists w'. split; [exact E |].
  assert (Hw : w' = snd (updateProject service 2 "Renamed" synced_world))
    by (rewrite E; reflexivity).
  split; [rewrite Hw; vm_compute; reflexivity |].
  split; [reflexivity |]. apply Ht. discriminate.
Defined.

(* ===================================================================== *)
(** ** Without the sync tables *)
(* ===================================================================== *)

Section Bare.
Context {Ext : Type} (out : Outside Ext).

Lemma uploadToSupabase_untracked (w : World Ext) :
  db w = true ->
  meta_rows (file w) = [] ->
  uploadToSupabase out w = (Returned 0%nat, w).
Proof.
  intros Hdb Hnone. unfold uploadToSupabase.
  rewrite (bind_returned _ _ _ (getPendingChanges_open out w Hdb)).
  rewrite Hnone. unfold meta_pending. simpl. rewrite firstn_nil. reflexivity.
Qed.

End Bare.

(** X24.  On an initialised database whose sync_metadata table is
    missing (its creation failed and [_initDatabase] went on without
    it) and whose next project id is at most 2^53, so that
    [lastInsertRowId] is that id exactly, [createProject] still stores
    the project and returns it, but
    the failure to mark it is swallowed: the project has no metadata
    row, and [uploadToSupabase()], before and after, returns 0 and asks
    nothing of the remote. *)
Theorem without_sync_tables_nothing_is_uploaded :
  forall (Ext : Type) (out : Outside Ext) (name : string) (w : World Ext),
    db w = true ->
    sync_metadata (file w) = None ->
    next_rowid (projects (file w)) <= MAX_SAFE ->
    uploadToSupabase out w = (Returned 0%nat, w) /\
    exists id w',
      createProject out name w = (Returned (id, name), w') /\
      rows (projects (file w'))
      = rows (projects (file w)) ++ [project id name] /\
      sync_metadata (file w') = None /\
      tracked "projects" id w' = None /\
      ext w' = ext w /\
      uploadToSupabase out w' = (Returned 0%nat, w').
Proof.
  intros Ext out name w Hdb Hnone Hsafe.
  assert (Hrows : meta_rows (file w) = [])
    by (unfold meta_rows; rewrite Hnone; reflexivity).
  split; [exact (uploadToSupabase_untracked out w Hdb Hrows) |].
  rewrite (createProject_open out name w Hdb). rewrite Hnone.
  cbv zeta. rewrite (js_number_next_rowid _ Hsafe).
  do 2 eexists. split; [reflexivity |]. simpl.
  split; [reflexivity |]. split; [exact Hnone |].
  split; [unfold tracked, meta_rows; simpl; rewrite Hnone; reflexivity |].
  split; [reflexivity |].
  apply uploadToSupabase_untracked; [exact Hdb |].
  unfold meta_rows. simpl. rewrite Hnone. reflexivity.
Qed.

Lemma without_sync_tables_nothing_is_uploaded_witness :
  exists w',
    createProject service "Garden" bare_world = (Returned (2, "Garden"), w') /\
    tracked "projects" 2 w' = None /\
    uploadToSupabase service w' = (Returned 0%nat, w') /\
    calls (ext w') = [].
Proof.
  destruct (@without_sync_tables_nothing_is_uploaded Server service "Garden"
              bare_world eq_refl eq_refl ltac:(vm_compute; discriminate))
    as (_ & id & w' & E & _ & _ & Ht & Hx & Hu).
  assert (Hid : id = 2).
  { assert (H : fst (createProject service "Garden" bare_world)
                = Returned (id, "Garden")) by (rewrite E; reflexivity).
    vm_compute in H. inversion H. reflexivity. }
  subst id. exists w'. split; [exact E |]. split; [exact Ht |].
  split; [exact Hu |]. rewrite Hx. reflexivity.
Defined.

(* ===================================================================== *)
(** ** A failing upload and the rest of the batch *)
(* ===================================================================== *)




Section Isolation.
Context {Ext : Type} (out : Outside Ext).

Hypothesis storage_opens : forall x, fst (sqlite_open out x) = true.








End Isolation.




(* ===================================================================== *)
(** ** Ids beyond 2^53 *)
(* ===================================================================== *)



